(** * SMART node firmware: the log file and its on-device rendering

    A shallow embedding of the four sketches of the SMART environmental
    monitoring node:

    - [SMART]     firmware/SMART.ino      (dual sensor, 15 minutes)
    - [SMARTnew]  firmware/SMARTnew.ino   (dual sensor, hourly, last 7 days,
                                           colour bands)
    - [Download]  firmware/SMARTnew.ino   (second sketch: DHT11 only, with the
                                           /download route)
    - [Basic]     firmware/SMARTnew.ino   (third sketch: DHT11 only)

    Every sketch is one [setup] and one [loop]; [loop] first serves a web
    client (the Presenter) and then, when the interval has elapsed, appends a
    record to the log file (the Sampler).  The device is modelled by explicit
    state passing over [Device]; what the hardware answers during one pass of
    [loop] is an input record [World]. *)

From Stdlib Require Import ZArith List Bool Lia String Ascii DecimalString.
From Stdlib Require Import Floats.SpecFloat.
From Equations.Prop Require Import Equations Logic.
Import ListNotations.
Open Scope string_scope.
Open Scope Z_scope.

(** ** Characters and line ends *)

Definition LF : ascii := "010"%char.
Definition CR : ascii := "013"%char.
Definition comma : ascii := ","%char.
Definition NUL : ascii := "000"%char.
Definition dq : string := String "034"%char EmptyString.
Definition crlf : string := String CR (String LF EmptyString).

(** ** Machine integers

    [unsigned long] and [unsigned int] are 32 bits wide on the boards these
    sketches are written for, [int] and [long] are 32-bit two's complement. *)

Definition two32 : Z := 2 ^ 32.

(** Unsigned 32-bit subtraction, as in [currentMillis - previousMillis]. *)
Definition usub32 (a b : Z) : Z := (a - b) mod two32.

(** Conversion of an [int] argument to an [unsigned int] parameter. *)
Definition unsigned (x : Z) : Z := if x <? 0 then x + two32 else x.

Definition to_uint8 (x : Z) : Z := x mod 2 ^ 8.
Definition to_uint16 (x : Z) : Z := x mod 2 ^ 16.
Definition to_uint32 (x : Z) : Z := x mod two32.
Definition to_int16 (x : Z) : Z := (x + 2 ^ 15) mod 2 ^ 16 - 2 ^ 15.
Definition to_int32 (x : Z) : Z := (x + 2 ^ 31) mod two32 - 2 ^ 31.

(** ** Arduino [String] (WString.cpp)

    The text of a [String] is a Rocq [string]: the [len] characters of its
    buffer, which may hold NUL bytes ([readStringUntil] and [+=] append
    whatever character they are given).  Indices are the [int]s of the
    sketches, with [-1] for "not found". *)

Fixpoint take (n : nat) (s : string) : string :=
  match n, s with
  | S n', String c s' => String c (take n' s')
  | _, _ => EmptyString
  end.

Fixpoint drop (n : nat) (s : string) : string :=
  match n, s with
  | S n', String _ s' => drop n' s'
  | _, _ => s
  end.

Fixpoint find_char (ch : ascii) (s : string) : option nat :=
  match s with
  | EmptyString => None
  | String c s' =>
      if Ascii.eqb c ch then Some O else option_map S (find_char ch s')
  end.

Fixpoint find_str (pat s : string) : option nat :=
  if prefix pat s then Some O
  else match s with
       | EmptyString => None
       | String _ s' => option_map S (find_str pat s')
       end.

Definition len (s : string) : Z := Z.of_nat (String.length s).

(** What a function of the C library sees of a buffer: the characters before
    the first NUL byte. *)
Fixpoint c_str (s : string) : string :=
  match s with
  | EmptyString => EmptyString
  | String c s' => if Ascii.eqb c NUL then EmptyString else String c (c_str s')
  end.

(** [strchr(s, ch)], as an offset: the first [ch] before the first NUL byte;
    for [ch = 0] the terminator itself. *)
Definition strchr (ch : ascii) (s : string) : option nat :=
  if Ascii.eqb ch NUL then Some (String.length (c_str s))
  else find_char ch (c_str s).

(** [strstr(s, pat)], as an offset. *)
Definition strstr (pat s : string) : option nat :=
  find_str (c_str pat) (c_str s).

(** [int String::indexOf(char ch, unsigned int fromIndex)]:
    [if (fromIndex >= len) return -1;] then [strchr(buffer + fromIndex, ch)]. *)
Definition indexOf (ch : ascii) (s : string) (fromIndex : Z) : Z :=
  let from := unsigned fromIndex in
  if len s <=? from then -1
  else match strchr ch (drop (Z.to_nat from) s) with
       | None => -1
       | Some k => from + Z.of_nat k
       end.

(** [int String::indexOf(const String &s2)], that is [indexOf(s2, 0)]:
    [if (0 >= len) return -1;] then [strstr(buffer, s2.buffer)]. *)
Definition indexOfStr (pat s : string) : Z :=
  if len s <=? 0 then -1
  else match strstr pat s with
       | None => -1
       | Some k => Z.of_nat k
       end.

(** [String String::substring(unsigned int left, unsigned int right)] *)
Definition substring (s : string) (left right : Z) : string :=
  let l := unsigned left in
  let r := unsigned right in
  let '(l, r) := if r <? l then (r, l) else (l, r) in
  if len s <=? l then EmptyString
  else
    let r := if len s <? r then len s else r in
    take (Z.to_nat (r - l)) (drop (Z.to_nat l) s).

(** [String String::substring(unsigned int beginIndex)] *)
Definition substring_from (s : string) (left : Z) : string :=
  substring s left (len s).

(** [bool String::startsWith(const String &prefix)], for a prefix made from a
    string literal as in the sketches (not empty, no NUL byte): [strncmp]
    over the length of the prefix. *)
Definition startsWith (s pre : string) : bool := prefix pre s.

(** [long String::toInt()] is [atol]: leading white space, an optional sign,
    then the longest run of decimal digits ([0] when there is none). *)
Definition is_space (c : ascii) : bool :=
  let n := nat_of_ascii c in
  (Nat.eqb n 32 || (Nat.leb 9 n && Nat.leb n 13))%bool.

Definition digit_of (c : ascii) : option Z :=
  let n := Z.of_nat (nat_of_ascii c) in
  if (48 <=? n) && (n <=? 57) then Some (n - 48) else None.

Fixpoint atol_digits (s : string) (acc : Z) : Z :=
  match s with
  | EmptyString => acc
  | String c s' =>
      match digit_of c with
      | Some k => atol_digits s' (10 * acc + k)
      | None => acc
      end
  end.

Fixpoint skip_spaces (s : string) : string :=
  match s with
  | String c s' => if is_space c then skip_spaces s' else s
  | EmptyString => s
  end.

Definition toInt (s : string) : Z :=
  match skip_spaces s with
  | String "-"%char s' => - atol_digits s' 0
  | String "+"%char s' => atol_digits s' 0
  | s' => atol_digits s' 0
  end.

(** [Stream::readStringUntil(terminator)] on a file: the characters before the
    first terminator (the terminator is consumed), or everything that is left
    when there is none.  The result is the line read and the unread rest. *)
Fixpoint readStringUntil (term : ascii) (s : string) : string * string :=
  match s with
  | EmptyString => (EmptyString, EmptyString)
  | String c s' =>
      if Ascii.eqb c term then (EmptyString, s')
      else let '(line, rest) := readStringUntil term s' in (String c line, rest)
  end.

(** ** Print (Print.cpp) *)

(** [print(int)], [print(unsigned)] : decimal digits. *)
Definition print_int (n : Z) : string := NilZero.string_of_int (Z.to_int n).

(** [sprintf] with the conversion [%02d]. *)
Definition fmt_02d (n : Z) : string :=
  let s := print_int n in
  if (String.length s <? 2)%nat then "0" ++ s else s.

(** ** Floating point

    A C [float] is an IEEE 754 binary32 value: a [spec_float] (precision 24,
    infinities at exponent 128).  The sketches only test for not-a-number,
    compare and print. *)

Definition float : Type := spec_float.

Definition isnan (x : float) : bool :=
  match x with
  | S754_nan => true
  | _ => false
  end.

(** Conversion of an integer constant to [float] (exact below [2^24]). *)
Definition float_of_int (n : Z) : float := binary_normalize 24 128 n 0 false.

(** C comparisons on [float]: each is false when an operand is not-a-number. *)
Definition fle (x y : float) : bool := SFleb x y.
Definition fge (x y : float) : bool := SFleb y x.
Definition feq (x y : float) : bool := SFeqb x y.

(** DallasTemperature.h: [#define DEVICE_DISCONNECTED_C -127] *)
Definition DEVICE_DISCONNECTED_C : float := float_of_int (-127).

(** What the sketches take from the vendor libraries without the repository
    defining it: the text [Print::print(double)] produces (two decimals), the
    heat index of the DHT library, and the bytes of program memory that
    follow RTClib's table of month lengths (offset [0] is the first byte
    after the table), which [date2days] reads for a month above 12. *)
Class Vendor : Type := {
  printFloat : float -> string;
  computeHeatIndex : float -> float -> bool -> float;
  pgm_after_daysInMonth : Z -> Z
}.

(** ** The device *)

Record Device : Type := mkDevice {
  log_file : string;        (* bytes of the log file on the SD card *)
  previousMillis : Z;       (* the interval timer of the sketch *)
  client_tx : string;       (* bytes sent to the connected client *)
  serial_tx : string        (* bytes sent to the diagnostic channel *)
}.

(** The readings of the sensors when they are polled. *)
Record Sensors : Type := mkSensors {
  readHumidity : float;
  readTemperature : float;        (* dht.readTemperature() *)
  readTemperatureF : float;       (* dht.readTemperature(true) *)
  getTempCByIndex0 : float        (* sensors.getTempCByIndex(0) *)
}.

(** What the hardware answers during one pass of [loop]: the client that
    [server.available()] returns, if any, as the characters it sends before it
    disconnects; whether [SD.open] succeeds for the Presenter and for the
    Sampler; [millis()]; the clock; the sensors. *)
Record World (Clock : Type) : Type := mkWorld {
  incoming : option string;
  sd_read_ok : bool;
  sd_write_ok : bool;
  millis : Z;
  clock : Clock;
  sensors : Sensors
}.
Arguments incoming {Clock} _.
Arguments sd_read_ok {Clock} _.
Arguments sd_write_ok {Clock} _.
Arguments millis {Clock} _.
Arguments clock {Clock} _.
Arguments sensors {Clock} _.

Definition action : Type := Device -> Device.

Definition seq (a b : action) : action := fun dv => b (a dv).
Notation "a ;; b" := (seq a b) (at level 61, right associativity).

Definition skip : action := fun dv => dv.

Definition client_print (s : string) : action := fun dv =>
  mkDevice (log_file dv) (previousMillis dv) (client_tx dv ++ s) (serial_tx dv).

Definition client_println (s : string) : action := client_print (s ++ crlf).

Definition serial_print (s : string) : action := fun dv =>
  mkDevice (log_file dv) (previousMillis dv) (client_tx dv) (serial_tx dv ++ s).

Definition serial_println (s : string) : action := serial_print (s ++ crlf).

(** Writing through a [File] opened with [FILE_WRITE] appends to the file. *)
Definition file_print (s : string) : action := fun dv =>
  mkDevice (log_file dv ++ s) (previousMillis dv) (client_tx dv) (serial_tx dv).

Definition file_println (s : string) : action := file_print (s ++ crlf).

Definition set_previousMillis (t : Z) : action := fun dv =>
  mkDevice (log_file dv) t (client_tx dv) (serial_tx dv).

(** [client.stop()]: the bytes sent are what the client has received. *)
Definition client_stop : action := skip.

(** [while (dataFile.available()) { String line = dataFile.readStringUntil('\n'); body }]
    over the unread rest of a file opened for reading. *)
Equations? while_available (body : string -> action) (rest : string) (dv : Device)
  : Device by wf (String.length rest) lt :=
  while_available body EmptyString dv := dv;
  while_available body (String c s) dv :=
    while_available body (snd (readStringUntil LF (String c s)))
                    (body (fst (readStringUntil LF (String c s))) dv).
Proof.
  clear while_available.
  assert (H : forall u, (String.length (snd (readStringUntil LF u)) <= String.length u)%nat).
  { induction u as [|a u IH]; simpl; [lia|].
    destruct (Ascii.eqb a LF); simpl; [lia|].
    destruct (readStringUntil LF u); simpl in *; lia. }
  simpl. destruct (Ascii.eqb c LF); simpl; [lia|].
  specialize (H s). destruct (readStringUntil LF s); simpl in *; lia.
Qed.

(** The request loop of [loop]:
    [while (client.connected()) { if (client.available()) { char c = client.read(); ... } }]
    over the characters the client sends.  [on_char] is what the sketch does
    with every character before it looks at it, [respond] what it does at the
    empty line that ends the request headers (followed by [break]).  When the
    characters run out the client has disconnected and the loop ends. *)
Fixpoint request_loop (on_char : ascii -> action) (respond : action)
         (chars : string) (currentLine : string) : action :=
  match chars with
  | EmptyString => skip
  | String c rest =>
      on_char c ;;
      if Ascii.eqb c LF then
        if (String.length currentLine =? 0)%nat then respond
        else request_loop on_char respond rest EmptyString
      else if negb (Ascii.eqb c CR) then
        request_loop on_char respond rest (currentLine ++ String c EmptyString)
      else request_loop on_char respond rest currentLine
  end.

(** The cell loop of the dual-sensor sketches:
    [while ((endIdx = line.indexOf(',', startIdx)) != -1) { <td>..</td>; startIdx = endIdx + 1; }]
    followed by the last cell and the end of the row. *)
Equations? print_cells (line : string) (startIdx : Z) (dv : Device)
  : Device by wf (Z.to_nat (len line - startIdx)) lt :=
  print_cells line startIdx dv with inspect (indexOf comma line startIdx) := {
    | exist _ endIdx Hidx with inspect (endIdx =? -1) := {
      | exist _ true _ :=
          (client_print "<td>" ;;
           client_print (substring_from line startIdx) ;;
           client_println "</td></tr>") dv
      | exist _ false Hne :=
          print_cells line (endIdx + 1)
            ((client_print "<td>" ;;
              client_print (substring line startIdx endIdx) ;;
              client_print "</td>") dv) } }.
Proof.
  clear print_cells.
  apply Z.eqb_neq in Hne.
  assert (Hk : forall u k, strchr comma u = Some k -> (k < String.length u)%nat).
  { unfold strchr. change (Ascii.eqb comma NUL) with false. cbv iota.
    induction u as [|a u IH]; simpl; intros k; [discriminate|].
    destruct (Ascii.eqb a NUL); [discriminate|]. simpl.
    destruct (Ascii.eqb a comma); [intros [= <-]; lia|].
    destruct (find_char comma (c_str u)) as [j|]; simpl; [|discriminate].
    intros [= <-]. specialize (IH j eq_refl). lia. }
  assert (Hd : forall n u, (String.length (drop n u) = String.length u - n)%nat).
  { induction n; destruct u; simpl; auto; lia. }
  revert Hne. unfold indexOf, unsigned, two32, len.
  destruct (startIdx <? 0) eqn:Hs;
    [apply Z.ltb_lt in Hs | apply Z.ltb_ge in Hs];
    (destruct (Z.of_nat (String.length line) <=? _) eqn:Hl;
     [congruence | apply Z.leb_gt in Hl]);
    (destruct (strchr comma _) as [k|] eqn:Hf; [|congruence]);
    apply Hk in Hf; rewrite Hd in Hf; intros _; lia.
Qed.

(** ** RTClib (DateTime, TimeSpan)

    The dual-sensor sketches read the clock through the RTClib vendor
    library.  Its date arithmetic is written out: seconds are [uint32_t],
    day counts [uint16_t], a [TimeSpan] holds [int32_t] seconds and
    [TimeSpan::days()] is [int16_t]. *)
Module RTClib.

Record DateTime : Type := mkDateTime {
  yOff : Z;      (* year offset from 2000 *)
  month : Z;
  day : Z;
  hour : Z;
  minute : Z;
  second : Z
}.

Definition SECONDS_FROM_1970_TO_2000 : Z := 946684800.

Definition daysInMonth : list Z := [31; 28; 31; 30; 31; 30; 31; 31; 30; 31; 30].

Section Flash.
Context {V : Vendor}.

(** [pgm_read_byte(daysInMonth + i)]: an entry of the table, which has
    eleven of them, or the byte of program memory at that place after it. *)
Definition pgm_read_byte_daysInMonth (i : Z) : Z :=
  match nth_error daysInMonth (Z.to_nat i) with
  | Some b => b
  | None => to_uint8 (pgm_after_daysInMonth (i - 11))
  end.

(** [DateTime(uint16_t year, uint8_t month, uint8_t day, uint8_t hour, uint8_t min, uint8_t sec)] *)
Definition DateTime_of (year mon dy hr mi sec : Z) : DateTime :=
  let year := to_uint16 year in
  let year := if 2000 <=? year then year - 2000 else year in
  mkDateTime (to_uint8 year) (to_uint8 mon) (to_uint8 dy)
             (to_uint8 hr) (to_uint8 mi) (to_uint8 sec).

(** [static uint16_t date2days(uint16_t y, uint8_t m, uint8_t d)]:
    [for (uint8_t i = 1; i < m; ++i) days += pgm_read_byte(daysInMonth + i - 1);]
    reads [m - 1] bytes from the start of the table, past its end for a
    month above 12. *)
Definition date2days (y m d : Z) : Z :=
  let y := if 2000 <=? y then y - 2000 else y in
  let days := d + fold_right Z.add 0
                    (map (fun i => pgm_read_byte_daysInMonth (Z.of_nat i))
                         (List.seq 0 (Z.to_nat (m - 1)))) in
  let days := if (2 <? m) && (y mod 4 =? 0) then days + 1 else days in
  to_uint16 (days + 365 * y + (y + 3) / 4 - 1).

(** [static uint32_t time2ulong(uint16_t days, uint8_t h, uint8_t m, uint8_t s)] *)
Definition time2ulong (days h m s : Z) : Z :=
  to_uint32 (((days * 24 + h) * 60 + m) * 60 + s).

(** [uint32_t DateTime::unixtime() const] *)
Definition unixtime (dt : DateTime) : Z :=
  to_uint32 (time2ulong (date2days (yOff dt) (month dt) (day dt))
                        (hour dt) (minute dt) (second dt)
             + SECONDS_FROM_1970_TO_2000).

(** [TimeSpan DateTime::operator-(const DateTime &right) const]: the
    [uint32_t] difference becomes the [int32_t] seconds of the [TimeSpan]. *)
Definition minus (a b : DateTime) : Z :=
  to_int32 (to_uint32 (unixtime a - unixtime b)).

End Flash.

(** [int16_t TimeSpan::days() const { return _seconds / 86400L; }] *)
Definition days (seconds : Z) : Z := to_int16 (Z.quot seconds 86400).

(** [timestamp(TIMESTAMP_DATE)]: [sprintf("%u-%02d-%02d", 2000U + yOff, m, d)] *)
Definition timestamp_date (dt : DateTime) : string :=
  print_int (2000 + yOff dt) ++ "-" ++ fmt_02d (month dt) ++ "-" ++ fmt_02d (day dt).

(** [timestamp(TIMESTAMP_TIME)]: [sprintf("%02d:%02d:%02d", hh, mm, ss)] *)
Definition timestamp_time (dt : DateTime) : string :=
  fmt_02d (hour dt) ++ ":" ++ fmt_02d (minute dt) ++ ":" ++ fmt_02d (second dt).

End RTClib.

(** ** firmware/SMART.ino *)
Module SMART.
Import RTClib.

Section Sketch.
Context {V : Vendor}.

Definition interval : Z := 900000.

Definition header : string :=
  "Date,Time,Humidity (%),Air Temp (C),Air Temp (F),Heat Index (C),Heat Index (F),Water Temp (C)".

(** [setup]: the log-file block.  [opened] tells whether
    [SD.open("datalog.csv", FILE_WRITE)] gave a file; the timer starts at 0. *)
Definition setup (opened : bool) : action := fun dv =>
  let dv := set_previousMillis 0 dv in
  if opened && (len (log_file dv) =? 0) then file_println header dv else dv.

(** The live readings of the page. *)
Definition live (s : Sensors) : action :=
  let h := readHumidity s in
  let t := readTemperature s in
  let f := readTemperatureF s in
  let hic := computeHeatIndex t h false in
  let hif := computeHeatIndex f h true in
  let waterTempC := getTempCByIndex0 s in
  client_print "<p><strong>Air Humidity:</strong> " ;;
  client_print (printFloat h) ;; client_println "%</p>" ;;
  client_print "<p><strong>Air Temperature:</strong> " ;;
  client_print (printFloat t) ;; client_print "&deg; C / " ;;
  client_print (printFloat f) ;; client_println "&deg; F</p>" ;;
  client_print "<p><strong>Heat Index:</strong> " ;;
  client_print (printFloat hic) ;; client_print "&deg; C / " ;;
  client_print (printFloat hif) ;; client_println "&deg; F</p>" ;;
  client_print "<p><strong>Water Temperature:</strong> " ;;
  client_print (printFloat waterTempC) ;; client_println "&deg; C</p>".

(** The body of the [while (dataFile.available())] loop. *)
Definition row (line : string) : action :=
  client_print "<tr>" ;; print_cells line 0.

(** The log table, from [SD.open("datalog.csv")] to the end of the [if]. *)
Definition log_table (opened : bool) : action := fun dv =>
  if opened then while_available row (log_file dv) dv
  else client_println "<p>Error opening datalog.csv</p>" dv.

(** What is sent at the empty line that ends the request headers: the
    status line and the page down to the head of the table, the log table,
    the end of the page. *)
Definition before_table (s : Sensors) : action :=
  client_println "HTTP/1.1 200 OK" ;;
  client_println "Content-Type: text/html" ;;
  client_println EmptyString ;;
  client_println "<html><head><title>Sensor Dashboard</title></head><body>" ;;
  client_println "<h2>Live Sensor Readings</h2>" ;;
  live s ;;
  client_println "<h3>Log Data</h3><table border='1'><tr><th>Date</th><th>Time</th><th>Humidity</th><th>Air Temp (C)</th><th>Air Temp (F)</th><th>HI (C)</th><th>HI (F)</th><th>Water Temp (C)</th></tr>".

Definition after_table : action :=
  client_println "</table></body></html>".

Definition respond (w : World DateTime) : action :=
  before_table (sensors w) ;;
  log_table (sd_read_ok w) ;;
  after_table.

(** [loop], first half: the web client. *)
Definition handle_client (w : World DateTime) : action :=
  match incoming w with
  | None => skip
  | Some chars =>
      serial_println "New client connected" ;;
      request_loop (fun _ => skip) (respond w) chars EmptyString ;;
      client_stop ;;
      serial_println "Client disconnected"
  end.

(** The record of one interval. *)
Definition record (now : DateTime) (s : Sensors) : string :=
  let h := readHumidity s in
  let t := readTemperature s in
  let f := readTemperatureF s in
  let hic := computeHeatIndex t h false in
  let hif := computeHeatIndex f h true in
  let waterTempC := getTempCByIndex0 s in
  timestamp_date now ++ "," ++ timestamp_time now ++ "," ++
  printFloat h ++ "," ++ printFloat t ++ "," ++ printFloat f ++ "," ++
  printFloat hic ++ "," ++ printFloat hif ++ "," ++ printFloat waterTempC ++ crlf.

(** [loop], second half: data logging. *)
Definition sampler (w : World DateTime) : action := fun dv =>
  let currentMillis := millis w in
  if interval <=? usub32 currentMillis (previousMillis dv) then
    let dv := set_previousMillis currentMillis dv in
    let s := sensors w in
    if isnan (readHumidity s) || isnan (readTemperature s)
       || isnan (readTemperatureF s)
       || feq (getTempCByIndex0 s) DEVICE_DISCONNECTED_C
    then serial_println "Sensor read failed!" dv
    else if sd_write_ok w then file_print (record (clock w) s) dv
    else serial_println "Error opening datalog.csv" dv
  else dv.

Definition loop (w : World DateTime) : action :=
  handle_client w ;; sampler w.

End Sketch.
End SMART.

(** ** firmware/SMARTnew.ino, first sketch: hourly log, last 7 days *)
Module SMARTnew.
Import RTClib.

Section Sketch.
Context {V : Vendor}.

Definition interval : Z := 3600000.

Definition header : string :=
  "Date,Time,Humidity (%),Air Temp (C),Air Temp (F),HI (C),HI (F),Water Temp (C)".

Definition setup (opened : bool) : action := fun dv =>
  let dv := set_previousMillis 0 dv in
  if opened && (len (log_file dv) =? 0) then file_println header dv else dv.

(** [String colorIndicator(float value, float greenMin, float greenMax, float yellowMin, float yellowMax)] *)
Definition colorIndicator (value greenMin greenMax yellowMin yellowMax : float) : string :=
  if fge value greenMin && fle value greenMax then "green"
  else if fge value yellowMin && fle value yellowMax then "orange"
  else "red".

Definition live (s : Sensors) : action :=
  let h := readHumidity s in
  let t := readTemperature s in
  let f := readTemperatureF s in
  let hic := computeHeatIndex t h false in
  let hif := computeHeatIndex f h true in
  let waterTempC := getTempCByIndex0 s in
  client_println "<div class='card'>" ;;
  client_print "<p><strong>Air Humidity:</strong> <span class='" ;;
  client_print (colorIndicator h (float_of_int 30) (float_of_int 60) (float_of_int 20) (float_of_int 70)) ;;
  client_print "'>" ;; client_print (printFloat h) ;; client_println "%</span></p>" ;;
  client_print "<p><strong>Air Temperature:</strong> <span class='" ;;
  client_print (colorIndicator t (float_of_int 20) (float_of_int 25) (float_of_int 15) (float_of_int 30)) ;;
  client_print "'>" ;; client_print (printFloat t) ;; client_print " &deg;C / " ;;
  client_print (printFloat f) ;; client_println " &deg;F</span></p>" ;;
  client_print "<p><strong>Heat Index:</strong> " ;;
  client_print (printFloat hic) ;; client_print " &deg;C / " ;;
  client_print (printFloat hif) ;; client_println " &deg;F</p>" ;;
  client_print "<p><strong>Water Temperature:</strong> <span class='" ;;
  client_print (colorIndicator waterTempC (float_of_int 15) (float_of_int 25) (float_of_int 10) (float_of_int 30)) ;;
  client_print "'>" ;; client_print (printFloat waterTempC) ;; client_println " &deg;C</span></p>" ;;
  client_println "</div>".

(** The date test of a line: [diff.days() <= 7] for
    [diff = now - DateTime(year, month, day, 0, 0, 0)], the three numbers
    sliced out of the first field at fixed offsets. *)
Definition within_7_days (now : DateTime) (line : string) : bool :=
  let commaIndex := indexOf comma line 0 in
  let dateStr := substring line 0 commaIndex in
  let year := toInt (substring dateStr 0 4) in
  let mon := toInt (substring dateStr 5 7) in
  let dy := toInt (substring dateStr 8 10) in
  let entryDate := DateTime_of year mon dy 0 0 0 in
  let diff := minus now entryDate in
  days diff <=? 7.

(** The body of the [while (dataFile.available())] loop. *)
Definition row (now : DateTime) (line : string) : action :=
  if startsWith line "Date" then skip
  else if within_7_days now line then client_print "<tr>" ;; print_cells line 0
  else skip.

Definition log_table (opened : bool) (now : DateTime) : action := fun dv =>
  if opened then while_available (row now) (log_file dv) dv
  else client_println "<tr><td colspan='8'>Error opening datalog.csv</td></tr>" dv.

Definition page_head : action :=
  client_println "<!DOCTYPE html><html><head>" ;;
  client_println "<meta name='viewport' content='width=device-width, initial-scale=1'>" ;;
  client_println "<title>SMART Node Dashboard</title>" ;;
  client_println "<style>" ;;
  client_println "body { font-family: Arial, sans-serif; background-color:#f4f4f4; margin:0; padding:20px; }" ;;
  client_println "h2, h3 { color:#2E8B57; }" ;;
  client_println ".card { background-color:#fff; padding:15px; margin:10px 0; border-radius:10px; box-shadow:0 2px 5px rgba(0,0,0,0.2);}" ;;
  client_println "table { border-collapse: collapse; width:100%; }" ;;
  client_println "th, td { text-align:center; padding:8px; border-bottom:1px solid #ddd; }" ;;
  client_println "th { background-color:#2E8B57; color:white; }" ;;
  client_println ".green { background-color: #a0e6a0; }" ;;
  client_println ".orange { background-color: #f4d27a; }" ;;
  client_println ".red { background-color: #f28c8c; }" ;;
  client_println "</style></head><body>" ;;
  client_println "<h2>SMART Node Environmental Dashboard</h2>".

Definition before_table (s : Sensors) : action :=
  client_println "HTTP/1.1 200 OK" ;;
  client_println "Content-Type: text/html" ;;
  client_println EmptyString ;;
  page_head ;;
  live s ;;
  client_println "<h3>Last 7 Days Log</h3>" ;;
  client_println "<table><tr><th>Date</th><th>Time</th><th>Humidity</th><th>Air Temp (C)</th><th>Air Temp (F)</th><th>HI (C)</th><th>HI (F)</th><th>Water Temp (C)</th></tr>".

Definition after_table : action :=
  client_println "</table>" ;;
  client_println "</body></html>".

Definition respond (w : World DateTime) : action :=
  before_table (sensors w) ;;
  log_table (sd_read_ok w) (clock w) ;;
  after_table.

Definition handle_client (w : World DateTime) : action :=
  match incoming w with
  | None => skip
  | Some chars =>
      serial_println "New client connected" ;;
      request_loop (fun _ => skip) (respond w) chars EmptyString ;;
      client_stop ;;
      serial_println "Client disconnected"
  end.

Definition record (now : DateTime) (s : Sensors) : string :=
  let h := readHumidity s in
  let t := readTemperature s in
  let f := readTemperatureF s in
  let hic := computeHeatIndex t h false in
  let hif := computeHeatIndex f h true in
  let waterTempC := getTempCByIndex0 s in
  timestamp_date now ++ "," ++ timestamp_time now ++ "," ++
  printFloat h ++ "," ++ printFloat t ++ "," ++ printFloat f ++ "," ++
  printFloat hic ++ "," ++ printFloat hif ++ "," ++ printFloat waterTempC ++ crlf.

Definition sampler (w : World DateTime) : action := fun dv =>
  let currentMillis := millis w in
  if interval <=? usub32 currentMillis (previousMillis dv) then
    let dv := set_previousMillis currentMillis dv in
    let s := sensors w in
    if isnan (readHumidity s) || isnan (readTemperature s)
       || isnan (readTemperatureF s)
       || feq (getTempCByIndex0 s) DEVICE_DISCONNECTED_C
    then serial_println "Sensor read failed!" dv
    else if sd_write_ok w then file_print (record (clock w) s) dv
    else serial_println "Error opening datalog.csv" dv
  else dv.

Definition loop (w : World DateTime) : action :=
  handle_client w ;; sampler w.

End Sketch.
End SMARTnew.

(** ** The clock of the single-sensor sketches (RTC.h, [RTCTime]) *)
Record RTCTime : Type := mkRTCTime {
  getDayOfMonth : Z;
  getMonth : Z;          (* Month2int(currentTime.getMonth()) *)
  getYear : Z;
  getHour : Z;
  getMinutes : Z;
  getSeconds : Z
}.

(** [Serial.write(c)] *)
Definition serial_write (c : ascii) : action := serial_print (String c EmptyString).

(** The record of the single-sensor sketches: [D/M/YYYY,H:M:S,temperature,humidity]. *)
Definition record_dmy {V : Vendor} (currentTime : RTCTime) (s : Sensors) : string :=
  let temperature := readTemperature s in
  let humidity := readHumidity s in
  print_int (getDayOfMonth currentTime) ++ "/" ++
  print_int (getMonth currentTime) ++ "/" ++
  print_int (getYear currentTime) ++ "," ++
  print_int (getHour currentTime) ++ ":" ++
  print_int (getMinutes currentTime) ++ ":" ++
  print_int (getSeconds currentTime) ++ "," ++
  printFloat temperature ++ "," ++
  printFloat humidity ++ crlf.

(** ** firmware/SMARTnew.ino, second sketch: DHT11 only, with [/download]

    The report of WiFi status changes at the head of [loop] (diagnostic
    channel only) is left out. *)
Module Download.

Section Sketch.
Context {V : Vendor}.

Definition interval : Z := 900000.

Definition header : string := "Date,Time,Temperature,Humidity".

(** [setup]: the header block.  When the file does not open the sketch
    reports it and halts ([None]). *)
Definition setup (opened : bool) (dv : Device) : option Device :=
  let dv := set_previousMillis 0 dv in
  if opened then Some (file_println header dv)
  else None.

(** The request loop of this sketch also accumulates [request]. *)
Fixpoint request_loop (respond : string -> action)
         (chars : string) (currentLine request : string) : action :=
  match chars with
  | EmptyString => skip
  | String c rest =>
      let request := request ++ String c EmptyString in
      serial_write c ;;
      if Ascii.eqb c LF then
        if (String.length currentLine =? 0)%nat then respond request
        else request_loop respond rest EmptyString request
      else if negb (Ascii.eqb c CR) then
        request_loop respond rest (currentLine ++ String c EmptyString) request
      else request_loop respond rest currentLine request
  end.

(** The download branch: [while (dataFile.available()) client.write(dataFile.read());] *)
Definition download (opened : bool) : action := fun dv =>
  if opened then
    (client_println "HTTP/1.1 200 OK" ;;
     client_println "Content-Type: text/plain" ;;
     client_println "Content-Disposition: attachment; filename=SMART_Node_Data.txt" ;;
     client_println "Connection: close" ;;
     client_println EmptyString ;;
     client_print (log_file dv)) dv
  else
    (client_println "HTTP/1.1 500 Internal Server Error" ;;
     client_println "Content-Type: text/plain" ;;
     client_println "Connection: close" ;;
     client_println EmptyString ;;
     client_println "Error opening data.txt for download.") dv.

Definition row (line : string) : action :=
  if startsWith line "Date,Time,Temperature,Humidity" then skip
  else
    let first := indexOf comma line 0 in
    let second := indexOf comma line (first + 1) in
    let third := indexOf comma line (second + 1) in
    client_println "<tr>" ;;
    client_println ("<td>" ++ substring line 0 first ++ "</td>") ;;
    client_println ("<td>" ++ substring line (first + 1) second ++ "</td>") ;;
    client_println ("<td>" ++ substring line (second + 1) third ++ "</td>") ;;
    client_println ("<td>" ++ substring_from line (third + 1) ++ "</td>") ;;
    client_println "</tr>".

Definition log_table (opened : bool) : action := fun dv =>
  if opened then while_available row (log_file dv) dv else dv.

Definition live (s : Sensors) : action :=
  client_print ("<p style=" ++ dq ++ "font-size:2vw;" ++ dq ++ ">Current Temperature Celsius: ") ;;
  client_print (printFloat (readTemperature s)) ;;
  client_print " &#8451;<br></p>" ;;
  client_print ("<p style=" ++ dq ++ "font-size:2vw;" ++ dq ++ ">Current Temperature Fahrenheit: ") ;;
  client_print (printFloat (readTemperatureF s)) ;;
  client_print " &#8457;<br></p>" ;;
  client_print ("<p style=" ++ dq ++ "font-size:2vw;" ++ dq ++ ">Current Humidity: ") ;;
  client_print (printFloat (readHumidity s)) ;;
  client_print " %<br></p>".

(** The default page. *)
Definition before_table (s : Sensors) : action :=
  client_println "<html>" ;;
  client_println "<head><title>SMART Node 01</title></head>" ;;
  client_println "<body>" ;;
  client_println ("<h1 style=" ++ dq ++ "text-align:center;" ++ dq ++ ">SMART Node 01</h1>") ;;
  client_println ("<p><a href=" ++ dq ++ "/download" ++ dq ++ " style=" ++ dq ++ "font-size:2vw;" ++ dq ++ ">[Download All Data]</a></p>") ;;
  live s ;;
  client_println "<h2>Data from data.txt:</h2>" ;;
  client_println "<table>" ;;
  client_println "<tr><th>Date</th><th>Time</th><th>Temperature</th><th>Humidity</th></tr>".

Definition after_table : action :=
  client_println "</table>" ;;
  client_println "</body></html>".

Definition dashboard (w : World RTCTime) : action :=
  before_table (sensors w) ;;
  log_table (sd_read_ok w) ;;
  after_table.

Definition respond (w : World RTCTime) (request : string) : action :=
  if 0 <=? indexOfStr "GET /download" request then download (sd_read_ok w)
  else dashboard w.

Definition handle_client (w : World RTCTime) : action :=
  match incoming w with
  | None => skip
  | Some chars =>
      serial_println "New client" ;;
      request_loop (respond w) chars EmptyString EmptyString ;;
      client_stop ;;
      serial_println "Client disconnected"
  end.

Definition sampler (w : World RTCTime) : action := fun dv =>
  let currentMillis := millis w in
  if interval <=? usub32 currentMillis (previousMillis dv) then
    let dv := set_previousMillis currentMillis dv in
    if sd_write_ok w then file_print (record_dmy (clock w) (sensors w)) dv
    else serial_println "Error opening data.txt file for writing!" dv
  else dv.

Definition loop (w : World RTCTime) : action :=
  handle_client w ;; sampler w.

End Sketch.
End Download.

(** ** firmware/SMARTnew.ino, third sketch: DHT11 only

    The report of WiFi status changes at the head of [loop] (diagnostic
    channel only) is left out. *)
Module Basic.

Section Sketch.
Context {V : Vendor}.

Definition interval : Z := 900000.

Definition header : string := "Date,Time,Temperature,Humidity".

Definition setup (opened : bool) (dv : Device) : option Device :=
  let dv := set_previousMillis 0 dv in
  if opened then Some (file_println header dv)
  else None.

Definition live (s : Sensors) : action :=
  let temperature := readTemperature s in
  let temperaturef := readTemperatureF s in
  let humidity := readHumidity s in
  client_print ("<p style=" ++ dq ++ "font-size:2vw;" ++ dq ++ "> Current Temperature Celsius: ") ;;
  client_print (printFloat temperature) ;;
  client_print " &#8451;<br></p>" ;;
  client_print ("<p style=" ++ dq ++ "font-size:2vw;" ++ dq ++ "> Current Temperature Fahrenheit: ") ;;
  client_print (printFloat temperaturef) ;;
  client_print " &#8457;<br></p>" ;;
  client_print ("<p style=" ++ dq ++ "font-size:2vw;" ++ dq ++ ">Current Humidity: ") ;;
  client_print (printFloat humidity) ;;
  client_print " %<br></p>".

Definition row (line : string) : action :=
  if startsWith line "Date,Time,Temperature,Humidity" then skip
  else
    client_println "<tr>" ;;
    client_println ("<td>" ++ substring line 0 (indexOf comma line 0) ++ "</td>") ;;
    client_println ("<td>" ++ substring_from line (indexOf comma line 0 + 1) ++ "</td>") ;;
    client_println "</tr>".

Definition log_table (opened : bool) : action := fun dv =>
  if opened then while_available row (log_file dv) dv
  else serial_println "Error opening data.txt file for reading!" dv.

Definition before_table (s : Sensors) : action :=
  client_println "HTTP/1.1 200 OK" ;;
  client_println "Content-type:text/html" ;;
  client_println EmptyString ;;
  live s ;;
  client_println "<h2>Data from data.txt:</h2>" ;;
  client_println "<table>" ;;
  client_println "<tr><th>Date</th><th>Time</th><th>Temperature</th><th>Humidity</th></tr>".

Definition after_table : action :=
  client_println "</table>" ;;
  client_println EmptyString.

Definition respond (w : World RTCTime) : action :=
  before_table (sensors w) ;;
  log_table (sd_read_ok w) ;;
  after_table.

Definition handle_client (w : World RTCTime) : action :=
  match incoming w with
  | None => skip
  | Some chars =>
      serial_println "New client connected" ;;
      request_loop serial_write (respond w) chars EmptyString ;;
      client_stop ;;
      serial_println "Client disconnected"
  end.

Definition sampler (w : World RTCTime) : action := fun dv =>
  let currentMillis := millis w in
  if interval <=? usub32 currentMillis (previousMillis dv) then
    let dv := set_previousMillis currentMillis dv in
    if sd_write_ok w then file_print (record_dmy (clock w) (sensors w)) dv
    else serial_println "Error opening data.txt file for writing!" dv
  else dv.

Definition loop (w : World RTCTime) : action :=
  handle_client w ;; sampler w.

End Sketch.
End Basic.

(** ** Notions the properties are stated with *)

(** What an action sends to a client that has received nothing yet, when the
    log file holds [file]. *)
Definition sent (a : action) (file : string) : string :=
  client_tx (a (mkDevice file 0 EmptyString EmptyString)).

(** An action of the Presenter: it leaves the log file and the interval
    timer as they are and sends [out file], [file] being the log file. *)
Definition sends (a : action) (out : string -> string) : Prop :=
  forall dv,
    log_file (a dv) = log_file dv /\
    previousMillis (a dv) = previousMillis dv /\
    client_tx (a dv) = client_tx dv ++ out (log_file dv).

(** The lines of a file, as successive [readStringUntil('\n')] give them. *)
Fixpoint file_lines (s : string) : list string :=
  match s with
  | EmptyString => []
  | String c s' =>
      if Ascii.eqb c LF then EmptyString :: file_lines s'
      else match file_lines s' with
           | [] => [String c EmptyString]
           | l :: ls => String c l :: ls
           end
  end.

(** The fields of a line: the line split on commas. *)
Fixpoint fields (s : string) : list string :=
  match s with
  | EmptyString => [EmptyString]
  | String c s' =>
      if Ascii.eqb c comma then EmptyString :: fields s'
      else match fields s' with
           | [] => [String c EmptyString]
           | f :: fs => String c f :: fs
           end
  end.

Definition join (l : list string) : string := fold_right append EmptyString l.

Definition td (field : string) : string := "<td>" ++ field ++ "</td>".

(** A table row with one cell per field of the line. *)
Definition table_row (line : string) : string :=
  "<tr>" ++ join (map td (fields line)) ++ "</tr>" ++ crlf.

(** A text without a NUL byte. *)
Definition nul_free (s : string) : Prop := find_char NUL s = None.

(** The cells the cell loop makes of a line: the line is cut at its commas
    as far as its first NUL byte, and what follows the last comma found is
    one cell, whatever it holds. *)
Fixpoint cells (s : string) : list string :=
  match s with
  | EmptyString => [EmptyString]
  | String c s' =>
      if Ascii.eqb c NUL then [s]
      else if Ascii.eqb c comma then EmptyString :: cells s'
      else match cells s' with
           | [] => [String c EmptyString]
           | f :: fs => String c f :: fs
           end
  end.

(** A table row with these cells. *)
Definition cell_row (line : string) : string :=
  "<tr>" ++ join (map td (cells line)) ++ "</tr>" ++ crlf.

(** The same row as the download sketch lays it out, one tag per line. *)
Definition table_row_ln (line : string) : string :=
  "<tr>" ++ crlf ++ join (map (fun f => td f ++ crlf) (fields line)) ++ "</tr>" ++ crlf.

(** The number of lines of a file: its line feeds. *)
Fixpoint line_count (s : string) : Z :=
  match s with
  | EmptyString => 0
  | String c s' => (if Ascii.eqb c LF then 1 else 0) + line_count s'
  end.

Definition contains (pat s : string) : bool :=
  match find_str pat s with
  | Some _ => true
  | None => false
  end.

(** The request up to and including the empty line that ends its headers,
    if the client sends one before it disconnects. *)
Fixpoint request_head (chars : string) (currentLine : string) : option string :=
  match chars with
  | EmptyString => None
  | String c rest =>
      option_map (String c)
        (if Ascii.eqb c LF then
           if (String.length currentLine =? 0)%nat then Some EmptyString
           else request_head rest EmptyString
         else if negb (Ascii.eqb c CR) then
           request_head rest (currentLine ++ String c EmptyString)
         else request_head rest currentLine)
  end.

(** The start line of a request. *)
Definition start_line (request : string) : string :=
  fst (readStringUntil LF request).

(** *** The calendar of the clock (years 2000 to 2099) *)

Definition is_leap (year : Z) : bool :=
  (year mod 4 =? 0) && (negb (year mod 100 =? 0) || (year mod 400 =? 0)).

Definition days_in_month (year m : Z) : Z :=
  if m =? 2 then (if is_leap year then 29 else 28)
  else if (m =? 4) || (m =? 6) || (m =? 9) || (m =? 11) then 30
  else 31.

Definition valid_date (dt : RTClib.DateTime) : Prop :=
  0 <= RTClib.yOff dt <= 99 /\
  1 <= RTClib.month dt <= 12 /\
  1 <= RTClib.day dt <= days_in_month (2000 + RTClib.yOff dt) (RTClib.month dt).

(** The same time of day on the next calendar day. *)
Definition next_day (dt : RTClib.DateTime) : RTClib.DateTime :=
  let y := RTClib.yOff dt in
  let m := RTClib.month dt in
  let d := RTClib.day dt in
  let '(y, m, d) :=
    if d <? days_in_month (2000 + y) m then (y, m, d + 1)
    else if m <? 12 then (y, m + 1, 1)
    else (y + 1, 1, 1) in
  RTClib.mkDateTime y m d (RTClib.hour dt) (RTClib.minute dt) (RTClib.second dt).

(** [days_later k dt]: [k] calendar days after [dt]. *)
Definition days_later (k : nat) (dt : RTClib.DateTime) : RTClib.DateTime :=
  Nat.iter k next_day dt.

(** The clock reading [now] with its time of day replaced. *)
Definition at_time (dt : RTClib.DateTime) (h mi s : Z) : RTClib.DateTime :=
  RTClib.mkDateTime (RTClib.yOff dt) (RTClib.month dt) (RTClib.day dt) h mi s.

(** *** Life of a device: restarts and passes of [loop] *)

Inductive event (Clock : Type) : Type :=
| Boot (opened : bool)
| Pass (w : World Clock).
Arguments Boot {Clock} _.
Arguments Pass {Clock} _.

Section Life.
Context {Clock : Type}.
Variable setup : bool -> action.
Variable loop : World Clock -> action.

Definition step (e : event Clock) : action :=
  match e with
  | Boot opened => setup opened
  | Pass w => loop w
  end.

(** A restart writes to the log file exactly when [setup] writes the header:
    the number of such restarts along a life. *)
Fixpoint header_writes (evs : list (event Clock)) (dv : Device) : nat :=
  match evs with
  | [] => O
  | e :: evs' =>
      ((match e with
        | Boot opened =>
            if String.eqb (log_file (setup opened dv)) (log_file dv) then 0 else 1
        | Pass _ => 0
        end) + header_writes evs' (step e dv))%nat
  end.

End Life.

(** *** Stand-ins for the vendor functions, to evaluate the sketches

    [print_2dec] is [Print::printFloat(number, 2)] of Print.cpp written out
    for a board whose [double] is IEEE 754 binary64, as [print(float)] calls
    it; the heat index stand-in propagates not-a-number and otherwise
    returns the temperature; the program memory after the table of month
    lengths is taken to hold zeros. *)

(** An integer constant as a [double]; a [float] promoted to [double]. *)
Definition double_of_int (n : Z) : spec_float := binary_normalize 53 1024 n 0 false.

Definition to_double (x : float) : spec_float :=
  match x with
  | S754_finite s m e => binary_normalize 53 1024 (if s then Z.neg m else Z.pos m) e s
  | _ => x
  end.

(** Conversion of a [double] to an unsigned integer type: truncation. *)
Definition truncate (x : spec_float) : Z :=
  match x with
  | S754_finite s m e =>
      let v := if 0 <=? e then Z.pos m * 2 ^ e else Z.pos m / 2 ^ (- e) in
      if s then - v else v
  | _ => 0
  end.

Definition print_2dec (x : float) : string :=
  match x with
  | S754_nan => "nan"
  | S754_infinity _ => "inf"
  | _ =>
      let number := to_double x in
      if SFltb (double_of_int 4294967040) number then "ovf"
      else if SFltb number (double_of_int (-4294967040)) then "ovf"
      else
        let negative := SFltb number (S754_zero false) in
        let number := if negative then SFopp number else number in
        let rounding :=
          SFdiv 53 1024
            (SFdiv 53 1024 (SFdiv 53 1024 (double_of_int 1) (double_of_int 2))
                           (double_of_int 10))
            (double_of_int 10) in
        let number := SFadd 53 1024 number rounding in
        let int_part := truncate number in
        let remainder := SFsub 53 1024 number (double_of_int int_part) in
        let remainder := SFmul 53 1024 remainder (double_of_int 10) in
        let first := truncate remainder in
        let remainder := SFsub 53 1024 remainder (double_of_int first) in
        let remainder := SFmul 53 1024 remainder (double_of_int 10) in
        let second := truncate remainder in
        (if negative then "-" else EmptyString) ++
        print_int int_part ++ "." ++ print_int first ++ print_int second
  end.

Definition bench : Vendor :=
  {| printFloat := print_2dec;
     computeHeatIndex := fun t h _ => if isnan t || isnan h then S754_nan else t;
     pgm_after_daysInMonth := fun _ => 0 |}.

Definition fresh (file : string) : Device := mkDevice file 0 EmptyString EmptyString.

(** The example log of the specification. *)
Definition example_row_1 : string := "2025-06-01,12:00:00,45.0,22.0,71.6,21.5,70.7,18.0".
Definition example_row_2 : string := "2025-06-02,13:00:00,46.0,23.0,73.4,22.5,72.5,18.5".

Definition example_log : string :=
  SMARTnew.header ++ crlf ++ example_row_1 ++ crlf ++ example_row_2 ++ crlf.

Definition june_3 : RTClib.DateTime := RTClib.mkDateTime 25 6 3 9 30 0.
Definition june_10 : RTClib.DateTime := RTClib.mkDateTime 25 6 10 9 30 0.

Definition mild : Sensors :=
  mkSensors (float_of_int 45) (float_of_int 22) (float_of_int 72) (float_of_int 18).

Definition dht_failed : Sensors :=
  mkSensors S754_nan S754_nan S754_nan (float_of_int 18).

Definition get (request : string) : string :=
  request ++ crlf ++ "Host: 192.168.4.1" ++ crlf ++ crlf.

(** The text of an action that only prints. *)
Definition text (a : action) : string := sent a EmptyString.

(** *** The text of the log table, sketch by sketch *)

(** SMART.ino: one row per line of the file. *)
Definition SMART_table (opened : bool) (file : string) : string :=
  if opened then join (map cell_row (file_lines file))
  else "<p>Error opening datalog.csv</p>" ++ crlf.

(** The 7-day sketch shows a line when it does not start with [Date] and
    passes the date test. *)
Definition shown {V : Vendor} (now : RTClib.DateTime) (line : string) : bool :=
  negb (startsWith line "Date") && SMARTnew.within_7_days now line.

Definition SMARTnew_table {V : Vendor} (opened : bool) (now : RTClib.DateTime)
           (file : string) : string :=
  if opened then join (map cell_row (filter (shown now) (file_lines file)))
  else "<tr><td colspan='8'>Error opening datalog.csv</td></tr>" ++ crlf.

(** The single-sensor sketches: what their loop body sends for each line. *)
Definition Download_table (opened : bool) (file : string) : string :=
  if opened
  then join (map (fun line => sent (Download.row line) EmptyString) (file_lines file))
  else EmptyString.

Definition Basic_table (opened : bool) (file : string) : string :=
  if opened
  then join (map (fun line => sent (Basic.row line) EmptyString) (file_lines file))
  else EmptyString.

Definition is_header (hd line : string) : bool := startsWith line hd.

(** The two answers of the download route. *)
Definition download_ok (file : string) : string :=
  "HTTP/1.1 200 OK" ++ crlf ++
  "Content-Type: text/plain" ++ crlf ++
  "Content-Disposition: attachment; filename=SMART_Node_Data.txt" ++ crlf ++
  "Connection: close" ++ crlf ++
  crlf ++
  file.

Definition download_failed : string :=
  "HTTP/1.1 500 Internal Server Error" ++ crlf ++
  "Content-Type: text/plain" ++ crlf ++
  "Connection: close" ++ crlf ++
  crlf ++
  "Error opening data.txt for download." ++ crlf.

(** The default page of the download sketch. *)
Definition Download_page {V : Vendor} (w : World RTCTime) (file : string) : string :=
  text (Download.before_table (sensors w)) ++
  Download_table (sd_read_ok w) file ++
  "</table>" ++ crlf ++ "</body></html>" ++ crlf.

(** The heat indices of a reading are not-a-number only when the
    temperature or the humidity they are computed from is. *)
Definition heat_index_nan_from_reading {V : Vendor} (s : Sensors) : Prop :=
  (isnan (computeHeatIndex (readTemperature s) (readHumidity s) false) = true ->
   isnan (readTemperature s) = true \/ isnan (readHumidity s) = true) /\
  (isnan (computeHeatIndex (readTemperatureF s) (readHumidity s) true) = true ->
   isnan (readTemperatureF s) = true \/ isnan (readHumidity s) = true).

(** The validity test of the dual-sensor sketches. *)
Definition rejected (s : Sensors) : bool :=
  isnan (readHumidity s) || isnan (readTemperature s) ||
  isnan (readTemperatureF s) || feq (getTempCByIndex0 s) DEVICE_DISCONNECTED_C.

(** *** Example worlds *)

Definition april_17 : RTCTime := mkRTCTime 17 4 2025 15 52 0.

(** A browser asks for the page; the card answers [opened]. *)
Definition visit {Clock : Type} (opened : bool) (now : Clock) (s : Sensors) : World Clock :=
  mkWorld Clock (Some (get "GET / HTTP/1.1")) opened true 0 now s.

(** A request for the page that carries the download token in a header. *)
Definition noted_request : string :=
  "GET / HTTP/1.1" ++ crlf ++ "X-Note: GET /download" ++ crlf ++ crlf.

Definition noted_visit : World RTCTime :=
  mkWorld RTCTime (Some noted_request) true true 0 april_17 mild.

(** A browser follows the download link. *)
Definition download_visit : World RTCTime :=
  mkWorld RTCTime (Some (get "GET /download HTTP/1.1")) true true 0 april_17 mild.

(** An interval has elapsed and the card accepts writes; no client. *)
Definition tick {Clock : Type} (now : Clock) (s : Sensors) : World Clock :=
  mkWorld Clock None true true 3600000 now s.

Definition small_log : string :=
  Download.header ++ crlf ++ "17/4/2025,15:52:0,22.00,45.00" ++ crlf.

(** *** Checking a property on every date of the clock's range *)

Definition Zrange (lo : Z) (n : nat) : list Z :=
  map (fun i => lo + Z.of_nat i) (List.seq 0 n).

Definition valid_dateb (dt : RTClib.DateTime) : bool :=
  (0 <=? RTClib.yOff dt) && (RTClib.yOff dt <=? 99) &&
  (1 <=? RTClib.month dt) && (RTClib.month dt <=? 12) &&
  (1 <=? RTClib.day dt) &&
  (RTClib.day dt <=? days_in_month (2000 + RTClib.yOff dt) (RTClib.month dt)).

Definition day_number {V : Vendor} (dt : RTClib.DateTime) : Z :=
  RTClib.date2days (RTClib.yOff dt) (RTClib.month dt) (RTClib.day dt).

(** What the date test relies on, for one date: the date field is ten
    characters without a comma or NUL byte that start with a digit and read
    back as the date; the day count of the clock library stays below its wrap
    and grows by one from a day to the next. *)
Definition date_ok {V : Vendor} (y m d : Z) : bool :=
  let dt := RTClib.mkDateTime y m d 0 0 0 in
  if valid_dateb dt then
    let s := RTClib.timestamp_date dt in
    (String.length s =? 10)%nat &&
    match find_char comma s with None => true | Some _ => false end &&
    match find_char NUL s with None => true | Some _ => false end &&
    negb (prefix "D" s) &&
    (toInt (substring s 0 4) =? 2000 + y) &&
    (toInt (substring s 5 7) =? m) &&
    (toInt (substring s 8 10) =? d) &&
    (day_number dt <=? 36524) &&
    (if RTClib.yOff (next_day dt) <=? 99
     then valid_dateb (next_day dt) && (day_number (next_day dt) =? day_number dt + 1)
     else true)
  else true.

(** The property [P] on every year offset below 100, month up to 12 and day
    up to 31. *)
Definition on_all_dates (P : Z -> Z -> Z -> bool) : bool :=
  forallb (fun y =>
    forallb (fun m =>
      forallb (fun d => P y m d) (Zrange 1 31)) (Zrange 1 12)) (Zrange 0 100).

(** The humidity band of the page. *)
Definition humidity_band (v : Z) : string :=
  SMARTnew.colorIndicator (float_of_int v)
    (float_of_int 30) (float_of_int 60) (float_of_int 20) (float_of_int 70).

Definition new_year_2000 : RTClib.DateTime := RTClib.mkDateTime 0 1 1 0 0 0.
Definition new_year_2069 : RTClib.DateTime := RTClib.mkDateTime 69 1 1 0 0 0.
Definition old_row : string := "2000-01-01,00:00:00,45.00,22.00,71.60,21.50,70.70,18.00".
Definition may_27 : RTClib.DateTime := RTClib.mkDateTime 25 5 27 12 0 0.
Definition may_26 : RTClib.DateTime := RTClib.mkDateTime 25 5 26 12 0 0.

(** The lines of a file that do not start with the header text. *)
Definition data_lines (hd file : string) : list string :=
  filter (fun line => negb (is_header hd line)) (file_lines file).

Definition example_rows : string :=
  example_row_1 ++ crlf ++ example_row_2 ++ crlf.

Definition smart_log : string := SMART.header ++ crlf ++ example_rows.

(** *** Notions for the properties of the Sampler and of the request loop *)

(** A text without a comma and without a line feed: it stays one field of
    one line when it is written into a record. *)
Definition plain (s : string) : Prop :=
  find_char comma s = None /\ find_char LF s = None.

(** The six readings of a record of the dual-sensor sketches print as plain
    texts. *)
Definition prints_plain {V : Vendor} (s : Sensors) : Prop :=
  plain (printFloat (readHumidity s)) /\
  plain (printFloat (readTemperature s)) /\
  plain (printFloat (readTemperatureF s)) /\
  plain (printFloat (computeHeatIndex (readTemperature s) (readHumidity s) false)) /\
  plain (printFloat (computeHeatIndex (readTemperatureF s) (readHumidity s) true)) /\
  plain (printFloat (getTempCByIndex0 s)).

(** The readings that a comma follows in a record of the dual-sensor
    sketches (all but the water temperature) print without NUL bytes. *)
Definition prints_nul_free {V : Vendor} (s : Sensors) : Prop :=
  nul_free (printFloat (readHumidity s)) /\
  nul_free (printFloat (readTemperature s)) /\
  nul_free (printFloat (readTemperatureF s)) /\
  nul_free (printFloat (computeHeatIndex (readTemperature s) (readHumidity s) false)) /\
  nul_free (printFloat (computeHeatIndex (readTemperatureF s) (readHumidity s) true)).

(** The fields of the record of the dual-sensor sketches, the carriage return
    of [println] at the end of the last one. *)
Definition record_fields {V : Vendor} (now : RTClib.DateTime) (s : Sensors) : list string :=
  [RTClib.timestamp_date now; RTClib.timestamp_time now;
   printFloat (readHumidity s); printFloat (readTemperature s);
   printFloat (readTemperatureF s);
   printFloat (computeHeatIndex (readTemperature s) (readHumidity s) false);
   printFloat (computeHeatIndex (readTemperatureF s) (readHumidity s) true);
   printFloat (getTempCByIndex0 s) ++ String CR EmptyString].

(** The fields of the record of the single-sensor sketches. *)
Definition record_dmy_fields {V : Vendor} (currentTime : RTCTime) (s : Sensors) : list string :=
  [print_int (getDayOfMonth currentTime) ++ "/" ++
   print_int (getMonth currentTime) ++ "/" ++ print_int (getYear currentTime);
   print_int (getHour currentTime) ++ ":" ++
   print_int (getMinutes currentTime) ++ ":" ++ print_int (getSeconds currentTime);
   printFloat (readTemperature s);
   printFloat (readHumidity s) ++ String CR EmptyString].

(** The fields joined by commas: a line. *)
Fixpoint join_commas (l : list string) : string :=
  match l with
  | [] => EmptyString
  | [f] => f
  | f :: fs => f ++ "," ++ join_commas fs
  end.

(** A file that is empty or ends with a line feed. *)
Definition terminated (file : string) : Prop :=
  file = EmptyString \/ exists body, file = body ++ String LF EmptyString.

(** Successive passes of [loop]. *)
Definition passes {Clock : Type} (loop : World Clock -> action)
           (ws : list (World Clock)) : action :=
  fun dv => fold_left (fun d w => loop w d) ws dv.

(** A life of a device: restarts and passes in the order they happen. *)
Definition life {Clock : Type} (setup : bool -> action) (loop : World Clock -> action)
           (evs : list (event Clock)) : action :=
  fun dv => fold_left (fun d e => step setup loop e d) evs dv.

(** The same world with another client. *)
Definition with_incoming {Clock : Type} (w : World Clock) (chars : option string)
  : World Clock :=
  mkWorld Clock chars (sd_read_ok w) (sd_write_ok w) (millis w) (clock w) (sensors w).

(** A row of the third sketch: two cells. *)
Definition two_cells (first rest : string) : string :=
  "<tr>" ++ crlf ++ td first ++ crlf ++ td rest ++ crlf ++ "</tr>" ++ crlf.

(** A row of the download sketch: four cells. *)
Definition four_cells (a b c d : string) : string :=
  "<tr>" ++ crlf ++ td a ++ crlf ++ td b ++ crlf ++ td c ++ crlf ++ td d ++ crlf ++
  "</tr>" ++ crlf.

(** A text with a NUL byte in front of a comma. *)
Definition nul_then_comma : string := "x" ++ String NUL "y,z".

(** A world in which the interval has elapsed since [previousMillis = 0]. *)
Definition hour_later {Clock : Type} (w : World Clock) : World Clock :=
  mkWorld Clock (incoming w) (sd_read_ok w) (sd_write_ok w)
          (millis w + 3600000) (clock w) (sensors w).

(** A line of a request without its carriage returns: what [currentLine]
    accumulates. *)
Fixpoint strip_cr (s : string) : string :=
  match s with
  | EmptyString => EmptyString
  | String c s' => if Ascii.eqb c CR then strip_cr s' else String c (strip_cr s')
  end.

(** Lines each followed by a line feed. *)
Definition unlines (ls : list string) : string :=
  join (map (fun l => l ++ String LF EmptyString) ls).

(** A line of a request that is not the end of the headers: no line feed
    inside, and something else than carriage returns. *)
Definition header_line (l : string) : Prop :=
  find_char LF l = None /\ strip_cr l <> EmptyString.

(** * Properties *)

(** ** Strings *)

Lemma append_nil_r (s : string) : s ++ EmptyString = s.
Proof. induction s; simpl; congruence. Qed.

Lemma append_assoc (a b c : string) : (a ++ b) ++ c = a ++ b ++ c.
Proof. induction a; simpl; congruence. Qed.

Lemma length_append (a b : string) :
  String.length (a ++ b) = (String.length a + String.length b)%nat.
Proof. induction a; simpl; congruence. Qed.

Lemma drop_append (a b : string) : drop (String.length a) (a ++ b) = b.
Proof. induction a; simpl; auto. Qed.

Lemma take_append (a b : string) : take (String.length a) (a ++ b) = a.
Proof. induction a; simpl; congruence. Qed.

Lemma take_all (a : string) : take (String.length a) a = a.
Proof. induction a; simpl; congruence. Qed.

Lemma unsigned_nonneg (x : Z) : 0 <= x -> unsigned x = x.
Proof. intros H. unfold unsigned. destruct (Z.ltb_spec x 0); lia. Qed.

(** ** Actions of the Presenter *)

Lemma sends_skip : sends skip (fun _ => EmptyString).
Proof. intros dv. unfold skip. rewrite append_nil_r. auto. Qed.

Lemma sends_client_print (s : string) : sends (client_print s) (fun _ => s).
Proof. intros dv. simpl. auto. Qed.

Lemma sends_client_println (s : string) : sends (client_println s) (fun _ => s ++ crlf).
Proof. apply sends_client_print. Qed.

Lemma sends_serial_print (s : string) : sends (serial_print s) (fun _ => EmptyString).
Proof. intros dv. simpl. rewrite append_nil_r. auto. Qed.

Lemma sends_serial_println (s : string) : sends (serial_println s) (fun _ => EmptyString).
Proof. apply sends_serial_print. Qed.

Lemma sends_serial_write (c : ascii) : sends (serial_write c) (fun _ => EmptyString).
Proof. apply sends_serial_print. Qed.

Lemma sends_seq (a b : action) (f g : string -> string) :
  sends a f -> sends b g -> sends (a ;; b) (fun file => f file ++ g file).
Proof.
  intros Ha Hb dv. unfold seq.
  destruct (Ha dv) as (Ha1 & Ha2 & Ha3).
  destruct (Hb (a dv)) as (Hb1 & Hb2 & Hb3).
  rewrite Hb1, Hb2, Hb3, Ha1, Ha2, Ha3, append_assoc. auto.
Qed.

Lemma sends_ext (a : action) (f g : string -> string) :
  sends a f -> (forall file, f file = g file) -> sends a g.
Proof. intros Ha E dv. rewrite <- E. apply Ha. Qed.

(** What an action sends is what it sends to a fresh client. *)
Lemma sends_sent (a : action) (f : string -> string) :
  sends a f -> sends a (sent a).
Proof.
  intros Ha. apply (sends_ext a f); [assumption|].
  intros file. unfold sent.
  destruct (Ha (mkDevice file 0 EmptyString EmptyString)) as (_ & _ & H).
  rewrite H. reflexivity.
Qed.

(** ** The line loop *)

Lemma file_lines_step (c : ascii) (s : string) :
  file_lines (String c s) =
  fst (readStringUntil LF (String c s)) :: file_lines (snd (readStringUntil LF (String c s))).
Proof.
  revert c. induction s as [|a s IH]; intros c.
  - simpl. destruct (Ascii.eqb c LF); reflexivity.
  - change (file_lines (String c (String a s)))
      with (if Ascii.eqb c LF then EmptyString :: file_lines (String a s)
            else match file_lines (String a s) with
                 | [] => [String c EmptyString]
                 | l :: ls => String c l :: ls
                 end).
    change (readStringUntil LF (String c (String a s)))
      with (if Ascii.eqb c LF then (EmptyString, String a s)
            else let '(line, rest) := readStringUntil LF (String a s) in
                 (String c line, rest)).
    destruct (Ascii.eqb c LF); [reflexivity|].
    rewrite IH. destruct (readStringUntil LF (String a s)); reflexivity.
Qed.

(** The loop runs its body on every line of the file, in order. *)
Lemma while_available_lines (body : string -> action) (rest : string) (dv : Device) :
  while_available body rest dv =
  fold_left (fun d line => body line d) (file_lines rest) dv.
Proof.
  funelim (while_available body rest dv).
  - reflexivity.
  - rewrite file_lines_step. simpl fold_left. assumption.
Qed.

Lemma sends_fold (body : string -> action) (out : string -> string) (lines : list string) :
  (forall line, sends (body line) (fun _ => out line)) ->
  sends (fun dv => fold_left (fun d line => body line d) lines dv)
        (fun _ => join (map out lines)).
Proof.
  intros Hb. induction lines as [|l ls IH]; intros dv.
  - simpl. rewrite append_nil_r. auto.
  - simpl fold_left.
    destruct (IH (body l dv)) as (I1 & I2 & I3).
    destruct (Hb l dv) as (B1 & B2 & B3).
    rewrite I1, I2, I3, B1, B2, B3. simpl. rewrite append_assoc. auto.
Qed.

Lemma sends_while_available (body : string -> action) (out : string -> string) :
  (forall line, sends (body line) (fun _ => out line)) ->
  sends (fun dv => while_available body (log_file dv) dv)
        (fun file => join (map out (file_lines file))).
Proof.
  intros Hb dv. rewrite while_available_lines.
  apply (sends_fold body out (file_lines (log_file dv)) Hb dv).
Qed.

(** ** The cell loop *)

Lemma client_print_twice (a b : string) (dv : Device) :
  client_print b (client_print a dv) = client_print (a ++ b) dv.
Proof. unfold client_print. simpl. rewrite append_assoc. reflexivity. Qed.

Lemma len_append (a b : string) : len (a ++ b) = len a + len b.
Proof. unfold len. rewrite length_append. lia. Qed.

Lemma len_nonneg (a : string) : 0 <= len a.
Proof. unfold len. lia. Qed.

Lemma find_char_none_fields (u : string) :
  find_char comma u = None -> fields u = [u].
Proof.
  induction u as [|a u IH]; simpl; [reflexivity|].
  destruct (Ascii.eqb a comma); [discriminate|].
  destruct (find_char comma u); simpl; [discriminate|].
  intros _. rewrite IH; reflexivity.
Qed.

Lemma find_char_some_fields (u : string) (k : nat) :
  find_char comma u = Some k ->
  (k < String.length u)%nat /\
  u = take k u ++ String comma (drop (S k) u) /\
  fields u = take k u :: fields (drop (S k) u).
Proof.
  revert k. induction u as [|a u IH]; simpl; intros k; [discriminate|].
  destruct (Ascii.eqb_spec a comma) as [->|Hne].
  - intros [= <-]. simpl. repeat split; lia.
  - destruct (find_char comma u) as [j|]; simpl; [|discriminate].
    intros [= <-]. destruct (IH j eq_refl) as (H1 & H2 & H3).
    repeat split; [lia| |].
    + simpl. f_equal. exact H2.
    + rewrite H3. reflexivity.
Qed.

(** *** Texts with and without NUL bytes *)

Lemma c_str_nul_free (s : string) : nul_free s -> c_str s = s.
Proof.
  unfold nul_free. induction s as [|a s IH]; simpl; [reflexivity|].
  destruct (Ascii.eqb a NUL); [discriminate|].
  destruct (find_char NUL s); [discriminate|].
  intros _. rewrite IH; reflexivity.
Qed.

Lemma c_str_append (a b : string) : nul_free a -> c_str (a ++ b) = a ++ c_str b.
Proof.
  unfold nul_free. induction a as [|c a IH]; simpl; [reflexivity|].
  destruct (Ascii.eqb c NUL); [discriminate|].
  destruct (find_char NUL a); [discriminate|].
  intros _. rewrite IH; reflexivity.
Qed.

Lemma c_str_front (s : string) : exists tail, s = c_str s ++ tail.
Proof.
  induction s as [|a s [tail IH]]; simpl.
  - exists EmptyString. reflexivity.
  - destruct (Ascii.eqb a NUL).
    + exists (String a s). reflexivity.
    + exists tail. simpl. rewrite <- IH. reflexivity.
Qed.

Lemma nul_free_append (a b : string) :
  nul_free (a ++ b) <-> nul_free a /\ nul_free b.
Proof.
  unfold nul_free. induction a as [|c a IH]; simpl.
  - tauto.
  - destruct (Ascii.eqb c NUL).
    + split; [discriminate | intros [H _]; discriminate].
    + destruct (find_char NUL (a ++ b)) as [i|], (find_char NUL a) as [j|]; simpl.
      * split; [discriminate | intros [H _]; discriminate].
      * split; [discriminate|]. intros [_ H].
        pose proof (proj2 IH (conj eq_refl H)). discriminate.
      * split; [|intros [H _]; discriminate]. intros _.
        destruct (proj1 IH eq_refl). discriminate.
      * split; [|reflexivity]. intros _. exact (proj1 IH eq_refl).
Qed.

Lemma find_char_c_str_none (ch : ascii) (s : string) :
  find_char ch s = None -> find_char ch (c_str s) = None.
Proof.
  induction s as [|c s IH]; simpl; [reflexivity|].
  destruct (Ascii.eqb c ch) eqn:E; [discriminate|].
  destruct (find_char ch s); [discriminate|]. intros _.
  destruct (Ascii.eqb c NUL); [reflexivity|]. simpl. rewrite E, IH; reflexivity.
Qed.

Lemma nul_free_cons (c : ascii) (s : string) :
  nul_free (String c s) <-> Ascii.eqb c NUL = false /\ nul_free s.
Proof.
  unfold nul_free. simpl. destruct (Ascii.eqb c NUL).
  - split; [discriminate | intros [H _]; discriminate].
  - destruct (find_char NUL s); simpl; split;
      first [discriminate | intros [_ H]; discriminate H | auto].
Qed.

Lemma cells_none (u : string) :
  find_char comma (c_str u) = None -> cells u = [u].
Proof.
  induction u as [|a u IH]; simpl; [reflexivity|].
  destruct (Ascii.eqb a NUL); [reflexivity|]. simpl.
  destruct (Ascii.eqb a comma); [discriminate|].
  destruct (find_char comma (c_str u)); simpl; [discriminate|].
  intros _. rewrite IH; reflexivity.
Qed.

Lemma cells_some (u : string) (k : nat) :
  find_char comma (c_str u) = Some k ->
  (k < String.length u)%nat /\
  u = take k u ++ String comma (drop (S k) u) /\
  cells u = take k u :: cells (drop (S k) u).
Proof.
  revert k. induction u as [|a u IH]; simpl; intros k; [discriminate|].
  destruct (Ascii.eqb a NUL) eqn:En; [discriminate|]. simpl.
  destruct (Ascii.eqb_spec a comma) as [->|Hne].
  - intros [= <-]. simpl. repeat split; lia.
  - destruct (find_char comma (c_str u)) as [j|]; simpl; [|discriminate].
    intros [= <-]. destruct (IH j eq_refl) as (H1 & H2 & H3).
    repeat split; [lia| |].
    + simpl. f_equal. exact H2.
    + rewrite H3. reflexivity.
Qed.

(** A line without a NUL byte is cut at every comma. *)
Lemma cells_fields (u : string) : nul_free u -> cells u = fields u.
Proof.
  unfold nul_free. induction u as [|a u IH]; simpl; [reflexivity|].
  destruct (Ascii.eqb a NUL); [discriminate|].
  destruct (find_char NUL u); [discriminate|].
  intros _. rewrite IH; reflexivity.
Qed.

Lemma cell_row_table_row (line : string) :
  nul_free line -> cell_row line = table_row line.
Proof. intros H. unfold cell_row, table_row. rewrite cells_fields by assumption. reflexivity. Qed.

Lemma indexOf_from (p u : string) :
  indexOf comma (p ++ u) (len p) =
  match find_char comma (c_str u) with
  | None => -1
  | Some k => len p + Z.of_nat k
  end.
Proof.
  unfold indexOf. rewrite (unsigned_nonneg (len p)) by apply len_nonneg.
  rewrite len_append.
  destruct (Z.leb_spec (len p + len u) (len p)) as [H|H].
  - destruct u; [reflexivity|]. unfold len in H. simpl in H. lia.
  - unfold len at 1. rewrite Nat2Z.id, drop_append. reflexivity.
Qed.

Lemma substring_from_suffix (p u : string) :
  substring_from (p ++ u) (len p) = u.
Proof.
  unfold substring_from, substring.
  rewrite (unsigned_nonneg (len p)) by apply len_nonneg.
  rewrite (unsigned_nonneg (len (p ++ u))) by apply len_nonneg.
  rewrite len_append.
  destruct (Z.ltb_spec (len p + len u) (len p)) as [H|H];
    [pose proof (len_nonneg u); lia|].
  destruct (Z.leb_spec (len p + len u) (len p)) as [H1|H1].
  - destruct u; [reflexivity|]. unfold len in H1. simpl in H1. lia.
  - rewrite Z.ltb_irrefl.
    replace (len p + len u - len p) with (len u) by lia.
    unfold len. rewrite !Nat2Z.id, drop_append. apply take_all.
Qed.

Lemma substring_middle (p u : string) (k : nat) :
  (k < String.length u)%nat ->
  substring (p ++ u) (len p) (len p + Z.of_nat k) = take k u.
Proof.
  intros Hk. unfold substring.
  rewrite (unsigned_nonneg (len p)) by apply len_nonneg.
  rewrite (unsigned_nonneg (len p + Z.of_nat k)) by (pose proof (len_nonneg p); lia).
  destruct (Z.ltb_spec (len p + Z.of_nat k) (len p)) as [H|H]; [lia|].
  rewrite len_append.
  assert (Hu : Z.of_nat k < len u) by (unfold len; lia).
  destruct (Z.leb_spec (len p + len u) (len p)) as [H1|H1]; [lia|].
  destruct (Z.ltb_spec (len p + len u) (len p + Z.of_nat k)) as [H2|H2]; [lia|].
  replace (len p + Z.of_nat k - len p) with (Z.of_nat k) by lia.
  unfold len. rewrite !Nat2Z.id, drop_append. reflexivity.
Qed.

Lemma print_cells_step (line : string) (i : Z) (dv : Device) :
  print_cells line i dv =
  if indexOf comma line i =? -1 then
    (client_print "<td>" ;; client_print (substring_from line i) ;;
     client_println "</td></tr>") dv
  else print_cells line (indexOf comma line i + 1)
         ((client_print "<td>" ;;
           client_print (substring line i (indexOf comma line i)) ;;
           client_print "</td>") dv).
Proof.
  rewrite print_cells_equation_1. unfold print_cells_unfold_clause_1. simpl.
  destruct (indexOf comma line i =? -1) eqn:E; reflexivity.
Qed.

(** From any position that follows a prefix [p], the loop sends one cell per
    field of the rest of the line and closes the row. *)
Lemma print_cells_cells (n : nat) :
  forall (u p : string) (dv : Device),
    (String.length u <= n)%nat ->
    print_cells (p ++ u) (len p) dv =
    client_print (join (map td (cells u)) ++ "</tr>" ++ crlf) dv.
Proof.
  induction n as [|n IH]; intros u p dv Hn.
  - destruct u; [|simpl in Hn; lia].
    rewrite print_cells_step, indexOf_from. simpl find_char. simpl Z.eqb.
    rewrite substring_from_suffix. unfold seq, client_println.
    rewrite !client_print_twice. reflexivity.
  - rewrite print_cells_step, indexOf_from.
    destruct (find_char comma (c_str u)) as [k|] eqn:Hf.
    + destruct (cells_some u k Hf) as (Hk & Hu & Hfs).
      destruct (Z.eqb_spec (len p + Z.of_nat k) (-1)) as [E|_];
        [pose proof (len_nonneg p); lia|].
      rewrite substring_middle by assumption.
      unfold seq. rewrite !client_print_twice.
      assert (Hp : p ++ u = (p ++ take k u ++ String comma EmptyString) ++ drop (S k) u).
      { rewrite !append_assoc.
        change (String comma EmptyString ++ drop (S k) u)
          with (String comma (drop (S k) u)).
        rewrite <- Hu. reflexivity. }
      assert (Hl : len p + Z.of_nat k + 1 = len (p ++ take k u ++ String comma EmptyString)).
      { rewrite !len_append. unfold len at 3 4. simpl String.length.
        assert (Ht : forall j v, (j <= String.length v)%nat -> String.length (take j v) = j).
        { induction j; intros v Hv; [reflexivity|].
          destruct v; simpl in *; [lia|]. rewrite IHj by lia. reflexivity. }
        rewrite Ht by lia. lia. }
      rewrite Hp at 1. rewrite Hl.
      rewrite IH.
      * rewrite client_print_twice, Hfs. f_equal.
        generalize (cells (drop (S k) u)); intros fs.
        cbn [map join fold_right]. unfold td at 2.
        rewrite !append_assoc. reflexivity.
      * assert (Hd : forall j v, (String.length (drop j v) = String.length v - j)%nat).
        { induction j; destruct v; simpl; auto; lia. }
        rewrite Hd. lia.
    + simpl Z.eqb. rewrite substring_from_suffix.
      rewrite (cells_none u Hf).
      unfold seq, client_println. rewrite !client_print_twice. f_equal.
      cbn [map join fold_right]. unfold td.
      rewrite append_nil_r, !append_assoc. reflexivity.
Qed.

Lemma print_cells_row (line : string) (dv : Device) :
  (client_print "<tr>" ;; print_cells line 0) dv = client_print (cell_row line) dv.
Proof.
  unfold seq.
  change (print_cells line 0) with (print_cells (EmptyString ++ line) (len EmptyString)).
  rewrite (print_cells_cells (String.length line)) by lia.
  rewrite client_print_twice. reflexivity.
Qed.

(** ** The pages *)

Ltac sends_steps :=
  repeat first
    [ apply sends_skip
    | apply sends_client_println
    | apply sends_client_print
    | apply sends_serial_println
    | apply sends_serial_print
    | apply sends_serial_write
    | eapply sends_seq ].

(** An action made of prints sends the same text whatever the log file. *)
Ltac sends_text := eapply sends_sent; cbv zeta; sends_steps.

(** ... and that text is [text]. *)
Ltac sends_const :=
  match goal with
  | |- sends ?a _ =>
      apply (sends_ext a (sent a)); [sends_text | intros file; reflexivity]
  end.

Lemma sends_request_loop (on_char : ascii -> action) (respond : action)
      (out : string -> string) :
  (forall c, sends (on_char c) (fun _ => EmptyString)) ->
  sends respond out ->
  forall chars currentLine,
    sends (request_loop on_char respond chars currentLine)
          (fun file => match request_head chars currentLine with
                       | Some _ => out file
                       | None => EmptyString
                       end).
Proof.
  intros Hc Hr. induction chars as [|c rest IH]; intros currentLine.
  - apply sends_skip.
  - intros dv. simpl request_loop. simpl request_head. unfold seq.
    destruct (Hc c dv) as (C1 & C2 & C3). rewrite append_nil_r in C3.
    assert (K : forall a o, sends a o ->
              log_file (a (on_char c dv)) = log_file dv /\
              previousMillis (a (on_char c dv)) = previousMillis dv /\
              client_tx (a (on_char c dv)) = client_tx dv ++ o (log_file dv)).
    { intros a o Ha. destruct (Ha (on_char c dv)) as (A1 & A2 & A3).
      rewrite A1, A2, A3, C1, C2, C3. auto. }
    destruct (Ascii.eqb c LF).
    + destruct (String.length currentLine =? 0)%nat.
      * exact (K _ _ Hr).
      * specialize (K _ _ (IH EmptyString)). cbv beta in K.
        destruct (request_head rest EmptyString); exact K.
    + destruct (negb (Ascii.eqb c CR));
        match goal with |- context [request_head ?r ?l] =>
          specialize (K _ _ (IH l)); cbv beta in K;
          destruct (request_head r l); exact K end.
Qed.

Lemma sent_of_sends (a : action) (f : string -> string) (file : string) :
  sends a f -> sent a file = f file.
Proof.
  intros Ha. unfold sent.
  destruct (Ha (mkDevice file 0 EmptyString EmptyString)) as (_ & _ & H).
  rewrite H. reflexivity.
Qed.

(** A client is served between two reports on the diagnostic channel. *)
Lemma sends_served (hello bye : string) (a : action) (out : string -> string) :
  sends a out ->
  sends (serial_println hello ;; a ;; client_stop ;; serial_println bye) out.
Proof.
  intros Ha.
  eapply sends_ext.
  - apply sends_seq; [apply sends_serial_println|].
    apply sends_seq; [apply Ha|].
    apply sends_seq; [apply sends_skip | apply sends_serial_println].
  - intros file. simpl. apply append_nil_r.
Qed.

Lemma join_map_filter (keep : string -> bool) (out : string -> string) (ls : list string) :
  (forall l, keep l = false -> out l = EmptyString) ->
  join (map out ls) = join (map out (filter keep ls)).
Proof.
  intros H. induction ls as [|l ls IH]; simpl; [reflexivity|].
  destruct (keep l) eqn:E; simpl; rewrite IH; [reflexivity|].
  rewrite (H l E). reflexivity.
Qed.

Section Pages.
Context {V : Vendor}.

(** *** SMART.ino *)

Lemma SMART_before_table_sends (s : Sensors) :
  sends (SMART.before_table s) (fun _ => text (SMART.before_table s)).
Proof. unfold SMART.before_table, SMART.live. sends_const. Qed.

Lemma SMART_row_sends (line : string) :
  sends (SMART.row line) (fun _ => cell_row line).
Proof.
  intros dv. unfold SMART.row. rewrite print_cells_row. simpl. auto.
Qed.

Lemma SMART_log_table_sends (opened : bool) :
  sends (SMART.log_table opened) (SMART_table opened).
Proof.
  unfold SMART.log_table, SMART_table. destruct opened.
  - apply (sends_while_available SMART.row cell_row SMART_row_sends).
  - apply sends_client_println.
Qed.

Lemma SMART_respond_sends (w : World RTClib.DateTime) :
  sends (SMART.respond w)
        (fun file => text (SMART.before_table (sensors w)) ++
                     SMART_table (sd_read_ok w) file ++
                     "</table></body></html>" ++ crlf).
Proof.
  unfold SMART.respond.
  apply sends_seq; [apply SMART_before_table_sends|].
  apply sends_seq; [apply SMART_log_table_sends | apply sends_client_println].
Qed.

Lemma SMART_handle_client_sends (w : World RTClib.DateTime) :
  sends (SMART.handle_client w)
        (fun file =>
           match incoming w with
           | Some chars =>
               match request_head chars EmptyString with
               | Some _ => text (SMART.before_table (sensors w)) ++
                           SMART_table (sd_read_ok w) file ++
                           "</table></body></html>" ++ crlf
               | None => EmptyString
               end
           | None => EmptyString
           end).
Proof.
  unfold SMART.handle_client. destruct (incoming w) as [chars|]; [|apply sends_skip].
  apply sends_served.
  apply (sends_request_loop _ _ _ (fun _ => sends_skip) (SMART_respond_sends w)).
Qed.

(** *** SMARTnew.ino, the 7-day sketch *)

Lemma SMARTnew_before_table_sends (s : Sensors) :
  sends (SMARTnew.before_table s) (fun _ => text (SMARTnew.before_table s)).
Proof.
  unfold SMARTnew.before_table, SMARTnew.page_head, SMARTnew.live. sends_const.
Qed.

Lemma SMARTnew_row_sends (now : RTClib.DateTime) (line : string) :
  sends (SMARTnew.row now line)
        (fun _ => if shown now line then cell_row line else EmptyString).
Proof.
  unfold SMARTnew.row, shown.
  destruct (startsWith line "Date"); [apply sends_skip|].
  destruct (SMARTnew.within_7_days now line); [|apply sends_skip].
  intros dv. rewrite print_cells_row. simpl. auto.
Qed.

Lemma SMARTnew_log_table_sends (opened : bool) (now : RTClib.DateTime) :
  sends (SMARTnew.log_table opened now) (SMARTnew_table opened now).
Proof.
  unfold SMARTnew.log_table, SMARTnew_table. destruct opened.
  - eapply sends_ext.
    + apply (sends_while_available (SMARTnew.row now) _ (SMARTnew_row_sends now)).
    + intros file. cbv beta.
      induction (file_lines file) as [|l ls IH]; simpl; [reflexivity|].
      destruct (shown now l); simpl; rewrite IH; reflexivity.
  - apply sends_client_println.
Qed.

Lemma SMARTnew_respond_sends (w : World RTClib.DateTime) :
  sends (SMARTnew.respond w)
        (fun file => text (SMARTnew.before_table (sensors w)) ++
                     SMARTnew_table (sd_read_ok w) (clock w) file ++
                     "</table>" ++ crlf ++ "</body></html>" ++ crlf).
Proof.
  unfold SMARTnew.respond.
  apply sends_seq; [apply SMARTnew_before_table_sends|].
  apply sends_seq; [apply SMARTnew_log_table_sends|].
  unfold SMARTnew.after_table.
  eapply sends_ext; [apply sends_seq; apply sends_client_println|].
  intros file. simpl. reflexivity.
Qed.

Lemma SMARTnew_handle_client_sends (w : World RTClib.DateTime) :
  sends (SMARTnew.handle_client w)
        (fun file =>
           match incoming w with
           | Some chars =>
               match request_head chars EmptyString with
               | Some _ => text (SMARTnew.before_table (sensors w)) ++
                           SMARTnew_table (sd_read_ok w) (clock w) file ++
                           "</table>" ++ crlf ++ "</body></html>" ++ crlf
               | None => EmptyString
               end
           | None => EmptyString
           end).
Proof.
  unfold SMARTnew.handle_client. destruct (incoming w) as [chars|]; [|apply sends_skip].
  apply sends_served.
  apply (sends_request_loop _ _ _ (fun _ => sends_skip) (SMARTnew_respond_sends w)).
Qed.

(** *** SMARTnew.ino, the download sketch *)

Lemma Download_before_table_sends (s : Sensors) :
  sends (Download.before_table s) (fun _ => text (Download.before_table s)).
Proof. unfold Download.before_table, Download.live. sends_const. Qed.

Lemma Download_row_sends (line : string) :
  sends (Download.row line) (fun _ => sent (Download.row line) EmptyString).
Proof.
  apply (sends_ext _ (sent (Download.row line))).
  - unfold Download.row.
    destruct (startsWith line "Date,Time,Temperature,Humidity"); sends_text.
  - intros file. unfold sent, Download.row.
    destruct (startsWith line "Date,Time,Temperature,Humidity"); reflexivity.
Qed.

Lemma Download_log_table_sends (opened : bool) :
  sends (Download.log_table opened) (Download_table opened).
Proof.
  unfold Download.log_table, Download_table. destruct opened.
  - apply (sends_while_available Download.row _ Download_row_sends).
  - apply sends_skip.
Qed.

Lemma Download_dashboard_sends (w : World RTCTime) :
  sends (Download.dashboard w) (Download_page w).
Proof.
  unfold Download.dashboard, Download_page.
  apply sends_seq; [apply Download_before_table_sends|].
  apply sends_seq; [apply Download_log_table_sends|].
  unfold Download.after_table.
  eapply sends_ext; [apply sends_seq; apply sends_client_println|].
  intros file. simpl. reflexivity.
Qed.

Lemma Download_download_sends (opened : bool) :
  sends (Download.download opened)
        (fun file => if opened then download_ok file else download_failed).
Proof.
  intros dv. unfold Download.download, download_ok, download_failed.
  destruct opened; unfold seq, client_println; simpl;
    rewrite ?append_assoc; simpl; auto.
Qed.

Lemma Download_respond_sends (w : World RTCTime) (request : string) :
  sends (Download.respond w request)
        (fun file =>
           if 0 <=? indexOfStr "GET /download" request
           then (if sd_read_ok w then download_ok file else download_failed)
           else Download_page w file).
Proof.
  unfold Download.respond.
  destruct (0 <=? indexOfStr "GET /download" request).
  - apply Download_download_sends.
  - apply Download_dashboard_sends.
Qed.

Lemma Download_request_loop_sends (w : World RTCTime) :
  forall chars currentLine request,
    sends (Download.request_loop (Download.respond w) chars currentLine request)
          (fun file =>
             match request_head chars currentLine with
             | Some head =>
                 if 0 <=? indexOfStr "GET /download" (request ++ head)
                 then (if sd_read_ok w then download_ok file else download_failed)
                 else Download_page w file
             | None => EmptyString
             end).
Proof.
  induction chars as [|c rest IH]; intros currentLine request.
  - apply sends_skip.
  - intros dv. simpl Download.request_loop. simpl request_head. unfold seq.
    destruct (sends_serial_write c dv) as (C1 & C2 & C3). rewrite append_nil_r in C3.
    assert (K : forall a o, sends a o ->
              log_file (a (serial_write c dv)) = log_file dv /\
              previousMillis (a (serial_write c dv)) = previousMillis dv /\
              client_tx (a (serial_write c dv)) = client_tx dv ++ o (log_file dv)).
    { intros a o Ha. destruct (Ha (serial_write c dv)) as (A1 & A2 & A3).
      rewrite A1, A2, A3, C1, C2, C3. auto. }
    assert (E : forall head, (request ++ String c EmptyString) ++ head
                             = request ++ String c head).
    { intros head. rewrite append_assoc. reflexivity. }
    destruct (Ascii.eqb c LF).
    + destruct (String.length currentLine =? 0)%nat.
      * pose proof (K _ _ (Download_respond_sends w (request ++ String c EmptyString))) as K1.
        cbv beta in K1. simpl option_map. cbv iota beta. exact K1.
      * specialize (K _ _ (IH EmptyString (request ++ String c EmptyString))).
        cbv beta in K.
        destruct (request_head rest EmptyString) as [head|]; simpl option_map; cbv iota beta;
          [rewrite E in K|]; exact K.
    + destruct (negb (Ascii.eqb c CR));
        match goal with |- context [request_head ?r ?l] =>
          specialize (K _ _ (IH l (request ++ String c EmptyString)));
          cbv beta in K;
          destruct (request_head r l) as [head|]; simpl option_map; cbv iota beta;
          [rewrite E in K|]; exact K end.
Qed.

Lemma Download_handle_client_sends (w : World RTCTime) :
  sends (Download.handle_client w)
        (fun file =>
           match incoming w with
           | Some chars =>
               match request_head chars EmptyString with
               | Some head =>
                   if 0 <=? indexOfStr "GET /download" head
                   then (if sd_read_ok w then download_ok file else download_failed)
                   else Download_page w file
               | None => EmptyString
               end
           | None => EmptyString
           end).
Proof.
  unfold Download.handle_client. destruct (incoming w) as [chars|]; [|apply sends_skip].
  apply sends_served.
  apply (Download_request_loop_sends w chars EmptyString EmptyString).
Qed.

(** *** SMARTnew.ino, the third sketch *)

Lemma Basic_before_table_sends (s : Sensors) :
  sends (Basic.before_table s) (fun _ => text (Basic.before_table s)).
Proof. unfold Basic.before_table, Basic.live. sends_const. Qed.

Lemma Basic_row_sends (line : string) :
  sends (Basic.row line) (fun _ => sent (Basic.row line) EmptyString).
Proof.
  apply (sends_ext _ (sent (Basic.row line))).
  - unfold Basic.row.
    destruct (startsWith line "Date,Time,Temperature,Humidity"); sends_text.
  - intros file. unfold sent, Basic.row.
    destruct (startsWith line "Date,Time,Temperature,Humidity"); reflexivity.
Qed.

Lemma Basic_log_table_sends (opened : bool) :
  sends (Basic.log_table opened) (Basic_table opened).
Proof.
  unfold Basic.log_table, Basic_table. destruct opened.
  - apply (sends_while_available Basic.row _ Basic_row_sends).
  - apply sends_serial_println.
Qed.

Lemma Basic_respond_sends (w : World RTCTime) :
  sends (Basic.respond w)
        (fun file => text (Basic.before_table (sensors w)) ++
                     Basic_table (sd_read_ok w) file ++
                     "</table>" ++ crlf ++ crlf).
Proof.
  unfold Basic.respond.
  apply sends_seq; [apply Basic_before_table_sends|].
  apply sends_seq; [apply Basic_log_table_sends|].
  unfold Basic.after_table.
  eapply sends_ext; [apply sends_seq; apply sends_client_println|].
  intros file. simpl. reflexivity.
Qed.

Lemma Basic_handle_client_sends (w : World RTCTime) :
  sends (Basic.handle_client w)
        (fun file =>
           match incoming w with
           | Some chars =>
               match request_head chars EmptyString with
               | Some _ => text (Basic.before_table (sensors w)) ++
                           Basic_table (sd_read_ok w) file ++
                           "</table>" ++ crlf ++ crlf
               | None => EmptyString
               end
           | None => EmptyString
           end).
Proof.
  unfold Basic.handle_client. destruct (incoming w) as [chars|]; [|apply sends_skip].
  apply sends_served.
  apply (sends_request_loop _ _ _ sends_serial_write (Basic_respond_sends w)).
Qed.

End Pages.

(** ** The Presenter leaves the log and the timer alone *)

(** C10. Handling a client connection changes neither the log file nor the
    interval timer [previousMillis], in each of the four sketches and for
    every request, whether or not the file opens. *)
Theorem C10_presenter_frame {V : Vendor}
        (w : World RTClib.DateTime) (u : World RTCTime) (dv : Device) :
  (log_file (SMART.handle_client w dv) = log_file dv /\
   previousMillis (SMART.handle_client w dv) = previousMillis dv) /\
  (log_file (SMARTnew.handle_client w dv) = log_file dv /\
   previousMillis (SMARTnew.handle_client w dv) = previousMillis dv) /\
  (log_file (Download.handle_client u dv) = log_file dv /\
   previousMillis (Download.handle_client u dv) = previousMillis dv) /\
  (log_file (Basic.handle_client u dv) = log_file dv /\
   previousMillis (Basic.handle_client u dv) = previousMillis dv).
Proof.
  destruct (SMART_handle_client_sends w dv) as (A1 & A2 & _).
  destruct (SMARTnew_handle_client_sends w dv) as (B1 & B2 & _).
  destruct (Download_handle_client_sends u dv) as (C1 & C2 & _).
  destruct (Basic_handle_client_sends u dv) as (D1 & D2 & _).
  auto 10.
Qed.

(** ** The table is a function of the log (and of the clock) *)

(** C9, as stated, fails in the 7-day sketch: with the log of the
    specification's example and the same sensor readings, the page served
    on June 3 and the page served on June 10 differ, and the difference is
    the table. *)
Lemma C9_counterexample :
  sensors (visit true june_3 mild) = sensors (visit true june_10 mild) /\
  String.eqb (client_tx (SMARTnew.respond (V:=bench) (visit true june_3 mild) (fresh example_log)))
             (client_tx (SMARTnew.respond (V:=bench) (visit true june_10 mild) (fresh example_log)))
  = false /\
  sent (SMARTnew.log_table (V:=bench) true june_3) example_log =
    table_row (example_row_1 ++ String CR EmptyString) ++
    table_row (example_row_2 ++ String CR EmptyString) /\
  sent (SMARTnew.log_table (V:=bench) true june_10) example_log = EmptyString.
Proof. vm_compute. auto. Qed.

(** C9 (amended). Two servings of the default page with the same log file
    contents, the same answer of the card and, in the 7-day sketch, the same
    clock reading send the same table, whatever the sensors read: each page
    is the text before the table (the only part the sensors enter), the
    table, which is what the sketch's table code sends for that log, card
    answer and clock reading, and the closing text. *)
Theorem C9_table_determined {V : Vendor}
        (w1 w2 : World RTClib.DateTime) (u1 u2 : World RTCTime) (dv1 dv2 : Device) :
  log_file dv1 = log_file dv2 ->
  sd_read_ok w1 = sd_read_ok w2 ->
  clock w1 = clock w2 ->
  sd_read_ok u1 = sd_read_ok u2 ->
  (let table := sent (SMART.log_table (sd_read_ok w1)) (log_file dv1) in
   client_tx (SMART.respond w1 dv1) =
     client_tx dv1 ++ text (SMART.before_table (sensors w1)) ++ table ++ text SMART.after_table /\
   client_tx (SMART.respond w2 dv2) =
     client_tx dv2 ++ text (SMART.before_table (sensors w2)) ++ table ++ text SMART.after_table) /\
  (let table := sent (SMARTnew.log_table (sd_read_ok w1) (clock w1)) (log_file dv1) in
   client_tx (SMARTnew.respond w1 dv1) =
     client_tx dv1 ++ text (SMARTnew.before_table (sensors w1)) ++ table ++ text SMARTnew.after_table /\
   client_tx (SMARTnew.respond w2 dv2) =
     client_tx dv2 ++ text (SMARTnew.before_table (sensors w2)) ++ table ++ text SMARTnew.after_table) /\
  (let table := sent (Download.log_table (sd_read_ok u1)) (log_file dv1) in
   client_tx (Download.dashboard u1 dv1) =
     client_tx dv1 ++ text (Download.before_table (sensors u1)) ++ table ++ text Download.after_table /\
   client_tx (Download.dashboard u2 dv2) =
     client_tx dv2 ++ text (Download.before_table (sensors u2)) ++ table ++ text Download.after_table) /\
  (let table := sent (Basic.log_table (sd_read_ok u1)) (log_file dv1) in
   client_tx (Basic.respond u1 dv1) =
     client_tx dv1 ++ text (Basic.before_table (sensors u1)) ++ table ++ text Basic.after_table /\
   client_tx (Basic.respond u2 dv2) =
     client_tx dv2 ++ text (Basic.before_table (sensors u2)) ++ table ++ text Basic.after_table).
Proof.
  intros Hlog Hw Hc Hu. cbv zeta.
  destruct (SMART_respond_sends w1 dv1) as (_ & _ & A1).
  destruct (SMART_respond_sends w2 dv2) as (_ & _ & A2).
  destruct (SMARTnew_respond_sends w1 dv1) as (_ & _ & B1).
  destruct (SMARTnew_respond_sends w2 dv2) as (_ & _ & B2).
  destruct (Download_dashboard_sends u1 dv1) as (_ & _ & C1).
  destruct (Download_dashboard_sends u2 dv2) as (_ & _ & C2).
  destruct (Basic_respond_sends u1 dv1) as (_ & _ & D1).
  destruct (Basic_respond_sends u2 dv2) as (_ & _ & D2).
  unfold Download_page in C1, C2.
  rewrite <- Hlog, <- Hw in A2. rewrite <- Hlog, <- Hw, <- Hc in B2.
  rewrite <- Hlog, <- Hu in C2. rewrite <- Hlog, <- Hu in D2.
  rewrite (sent_of_sends _ _ _ (SMART_log_table_sends (sd_read_ok w1))).
  rewrite (sent_of_sends _ _ _ (SMARTnew_log_table_sends (sd_read_ok w1) (clock w1))).
  rewrite (sent_of_sends _ _ _ (Download_log_table_sends (sd_read_ok u1))).
  rewrite (sent_of_sends _ _ _ (Basic_log_table_sends (sd_read_ok u1))).
  exact (conj (conj A1 A2) (conj (conj B1 B2) (conj (conj C1 C2) (conj D1 D2)))).
Qed.

Lemma C9_table_determined_witness :
  sent (SMARTnew.log_table (V:=bench) true june_3) example_log =
    table_row (example_row_1 ++ String CR EmptyString) ++
    table_row (example_row_2 ++ String CR EmptyString) /\
  client_tx (SMARTnew.respond (V:=bench) (visit true june_3 mild) (fresh example_log)) =
    text (SMARTnew.before_table (V:=bench) mild) ++
    sent (SMARTnew.log_table (V:=bench) true june_3) example_log ++
    text SMARTnew.after_table /\
  client_tx (SMARTnew.respond (V:=bench) (visit true june_3 dht_failed) (fresh example_log)) =
    text (SMARTnew.before_table (V:=bench) dht_failed) ++
    sent (SMARTnew.log_table (V:=bench) true june_3) example_log ++
    text SMARTnew.after_table.
Proof.
  split; [vm_compute; reflexivity|].
  exact (proj1 (proj2
    (C9_table_determined (V:=bench)
       (visit true june_3 mild) (visit true june_3 dht_failed)
       (visit true april_17 mild) (visit true april_17 mild)
       (fresh example_log) (fresh example_log)
       eq_refl eq_refl eq_refl eq_refl))).
Defined.

(** ** The page when the log file does not open *)

(** C6, as stated, fails in the third sketch of SMARTnew.ino: when the file
    does not open, nothing that is sent to the client mentions an error (the
    report goes to the diagnostic channel), although the same failure is
    reported on the page by SMART.ino. *)
Lemma C6_counterexample :
  sd_read_ok (visit false april_17 mild) = false /\
  contains "rror"
    (client_tx (Basic.handle_client (V:=bench) (visit false april_17 mild) (fresh small_log)))
  = false /\
  contains "rror"
    (client_tx (SMART.handle_client (V:=bench) (visit false june_3 mild) (fresh example_log)))
  = true.
Proof. vm_compute. auto. Qed.

(** C6 (amended). When the log file cannot be opened for reading, the two
    dual-sensor sketches still send the whole page: the 200 status line and
    headers, the page down to the head of the table, the message
    [Error opening datalog.csv] in place of the rows, and the closing tags.
    The two single-sensor sketches close the table and the page as well but
    send nothing in place of the rows; the third sketch reports the failure
    on the diagnostic channel. *)
Theorem C6_unreadable_log {V : Vendor}
        (w : World RTClib.DateTime) (u : World RTCTime) (dv : Device) :
  sd_read_ok w = false ->
  sd_read_ok u = false ->
  (client_tx (SMART.respond w dv) =
     client_tx dv ++ text (SMART.before_table (sensors w)) ++
     ("<p>Error opening datalog.csv</p>" ++ crlf) ++
     "</table></body></html>" ++ crlf /\
   prefix ("HTTP/1.1 200 OK" ++ crlf ++ "Content-Type: text/html" ++ crlf ++ crlf)
          (text (SMART.before_table (sensors w))) = true) /\
  (client_tx (SMARTnew.respond w dv) =
     client_tx dv ++ text (SMARTnew.before_table (sensors w)) ++
     ("<tr><td colspan='8'>Error opening datalog.csv</td></tr>" ++ crlf) ++
     "</table>" ++ crlf ++ "</body></html>" ++ crlf /\
   prefix ("HTTP/1.1 200 OK" ++ crlf ++ "Content-Type: text/html" ++ crlf ++ crlf)
          (text (SMARTnew.before_table (sensors w))) = true) /\
  client_tx (Download.dashboard u dv) =
     client_tx dv ++ text (Download.before_table (sensors u)) ++
     "</table>" ++ crlf ++ "</body></html>" ++ crlf /\
  (client_tx (Basic.respond u dv) =
     client_tx dv ++ text (Basic.before_table (sensors u)) ++
     "</table>" ++ crlf ++ crlf /\
   serial_tx (Basic.respond u dv) =
     serial_tx dv ++ "Error opening data.txt file for reading!" ++ crlf).
Proof.
  intros Hw Hu.
  destruct (SMART_respond_sends w dv) as (_ & _ & A).
  destruct (SMARTnew_respond_sends w dv) as (_ & _ & B).
  destruct (Download_dashboard_sends u dv) as (_ & _ & C).
  destruct (Basic_respond_sends u dv) as (_ & _ & D).
  unfold Download_page in C.
  rewrite Hw in A, B. rewrite Hu in C, D.
  refine (conj (conj A _) (conj (conj B _) (conj C (conj D _)))).
  - reflexivity.
  - reflexivity.
  - unfold Basic.respond, Basic.log_table. rewrite Hu. reflexivity.
Qed.

Lemma C6_unreadable_log_witness :
  client_tx (SMART.respond (V:=bench) (visit false june_3 mild) (fresh example_log)) =
    text (SMART.before_table (V:=bench) mild) ++
    ("<p>Error opening datalog.csv</p>" ++ crlf) ++
    "</table></body></html>" ++ crlf.
Proof.
  exact (proj1 (proj1
    (C6_unreadable_log (V:=bench) (visit false june_3 mild) (visit false april_17 mild)
       (fresh example_log) eq_refl eq_refl))).
Defined.

(** ** The download route *)

(** The search for a token without NUL bytes finds it exactly when it
    occurs before the first NUL byte of the text. *)
Lemma indexOfStr_contains (pat s : string) :
  nul_free pat -> pat <> EmptyString ->
  (0 <=? indexOfStr pat s) = contains pat (c_str s).
Proof.
  intros Hp Hne. unfold indexOfStr, contains, strstr.
  rewrite (c_str_nul_free pat Hp).
  destruct s as [|a s].
  - destruct pat; [congruence | reflexivity].
  - change (len (String a s) <=? 0) with false. cbv iota.
    destruct (find_str pat (c_str (String a s))); [|reflexivity].
    apply Z.leb_le. lia.
Qed.

Lemma prefix_append (pat a b : string) :
  prefix pat a = true -> prefix pat (a ++ b) = true.
Proof.
  revert a. induction pat as [|c pat IH]; intros a H.
  - destruct (a ++ b); reflexivity.
  - destruct a as [|d a]; simpl in *; [discriminate|].
    destruct (ascii_dec c d); [auto | discriminate].
Qed.

Lemma contains_append (pat a b : string) :
  contains pat a = true -> contains pat (a ++ b) = true.
Proof.
  unfold contains. induction a as [|d a IH].
  - simpl. destruct pat; [|discriminate]. intros _. destruct b; reflexivity.
  - simpl append.
    change (find_str pat (String d a))
      with (if prefix pat (String d a) then Some O
            else option_map S (find_str pat a)).
    change (find_str pat (String d (a ++ b)))
      with (if prefix pat (String d (a ++ b)) then Some O
            else option_map S (find_str pat (a ++ b))).
    destruct (prefix pat (String d a)) eqn:E.
    + intros _. pose proof (prefix_append pat (String d a) b E) as P.
      simpl append in P. rewrite P. reflexivity.
    + destruct (prefix pat (String d (a ++ b))); [reflexivity|].
      destruct (find_str pat a); [|discriminate].
      intros _. specialize (IH eq_refl).
      destruct (find_str pat (a ++ b)); [reflexivity | discriminate].
Qed.

Lemma readStringUntil_split (term : ascii) (s : string) :
  exists rest, s = fst (readStringUntil term s) ++ rest.
Proof.
  induction s as [|c s IH]; simpl.
  - exists EmptyString. reflexivity.
  - destruct (Ascii.eqb c term); simpl.
    + exists (String c s). reflexivity.
    + destruct IH as [rest IH]. destruct (readStringUntil term s) as [l r].
      simpl in *. exists rest. congruence.
Qed.

Lemma contains_start_line (pat request : string) :
  contains pat (start_line request) = true -> contains pat request = true.
Proof.
  intros H. destruct (readStringUntil_split LF request) as [rest E].
  rewrite E. apply contains_append. exact H.
Qed.

Lemma c_str_append_front (a b : string) : exists t, c_str (a ++ b) = c_str a ++ t.
Proof.
  induction a as [|c a [t IH]]; simpl.
  - exists (c_str b). reflexivity.
  - destruct (Ascii.eqb c NUL).
    + exists EmptyString. reflexivity.
    + exists t. simpl. rewrite IH. reflexivity.
Qed.

Lemma contains_c_str (pat s : string) :
  contains pat (c_str s) = true -> contains pat s = true.
Proof.
  intros H. destruct (c_str_front s) as [tail E].
  rewrite E. apply contains_append. exact H.
Qed.

Lemma contains_c_str_start_line (pat request : string) :
  contains pat (c_str (start_line request)) = true ->
  contains pat (c_str request) = true.
Proof.
  intros H. destruct (readStringUntil_split LF request) as [rest E].
  destruct (c_str_append_front (start_line request) rest) as [t Et].
  unfold start_line in *. rewrite E, Et. apply contains_append. exact H.
Qed.

(** C7, as stated, fails: a request for [/] whose start line does not hold
    the download token, but one of whose header lines does, is answered with
    the download and not with the default page. *)
Lemma C7_counterexample :
  request_head noted_request EmptyString = Some noted_request /\
  contains "GET /download" (start_line noted_request) = false /\
  client_tx (Download.handle_client (V:=bench) noted_visit (fresh small_log))
    = download_ok small_log /\
  client_tx (Download.handle_client (V:=bench) noted_visit (fresh small_log))
    <> Download_page (V:=bench) noted_visit small_log.
Proof.
  split; [vm_compute; reflexivity|]. split; [vm_compute; reflexivity|].
  split; [vm_compute; reflexivity|].
  intros H. vm_compute in H. discriminate H.
Qed.

(** C7 (amended). In the download sketch, a request that reaches the empty
    line ending its headers is answered by looking for the token
    [GET /download] in everything received so far, start line and header
    lines alike, as far as the first NUL byte if the client sent one (the
    search is that of a C string); for a request without NUL bytes that is
    the whole of it.  When the token is found (in particular when the start
    line holds it before any NUL byte) the answer is the 200 response with
    the [Content-Disposition: attachment] header followed by the log file
    verbatim if the file opens, and the 500 response with a plain-text error
    if it does not; a request in which it is not found gets the default
    page. *)
Theorem C7_download_route {V : Vendor}
        (w : World RTCTime) (chars head : string) (dv : Device) :
  incoming w = Some chars ->
  request_head chars EmptyString = Some head ->
  client_tx (Download.handle_client w dv) =
    client_tx dv ++
    (if contains "GET /download" (c_str head)
     then (if sd_read_ok w then download_ok (log_file dv) else download_failed)
     else Download_page w (log_file dv)) /\
  (nul_free head ->
   client_tx (Download.handle_client w dv) =
     client_tx dv ++
     (if contains "GET /download" head
      then (if sd_read_ok w then download_ok (log_file dv) else download_failed)
      else Download_page w (log_file dv))) /\
  (contains "GET /download" (c_str (start_line head)) = true ->
   client_tx (Download.handle_client w dv) =
     client_tx dv ++
     (if sd_read_ok w then download_ok (log_file dv) else download_failed)).
Proof.
  intros Hin Hhead.
  destruct (Download_handle_client_sends w dv) as (_ & _ & H).
  rewrite Hin, Hhead in H.
  rewrite (indexOfStr_contains "GET /download" head eq_refl ltac:(discriminate)) in H.
  split; [exact H|]. split.
  - intros Hn. rewrite (c_str_nul_free head Hn) in H. exact H.
  - intros Hs. rewrite (contains_c_str_start_line _ _ Hs) in H. exact H.
Qed.

Lemma C7_download_route_witness :
  client_tx (Download.handle_client (V:=bench) download_visit (fresh small_log))
    = download_ok small_log.
Proof.
  exact (proj2 (proj2
    (C7_download_route (V:=bench) download_visit
       (get "GET /download HTTP/1.1") (get "GET /download HTTP/1.1") (fresh small_log)
       eq_refl eq_refl)) eq_refl).
Defined.

(** ** The interval timer *)

Lemma usub32_elapsed (t0 t1 : Z) :
  0 <= t0 <= t1 -> t1 - t0 < two32 ->
  usub32 (t1 mod two32) (t0 mod two32) = t1 - t0.
Proof.
  intros H0 H1. unfold usub32, two32 in *.
  rewrite <- Zminus_mod. apply Z.mod_small. lia.
Qed.

(** C8. Let the true time since start be [t0] milliseconds when the timer
    was last set and [t1] now, less than [2^32] milliseconds later, so that
    [previousMillis] holds [t0 mod 2^32] and [millis()] returns
    [t1 mod 2^32].  Then the unsigned difference the sketches compute is the
    elapsed time [t1 - t0], also when the counter has wrapped in between, and
    the Sampler of each sketch does nothing when less than the interval has
    elapsed and sets its timer to [millis()] when at least the interval has
    elapsed. *)
Theorem C8_interval_wraparound {V : Vendor}
        (w : World RTClib.DateTime) (u : World RTCTime) (dv : Device) (t0 t1 : Z) :
  0 <= t0 <= t1 ->
  t1 - t0 < two32 ->
  previousMillis dv = t0 mod two32 ->
  millis w = t1 mod two32 ->
  millis u = t1 mod two32 ->
  usub32 (millis w) (previousMillis dv) = t1 - t0 /\
  (t1 - t0 < SMART.interval -> SMART.sampler w dv = dv) /\
  (SMART.interval <= t1 - t0 -> previousMillis (SMART.sampler w dv) = millis w) /\
  (t1 - t0 < SMARTnew.interval -> SMARTnew.sampler w dv = dv) /\
  (SMARTnew.interval <= t1 - t0 -> previousMillis (SMARTnew.sampler w dv) = millis w) /\
  (t1 - t0 < Download.interval -> Download.sampler u dv = dv) /\
  (Download.interval <= t1 - t0 -> previousMillis (Download.sampler u dv) = millis u) /\
  (t1 - t0 < Basic.interval -> Basic.sampler u dv = dv) /\
  (Basic.interval <= t1 - t0 -> previousMillis (Basic.sampler u dv) = millis u).
Proof.
  intros H0 H1 Hp Hw Hu.
  pose proof (usub32_elapsed t0 t1 H0 H1) as E.
  unfold SMART.sampler, SMARTnew.sampler, Download.sampler, Basic.sampler.
  rewrite Hw, Hu, Hp, E.
  split; [reflexivity|].
  repeat match goal with
         | |- _ /\ _ => split
         | |- _ < _ -> _ => intros Hlt;
             match goal with
             | |- context [?i <=? t1 - t0] =>
                 destruct (Z.leb_spec i (t1 - t0)); [lia | reflexivity]
             end
         | |- _ <= _ -> _ => intros Hle;
             match goal with
             | |- context [?i <=? t1 - t0] =>
                 destruct (Z.leb_spec i (t1 - t0)); [|lia]
             end
         end;
    repeat match goal with
           | |- context [if ?b then _ else _] => destruct b
           end; reflexivity.
Qed.

Lemma C8_interval_wraparound_witness :
  usub32 899000 4294966296 = 900000 /\
  previousMillis
    (SMART.sampler (V:=bench)
       (mkWorld _ None true true 899000 june_3 mild)
       (mkDevice example_log 4294966296 EmptyString EmptyString)) = 899000.
Proof.
  pose (w := mkWorld RTClib.DateTime None true true 899000 june_3 mild).
  pose (u := mkWorld RTCTime None true true 899000 april_17 mild).
  pose (dv := mkDevice example_log 4294966296 EmptyString EmptyString).
  destruct (C8_interval_wraparound (V:=bench) w u dv 4294966296 4295866296)
    as (H1 & _ & H2 & _);
    [unfold two32; lia | unfold two32; lia | reflexivity | reflexivity | reflexivity |].
  split; [exact H1 | apply H2; unfold SMART.interval; lia].
Defined.

(** ** The Sampler *)

Section Sampler.
Context {V : Vendor}.

Lemma SMART_sampler_log (w : World RTClib.DateTime) (dv : Device) :
  log_file (SMART.sampler w dv) =
  if (SMART.interval <=? usub32 (millis w) (previousMillis dv))
     && negb (rejected (sensors w)) && sd_write_ok w
  then log_file dv ++ SMART.record (clock w) (sensors w)
  else log_file dv.
Proof.
  unfold SMART.sampler, rejected.
  destruct (SMART.interval <=? _); [|reflexivity].
  destruct (isnan (readHumidity _) || _ || _ || _); [reflexivity|].
  destruct (sd_write_ok w); reflexivity.
Qed.

Lemma SMARTnew_sampler_log (w : World RTClib.DateTime) (dv : Device) :
  log_file (SMARTnew.sampler w dv) =
  if (SMARTnew.interval <=? usub32 (millis w) (previousMillis dv))
     && negb (rejected (sensors w)) && sd_write_ok w
  then log_file dv ++ SMARTnew.record (clock w) (sensors w)
  else log_file dv.
Proof.
  unfold SMARTnew.sampler, rejected.
  destruct (SMARTnew.interval <=? _); [|reflexivity].
  destruct (isnan (readHumidity _) || _ || _ || _); [reflexivity|].
  destruct (sd_write_ok w); reflexivity.
Qed.

Lemma Download_sampler_log (u : World RTCTime) (dv : Device) :
  log_file (Download.sampler u dv) =
  if (Download.interval <=? usub32 (millis u) (previousMillis dv)) && sd_write_ok u
  then log_file dv ++ record_dmy (clock u) (sensors u)
  else log_file dv.
Proof.
  unfold Download.sampler.
  destruct (Download.interval <=? _); [|reflexivity].
  destruct (sd_write_ok u); reflexivity.
Qed.

Lemma Basic_sampler_log (u : World RTCTime) (dv : Device) :
  log_file (Basic.sampler u dv) =
  if (Basic.interval <=? usub32 (millis u) (previousMillis dv)) && sd_write_ok u
  then log_file dv ++ record_dmy (clock u) (sensors u)
  else log_file dv.
Proof.
  unfold Basic.sampler.
  destruct (Basic.interval <=? _); [|reflexivity].
  destruct (sd_write_ok u); reflexivity.
Qed.

(** One pass of [loop]: the Presenter does not touch the file or the timer,
    so the file after the pass is the Sampler's doing. *)
Lemma SMART_loop_log (w : World RTClib.DateTime) (dv : Device) :
  log_file (SMART.loop w dv) =
  if (SMART.interval <=? usub32 (millis w) (previousMillis dv))
     && negb (rejected (sensors w)) && sd_write_ok w
  then log_file dv ++ SMART.record (clock w) (sensors w)
  else log_file dv.
Proof.
  unfold SMART.loop, seq. rewrite SMART_sampler_log.
  destruct (SMART_handle_client_sends w dv) as (H1 & H2 & _).
  rewrite H1, H2. reflexivity.
Qed.

Lemma SMARTnew_loop_log (w : World RTClib.DateTime) (dv : Device) :
  log_file (SMARTnew.loop w dv) =
  if (SMARTnew.interval <=? usub32 (millis w) (previousMillis dv))
     && negb (rejected (sensors w)) && sd_write_ok w
  then log_file dv ++ SMARTnew.record (clock w) (sensors w)
  else log_file dv.
Proof.
  unfold SMARTnew.loop, seq. rewrite SMARTnew_sampler_log.
  destruct (SMARTnew_handle_client_sends w dv) as (H1 & H2 & _).
  rewrite H1, H2. reflexivity.
Qed.

Lemma Download_loop_log (u : World RTCTime) (dv : Device) :
  log_file (Download.loop u dv) =
  if (Download.interval <=? usub32 (millis u) (previousMillis dv)) && sd_write_ok u
  then log_file dv ++ record_dmy (clock u) (sensors u)
  else log_file dv.
Proof.
  unfold Download.loop, seq. rewrite Download_sampler_log.
  destruct (Download_handle_client_sends u dv) as (H1 & H2 & _).
  rewrite H1, H2. reflexivity.
Qed.

Lemma Basic_loop_log (u : World RTCTime) (dv : Device) :
  log_file (Basic.loop u dv) =
  if (Basic.interval <=? usub32 (millis u) (previousMillis dv)) && sd_write_ok u
  then log_file dv ++ record_dmy (clock u) (sensors u)
  else log_file dv.
Proof.
  unfold Basic.loop, seq. rewrite Basic_sampler_log.
  destruct (Basic_handle_client_sends u dv) as (H1 & H2 & _).
  rewrite H1, H2. reflexivity.
Qed.

End Sampler.

(** C1, as stated, fails in the single-sensor sketches, which do not look at
    the readings: with the DHT11 answering not-a-number, a pass of [loop] at
    the end of an interval appends a record (of [nan]s) in both, and the log
    has one line more. *)
Lemma C1_counterexample :
  isnan (readTemperature dht_failed) = true /\
  isnan (readHumidity dht_failed) = true /\
  log_file (Basic.loop (V:=bench) (tick april_17 dht_failed) (fresh small_log)) =
    small_log ++ "17/4/2025,15:52:0,nan,nan" ++ crlf /\
  line_count (log_file (Basic.loop (V:=bench) (tick april_17 dht_failed) (fresh small_log))) =
    line_count small_log + 1 /\
  line_count (log_file (Download.loop (V:=bench) (tick april_17 dht_failed) (fresh small_log))) =
    line_count small_log + 1.
Proof. vm_compute. auto 6. Qed.

(** C1 (amended). In the two dual-sensor sketches, when the humidity or
    either air temperature is not-a-number, or the water-temperature sensor
    reports the disconnected sentinel, a pass of [loop] leaves the log file
    as it is: no record, no partial record, no placeholder.  The heat
    indices are not tested themselves; they are computed from the humidity
    and the air temperatures, and when the heat index of the DHT library is
    not-a-number only if the temperature or the humidity it is computed from
    is, a not-a-number heat index leaves the log file as it is too.  The two
    single-sensor sketches do not validate: whenever the interval has
    elapsed and the file opens, they append one record. *)
Theorem C1_invalid_reading_skipped {V : Vendor}
        (w : World RTClib.DateTime) (u : World RTCTime) (dv : Device) :
  ((isnan (readHumidity (sensors w)) = true \/
    isnan (readTemperature (sensors w)) = true \/
    isnan (readTemperatureF (sensors w)) = true \/
    feq (getTempCByIndex0 (sensors w)) DEVICE_DISCONNECTED_C = true) ->
   log_file (SMART.loop w dv) = log_file dv /\
   log_file (SMARTnew.loop w dv) = log_file dv) /\
  (heat_index_nan_from_reading (sensors w) ->
   (isnan (computeHeatIndex (readTemperature (sensors w))
                            (readHumidity (sensors w)) false) = true \/
    isnan (computeHeatIndex (readTemperatureF (sensors w))
                            (readHumidity (sensors w)) true) = true) ->
   log_file (SMART.loop w dv) = log_file dv /\
   log_file (SMARTnew.loop w dv) = log_file dv) /\
  (Download.interval <= usub32 (millis u) (previousMillis dv) ->
   sd_write_ok u = true ->
   log_file (Download.loop u dv) = log_file dv ++ record_dmy (clock u) (sensors u)) /\
  (Basic.interval <= usub32 (millis u) (previousMillis dv) ->
   sd_write_ok u = true ->
   log_file (Basic.loop u dv) = log_file dv ++ record_dmy (clock u) (sensors u)).
Proof.
  assert (K : rejected (sensors w) = true ->
              log_file (SMART.loop w dv) = log_file dv /\
              log_file (SMARTnew.loop w dv) = log_file dv).
  { intros R. rewrite SMART_loop_log, SMARTnew_loop_log, R.
    rewrite !andb_false_r. split; reflexivity. }
  split; [|split; [|split]].
  - intros H. apply K. unfold rejected. rewrite !orb_true_iff. tauto.
  - intros [L1 L2] H. apply K. unfold rejected. rewrite !orb_true_iff.
    destruct H as [H|H]; [destruct (L1 H) | destruct (L2 H)]; tauto.
  - intros Hi Ho. apply Z.leb_le in Hi. rewrite Download_loop_log, Hi, Ho. reflexivity.
  - intros Hi Ho. apply Z.leb_le in Hi. rewrite Basic_loop_log, Hi, Ho. reflexivity.
Qed.

Lemma C1_invalid_reading_skipped_witness :
  log_file (SMART.loop (V:=bench) (tick june_3 dht_failed) (fresh example_log)) = example_log /\
  log_file (SMARTnew.loop (V:=bench) (tick june_3 dht_failed) (fresh example_log)) = example_log.
Proof.
  destruct (C1_invalid_reading_skipped (V:=bench) (tick june_3 dht_failed)
              (tick april_17 dht_failed) (fresh example_log)) as (A & B & _).
  split.
  - exact (proj1 (A (or_introl eq_refl))).
  - refine (proj2 (B _ (or_introl eq_refl))).
    split; intros H; left; reflexivity.
Defined.

(** ** The header line *)

Lemma len_zero (s : string) : (len s =? 0) = true <-> s = EmptyString.
Proof.
  unfold len. destruct s; simpl; split; intros H; try reflexivity; try discriminate.
Qed.

Lemma append_nonempty (s t : string) : s <> EmptyString -> s ++ t <> EmptyString.
Proof. destruct s; simpl; congruence. Qed.

Section OneHeader.
Context {Clock : Type}.
Variable setup : bool -> action.
Variable loop : World Clock -> action.
Variable hd : string.

Hypothesis setup_log : forall opened dv,
  log_file (setup opened dv) =
  if opened && (len (log_file dv) =? 0) then log_file dv ++ hd ++ crlf else log_file dv.

Hypothesis loop_appends : forall w dv,
  exists more, log_file (loop w dv) = log_file dv ++ more.

Lemma step_keeps_nonempty (e : event Clock) (dv : Device) :
  log_file dv <> EmptyString -> log_file (step setup loop e dv) <> EmptyString.
Proof.
  intros Hne. destruct e as [opened|w]; simpl.
  - rewrite setup_log.
    destruct (opened && (len (log_file dv) =? 0)); [|assumption].
    apply append_nonempty. assumption.
  - destruct (loop_appends w dv) as [more ->].
    apply append_nonempty. assumption.
Qed.

(** Once the file is not empty no restart writes the header. *)
Lemma header_writes_nonempty (evs : list (event Clock)) :
  forall dv, log_file dv <> EmptyString -> header_writes setup loop evs dv = O.
Proof.
  induction evs as [|e evs IH]; intros dv Hne; [reflexivity|].
  simpl. rewrite (IH _ (step_keeps_nonempty e dv Hne)).
  destruct e as [opened|w]; [|reflexivity].
  rewrite setup_log.
  destruct (len (log_file dv) =? 0) eqn:E.
  - apply len_zero in E. congruence.
  - rewrite andb_false_r, String.eqb_refl. reflexivity.
Qed.

Lemma header_writes_at_most_once (evs : list (event Clock)) :
  forall dv, (header_writes setup loop evs dv <= 1)%nat.
Proof.
  induction evs as [|e evs IH]; intros dv; [simpl; lia|].
  simpl. destruct e as [opened|w].
  - destruct (String.eqb_spec (log_file (setup opened dv)) (log_file dv)) as [E|E].
    + simpl. apply IH.
    + rewrite header_writes_nonempty; [lia|].
      simpl. rewrite setup_log in *.
      destruct (opened && (len (log_file dv) =? 0)); [|congruence].
      rewrite <- append_assoc. intros F.
      destruct (log_file dv ++ hd); discriminate F.
  - simpl. apply IH.
Qed.

End OneHeader.

Section Header.
Context {V : Vendor}.

Lemma SMART_setup_log (opened : bool) (dv : Device) :
  log_file (SMART.setup opened dv) =
  if opened && (len (log_file dv) =? 0)
  then log_file dv ++ SMART.header ++ crlf else log_file dv.
Proof.
  unfold SMART.setup. simpl.
  destruct (opened && (len (log_file dv) =? 0)); reflexivity.
Qed.

Lemma SMARTnew_setup_log (opened : bool) (dv : Device) :
  log_file (SMARTnew.setup opened dv) =
  if opened && (len (log_file dv) =? 0)
  then log_file dv ++ SMARTnew.header ++ crlf else log_file dv.
Proof.
  unfold SMARTnew.setup. simpl.
  destruct (opened && (len (log_file dv) =? 0)); reflexivity.
Qed.

Lemma SMART_loop_appends (w : World RTClib.DateTime) (dv : Device) :
  exists more, log_file (SMART.loop w dv) = log_file dv ++ more.
Proof.
  rewrite SMART_loop_log. destruct (_ && _).
  - eexists; reflexivity.
  - exists EmptyString. symmetry. apply append_nil_r.
Qed.

Lemma SMARTnew_loop_appends (w : World RTClib.DateTime) (dv : Device) :
  exists more, log_file (SMARTnew.loop w dv) = log_file dv ++ more.
Proof.
  rewrite SMARTnew_loop_log. destruct (_ && _).
  - eexists; reflexivity.
  - exists EmptyString. symmetry. apply append_nil_r.
Qed.

End Header.

(** C2, as stated, fails in the single-sensor sketches, whose [setup] writes
    the header whenever the file opens: a restart against a log that already
    starts with the header appends a second one. *)
Lemma C2_counterexample :
  option_map log_file (Download.setup true (fresh (Download.header ++ crlf))) =
    Some (Download.header ++ crlf ++ Download.header ++ crlf) /\
  option_map log_file (Basic.setup true (fresh (Basic.header ++ crlf))) =
    Some (Basic.header ++ crlf ++ Basic.header ++ crlf).
Proof. vm_compute. auto. Qed.

(** C2 (amended). In the two dual-sensor sketches [setup] writes the header
    line only when the file it opened is empty: a restart against a
    non-empty log file leaves the file as it is, a start on an empty file
    that opens writes exactly the header line, and along any life of the
    device (restarts and passes of [loop] in any order, from any state) at
    most one restart writes the header.  The two single-sensor sketches
    write the header line at every start at which the file opens. *)
Theorem C2_header_once {V : Vendor}
        (opened : bool) (dv : Device) (evs : list (event RTClib.DateTime)) :
  (log_file dv <> EmptyString ->
   log_file (SMART.setup opened dv) = log_file dv /\
   log_file (SMARTnew.setup opened dv) = log_file dv) /\
  (log_file dv = EmptyString ->
   log_file (SMART.setup true dv) = SMART.header ++ crlf /\
   log_file (SMARTnew.setup true dv) = SMARTnew.header ++ crlf) /\
  (header_writes SMART.setup SMART.loop evs dv <= 1)%nat /\
  (header_writes SMARTnew.setup SMARTnew.loop evs dv <= 1)%nat /\
  option_map log_file (Download.setup true dv) =
    Some (log_file dv ++ Download.header ++ crlf) /\
  option_map log_file (Basic.setup true dv) =
    Some (log_file dv ++ Basic.header ++ crlf).
Proof.
  split; [|split; [|split; [|split; [|split]]]].
  - intros Hne. rewrite SMART_setup_log, SMARTnew_setup_log.
    destruct (len (log_file dv) =? 0) eqn:E.
    + apply len_zero in E. congruence.
    + rewrite andb_false_r. auto.
  - intros He. rewrite SMART_setup_log, SMARTnew_setup_log, He. auto.
  - apply (header_writes_at_most_once SMART.setup SMART.loop SMART.header
             SMART_setup_log SMART_loop_appends).
  - apply (header_writes_at_most_once SMARTnew.setup SMARTnew.loop SMARTnew.header
             SMARTnew_setup_log SMARTnew_loop_appends).
  - reflexivity.
  - reflexivity.
Qed.

Lemma C2_header_once_witness :
  log_file (SMART.setup true (fresh example_log)) = example_log /\
  log_file (SMARTnew.setup true (fresh EmptyString)) = SMARTnew.header ++ crlf /\
  header_writes (SMARTnew.setup) (SMARTnew.loop (V:=bench))
    [Boot true; Pass (tick june_3 mild); Boot true; Pass (tick june_10 mild); Boot true]
    (fresh EmptyString) = 1%nat.
Proof.
  split; [|split].
  - apply (proj1 (C2_header_once (V:=bench) true (fresh example_log) [])).
    discriminate.
  - apply (proj1 (proj2 (C2_header_once (V:=bench) true (fresh EmptyString) []))).
    reflexivity.
  - vm_compute. reflexivity.
Defined.

(** ** The colour bands *)

Lemma fle_refl (x : float) : isnan x = false -> fle x x = true.
Proof.
  unfold fle, SFleb. destruct x as [s|s| |s m e]; simpl; intros H.
  - reflexivity.
  - destruct s; reflexivity.
  - discriminate.
  - destruct s; rewrite Z.compare_refl, Pos.compare_cont_refl; reflexivity.
Qed.

Lemma fle_nan_r (x : float) : fle x S754_nan = false.
Proof. destruct x as [s|s| |s m e]; reflexivity. Qed.

(** C4. [colorIndicator] is a function of its five arguments that returns
    ["green"] exactly when [greenMin <= value <= greenMax], otherwise
    ["orange"] exactly when [yellowMin <= value <= yellowMax], otherwise
    ["red"]; the comparisons are the C ones, inclusive at both ends of a
    band.  In particular a value at either end of the green band is green, a
    value at either end of the yellow band and outside the green one is
    orange, and a value in neither band (whether the bands overlap or leave
    a gap, and also a not-a-number value) is red. *)
Theorem C4_colorIndicator (value greenMin greenMax yellowMin yellowMax : float) :
  let green := fle greenMin value && fle value greenMax in
  let yellow := fle yellowMin value && fle value yellowMax in
  (SMARTnew.colorIndicator value greenMin greenMax yellowMin yellowMax = "green"
   <-> green = true) /\
  (SMARTnew.colorIndicator value greenMin greenMax yellowMin yellowMax = "orange"
   <-> green = false /\ yellow = true) /\
  (SMARTnew.colorIndicator value greenMin greenMax yellowMin yellowMax = "red"
   <-> green = false /\ yellow = false) /\
  (isnan greenMin = false -> fle greenMin greenMax = true ->
   SMARTnew.colorIndicator greenMin greenMin greenMax yellowMin yellowMax = "green") /\
  (isnan greenMax = false -> fle greenMin greenMax = true ->
   SMARTnew.colorIndicator greenMax greenMin greenMax yellowMin yellowMax = "green") /\
  (isnan yellowMin = false -> fle yellowMin yellowMax = true ->
   fle greenMin yellowMin && fle yellowMin greenMax = false ->
   SMARTnew.colorIndicator yellowMin greenMin greenMax yellowMin yellowMax = "orange") /\
  (isnan yellowMax = false -> fle yellowMin yellowMax = true ->
   fle greenMin yellowMax && fle yellowMax greenMax = false ->
   SMARTnew.colorIndicator yellowMax greenMin greenMax yellowMin yellowMax = "orange") /\
  SMARTnew.colorIndicator S754_nan greenMin greenMax yellowMin yellowMax = "red".
Proof.
  cbv zeta. unfold SMARTnew.colorIndicator, fge, fle.
  split; [|split; [|split; [|split; [|split; [|split; [|split]]]]]].
  - destruct (SFleb greenMin value && SFleb value greenMax);
      [|destruct (SFleb yellowMin value && SFleb value yellowMax)];
      split; intros H; first [reflexivity | discriminate H].
  - destruct (SFleb greenMin value && SFleb value greenMax);
      [|destruct (SFleb yellowMin value && SFleb value yellowMax)];
      split; intros H;
      first [reflexivity | discriminate H | split; reflexivity
            | destruct H as [H1 H2]; congruence].
  - destruct (SFleb greenMin value && SFleb value greenMax);
      [|destruct (SFleb yellowMin value && SFleb value yellowMax)];
      split; intros H;
      first [reflexivity | discriminate H | split; reflexivity
            | destruct H as [H1 H2]; congruence].
  - intros Hn Hle. rewrite (fle_refl _ Hn : SFleb _ _ = true), Hle. reflexivity.
  - intros Hn Hle. rewrite (fle_refl _ Hn : SFleb _ _ = true), Hle. reflexivity.
  - intros Hn Hle Hg. rewrite Hg, (fle_refl _ Hn : SFleb _ _ = true), Hle. reflexivity.
  - intros Hn Hle Hg. rewrite Hg, (fle_refl _ Hn : SFleb _ _ = true), Hle. reflexivity.
  - rewrite !(fun x => fle_nan_r x : SFleb _ _ = false), !andb_false_r. reflexivity.
Qed.

(** The humidity band of the page at its edges and around them. *)
Lemma C4_colorIndicator_witness :
  humidity_band 30 = "green" /\ humidity_band 60 = "green" /\
  humidity_band 20 = "orange" /\ humidity_band 29 = "orange" /\
  humidity_band 61 = "orange" /\ humidity_band 70 = "orange" /\
  humidity_band 19 = "red" /\ humidity_band 71 = "red" /\ humidity_band (-5) = "red".
Proof.
  pose proof (C4_colorIndicator (float_of_int 45)
                (float_of_int 30) (float_of_int 60) (float_of_int 20) (float_of_int 70))
    as (_ & _ & _ & G1 & G2 & Y1 & Y2 & _).
  split; [exact (G1 eq_refl eq_refl)|].
  split; [exact (G2 eq_refl eq_refl)|].
  split; [exact (Y1 eq_refl eq_refl eq_refl)|].
  split; [vm_compute; reflexivity|].
  split; [vm_compute; reflexivity|].
  split; [exact (Y2 eq_refl eq_refl eq_refl)|].
  vm_compute. auto.
Defined.

(** ** The 7-day window *)

Lemma Zrange_In (lo : Z) (n : nat) (z : Z) :
  lo <= z < lo + Z.of_nat n -> In z (Zrange lo n).
Proof.
  intros H. unfold Zrange. apply in_map_iff.
  exists (Z.to_nat (z - lo)). split; [lia|].
  apply in_seq. lia.
Qed.

Lemma valid_dateb_spec (dt : RTClib.DateTime) :
  valid_dateb dt = true <-> valid_date dt.
Proof.
  unfold valid_dateb, valid_date.
  rewrite !andb_true_iff, !Z.leb_le. tauto.
Qed.

Lemma days_in_month_le_31 (y m : Z) : days_in_month y m <= 31.
Proof.
  unfold days_in_month.
  destruct (m =? 2); [destruct (is_leap y); lia|].
  destruct ((m =? 4) || (m =? 6) || (m =? 9) || (m =? 11)); lia.
Qed.

Lemma on_all_dates_spec (P : Z -> Z -> Z -> bool) :
  on_all_dates P = true ->
  forall y m d, 0 <= y <= 99 -> 1 <= m <= 12 -> 1 <= d <= 31 -> P y m d = true.
Proof.
  intros A y m d Hy Hm Hd. unfold on_all_dates in A.
  assert (Iy : In y (Zrange 0 100)) by (apply Zrange_In; simpl; lia).
  assert (Im : In m (Zrange 1 12)) by (apply Zrange_In; simpl; lia).
  assert (Id : In d (Zrange 1 31)) by (apply Zrange_In; simpl; lia).
  rewrite forallb_forall in A. specialize (A _ Iy).
  rewrite forallb_forall in A. specialize (A _ Im).
  rewrite forallb_forall in A. exact (A _ Id).
Qed.

Ltac mod_small :=
  change (2 ^ 32) with 4294967296 in *;
  change (2 ^ 31) with 2147483648 in *;
  change (2 ^ 16) with 65536 in *;
  change (2 ^ 15) with 32768 in *;
  change (2 ^ 8) with 256 in *;
  repeat match goal with
         | |- context [?a mod ?b] => rewrite (Z.mod_small a b) by lia
         end.

Section Window.
Context {V : Vendor}.

Lemma all_dates_ok : on_all_dates date_ok = true.
Proof. vm_compute. reflexivity. Qed.

Lemma date_ok_valid (dt : RTClib.DateTime) :
  valid_date dt ->
  date_ok (RTClib.yOff dt) (RTClib.month dt) (RTClib.day dt) = true.
Proof.
  intros (Hy & Hm & Hd).
  pose proof (days_in_month_le_31 (2000 + RTClib.yOff dt) (RTClib.month dt)) as H31.
  apply (on_all_dates_spec date_ok all_dates_ok); lia.
Qed.

Lemma find_char_append (ch : ascii) (s rest : string) :
  find_char ch s = None ->
  find_char ch (s ++ String ch rest) = Some (String.length s).
Proof.
  induction s as [|a s IH]; simpl.
  - intros _. rewrite Ascii.eqb_refl. reflexivity.
  - destruct (Ascii.eqb a ch); [discriminate|].
    destruct (find_char ch s); [discriminate|].
    intros _. rewrite IH by reflexivity. reflexivity.
Qed.

Lemma find_comma_c_str (s rest : string) :
  nul_free s -> find_char comma s = None ->
  find_char comma (c_str (s ++ String comma rest)) = Some (String.length s).
Proof.
  intros Hn Hf. rewrite c_str_append by assumption.
  change (c_str (String comma rest)) with (String comma (c_str rest)).
  apply find_char_append. assumption.
Qed.

(** The date the clock library prints holds no comma and no NUL byte. *)
Lemma timestamp_date_text (r : RTClib.DateTime) :
  valid_date r ->
  nul_free (RTClib.timestamp_date r) /\ find_char comma (RTClib.timestamp_date r) = None.
Proof.
  intros Hv. pose proof (date_ok_valid r Hv) as K.
  unfold date_ok in K.
  change (RTClib.timestamp_date
            (RTClib.mkDateTime (RTClib.yOff r) (RTClib.month r) (RTClib.day r) 0 0 0))
    with (RTClib.timestamp_date r) in K.
  replace (valid_dateb _) with true in K
    by (symmetry; apply valid_dateb_spec; exact Hv).
  cbv zeta in K.
  rewrite !andb_true_iff in K.
  destruct K as ((((((((_ & K2) & Kn) & _) & _) & _) & _) & _) & _).
  unfold nul_free.
  destruct (find_char comma (RTClib.timestamp_date r)); [discriminate K2|].
  destruct (find_char NUL (RTClib.timestamp_date r)); [discriminate Kn|].
  split; reflexivity.
Qed.

(** The date field of a record is found and read back. *)
Lemma date_field_read (r : RTClib.DateTime) (rest : string) :
  valid_date r ->
  let line := RTClib.timestamp_date r ++ "," ++ rest in
  startsWith line "Date" = false /\
  substring line 0 (indexOf comma line 0) = RTClib.timestamp_date r /\
  toInt (substring (RTClib.timestamp_date r) 0 4) = 2000 + RTClib.yOff r /\
  toInt (substring (RTClib.timestamp_date r) 5 7) = RTClib.month r /\
  toInt (substring (RTClib.timestamp_date r) 8 10) = RTClib.day r.
Proof.
  intros Hv. pose proof (date_ok_valid r Hv) as K.
  unfold date_ok in K.
  change (RTClib.timestamp_date
            (RTClib.mkDateTime (RTClib.yOff r) (RTClib.month r) (RTClib.day r) 0 0 0))
    with (RTClib.timestamp_date r) in K.
  replace (valid_dateb _) with true in K
    by (symmetry; apply valid_dateb_spec; exact Hv).
  cbv zeta in K.
  rewrite !andb_true_iff in K.
  destruct K as ((((((((K1 & K2) & Kn) & K3) & K4) & K5) & K6) & _) & _).
  apply Nat.eqb_eq in K1. apply Z.eqb_eq in K4, K5, K6.
  destruct (find_char comma (RTClib.timestamp_date r)) eqn:Hf; [discriminate K2|].
  destruct (find_char NUL (RTClib.timestamp_date r)) eqn:Hz; [discriminate Kn|].
  cbv zeta. set (s := RTClib.timestamp_date r) in *. clearbody s.
  change (s ++ "," ++ rest) with (EmptyString ++ s ++ String comma rest).
  repeat split; try assumption.
  - destruct s as [|c s']; [discriminate K1|].
    unfold startsWith.
    change (EmptyString ++ String c s' ++ String comma rest)
      with (String c (s' ++ String comma rest)).
    change (prefix "Date" (String c (s' ++ String comma rest)))
      with (if ascii_dec "D" c then prefix "ate" (s' ++ String comma rest) else false).
    change (prefix "D" (String c s'))
      with (if ascii_dec "D" c then prefix EmptyString s' else false) in K3.
    destruct (ascii_dec "D" c); [|reflexivity].
    destruct s'; discriminate K3.
  - change 0 with (len EmptyString) at 2.
    rewrite indexOf_from, (find_comma_c_str s rest Hz Hf).
    change 0 with (len EmptyString).
    rewrite substring_middle.
    + rewrite K1. rewrite <- K1 at 1. apply take_append.
    + rewrite length_append. simpl. lia.
Qed.

Lemma next_day_at_time (dt : RTClib.DateTime) (h mi s : Z) :
  next_day (at_time dt h mi s) = at_time (next_day dt) h mi s.
Proof.
  unfold next_day, at_time. simpl.
  destruct (RTClib.day dt <? _); [reflexivity|].
  destruct (RTClib.month dt <? 12); reflexivity.
Qed.

Lemma day_number_later (r : RTClib.DateTime) (k : nat) :
  valid_date r ->
  RTClib.yOff (days_later k r) <= 99 ->
  valid_date (days_later k r) /\
  day_number (days_later k r) = day_number r + Z.of_nat k.
Proof.
  intros Hr. induction k as [|k IH]; intros Hy.
  - simpl. split; [assumption | lia].
  - change (days_later (S k) r) with (next_day (days_later k r)) in *.
    set (dt := days_later k r) in *.
    assert (Hmono : RTClib.yOff dt <= RTClib.yOff (next_day dt)).
    { unfold next_day.
      destruct (RTClib.day dt <? _); [simpl; lia|].
      destruct (RTClib.month dt <? 12); simpl; lia. }
    destruct (IH ltac:(lia)) as [Hv Hd].
    pose proof (date_ok_valid dt Hv) as K. unfold date_ok in K.
    replace (valid_dateb _) with true in K
      by (symmetry; apply valid_dateb_spec; exact Hv).
    cbv zeta in K. rewrite !andb_true_iff in K.
    destruct K as (_ & K).
    change (RTClib.mkDateTime (RTClib.yOff dt) (RTClib.month dt) (RTClib.day dt) 0 0 0)
      with (at_time dt 0 0 0) in K.
    rewrite next_day_at_time in K.
    change (RTClib.yOff (at_time (next_day dt) 0 0 0))
      with (RTClib.yOff (next_day dt)) in K.
    destruct (Z.leb_spec (RTClib.yOff (next_day dt)) 99) as [_|F]; [|lia].
    apply andb_true_iff in K. destruct K as [K1 K2].
    apply Z.eqb_eq in K2. apply valid_dateb_spec in K1.
    split; [exact K1|].
    change (day_number (at_time (next_day dt) 0 0 0)) with (day_number (next_day dt)) in K2.
    change (day_number (at_time dt 0 0 0)) with (day_number dt) in K2.
    lia.
Qed.

Lemma day_number_bound (dt : RTClib.DateTime) :
  valid_date dt -> 0 <= day_number dt <= 36524.
Proof.
  intros Hv. pose proof (date_ok_valid dt Hv) as K. unfold date_ok in K.
  replace (valid_dateb _) with true in K
    by (symmetry; apply valid_dateb_spec; exact Hv).
  cbv zeta in K. rewrite !andb_true_iff in K.
  destruct K as ((_ & K) & _). apply Z.leb_le in K.
  change (day_number (RTClib.mkDateTime (RTClib.yOff dt) (RTClib.month dt)
                                        (RTClib.day dt) 0 0 0))
    with (day_number dt) in K.
  split; [|exact K].
  unfold day_number, RTClib.date2days, to_uint16.
  apply Z.mod_pos_bound. lia.
Qed.

(** The date test on a record dated [k] days before the clock reading. *)
Lemma within_7_days_later (r : RTClib.DateTime) (k : nat) (h mi s : Z) (rest : string) :
  valid_date r ->
  valid_date (days_later k r) ->
  Z.of_nat k <= 24854 ->
  0 <= h < 24 -> 0 <= mi < 60 -> 0 <= s < 60 ->
  SMARTnew.within_7_days (at_time (days_later k r) h mi s)
                         (RTClib.timestamp_date r ++ "," ++ rest)
  = (k <=? 7)%nat.
Proof.
  intros Hr Hn Hk Hh Hmi Hs.
  destruct (date_field_read r rest Hr) as (_ & F1 & F2 & F3 & F4).
  unfold SMARTnew.within_7_days. rewrite F1, F2, F3, F4.
  destruct (day_number_later r k Hr ltac:(destruct Hn as (Hy & _); lia)) as (_ & Hd).
  pose proof (day_number_bound r Hr) as Br.
  pose proof (day_number_bound _ Hn) as Bn.
  destruct Hr as (Hy & Hm & Hdy).
  pose proof (days_in_month_le_31 (2000 + RTClib.yOff r) (RTClib.month r)) as H31.
  assert (E : RTClib.DateTime_of (2000 + RTClib.yOff r) (RTClib.month r) (RTClib.day r) 0 0 0
              = at_time r 0 0 0).
  { unfold RTClib.DateTime_of, at_time, to_uint16, to_uint8.
    mod_small.
    destruct (Z.leb_spec 2000 (2000 + RTClib.yOff r)); [|lia].
    mod_small. f_equal. lia. }
  rewrite E.
  assert (U1 : RTClib.unixtime (at_time (days_later k r) h mi s)
               = day_number (days_later k r) * 86400 + ((h * 60 + mi) * 60 + s) + 946684800).
  { unfold RTClib.unixtime, RTClib.time2ulong, RTClib.SECONDS_FROM_1970_TO_2000, at_time.
    simpl RTClib.yOff. simpl RTClib.month. simpl RTClib.day.
    simpl RTClib.hour. simpl RTClib.minute. simpl RTClib.second.
    fold (day_number (days_later k r)).
    unfold to_uint32, two32. mod_small. lia. }
  assert (U2 : RTClib.unixtime (at_time r 0 0 0) = day_number r * 86400 + 946684800).
  { unfold RTClib.unixtime, RTClib.time2ulong, RTClib.SECONDS_FROM_1970_TO_2000, at_time.
    simpl RTClib.yOff. simpl RTClib.month. simpl RTClib.day.
    simpl RTClib.hour. simpl RTClib.minute. simpl RTClib.second.
    fold (day_number r).
    unfold to_uint32, two32. mod_small. lia. }
  unfold RTClib.minus, RTClib.days. rewrite U1, U2, Hd.
  set (tod := (h * 60 + mi) * 60 + s).
  assert (Ht : 0 <= tod < 86400) by (unfold tod; lia).
  replace (_ - _) with (Z.of_nat k * 86400 + tod) by lia.
  unfold to_int32, to_uint32, two32. mod_small.
  replace (Z.of_nat k * 86400 + tod + 2147483648 - 2147483648)
    with (tod + Z.of_nat k * 86400) by lia.
  rewrite Z.quot_div_nonneg by lia.
  rewrite Z.div_add by lia. rewrite (Z.div_small tod) by lia.
  unfold to_int16. mod_small.
  destruct (Nat.leb_spec k 7); [apply Z.leb_le | apply Z.leb_gt]; lia.
Qed.

End Window.

(** C5, as stated, fails for a record that is older than the clock library
    can measure: the difference of two clock readings is held in 32-bit
    signed seconds, so a record dated 2000-01-01 is 25203 days old on
    2069-01-01, the difference wraps to a negative number of days and the
    row is rendered. *)
Lemma C5_counterexample :
  days_later (Z.to_nat 25203) new_year_2000 = new_year_2069 /\
  RTClib.days (RTClib.minus (V:=bench) new_year_2069 new_year_2000) = -24507 /\
  shown (V:=bench) new_year_2069 old_row = true /\
  sent (SMARTnew.row (V:=bench) new_year_2069 old_row) EmptyString = table_row old_row.
Proof. vm_compute. auto. Qed.

(** C5 (amended). In the 7-day sketch, take a record whose first field is
    the date [r] (as the Sampler writes it, [YYYY-MM-DD]) and a clock
    reading [k] calendar days after [r], at any time of day, with [k] no
    more than 24854 days (the span the clock library's 32-bit seconds can
    hold, about 68 years).  The row is rendered if and only if [k <= 7]: in
    particular the rows dated 0 and 7 days before now are rendered and the
    row dated 8 days before now is not, whatever the time of day.  What is
    rendered is the row of the cell loop; when the rest of the record holds
    no NUL byte, that is one cell for each comma-separated field. *)
Theorem C5_seven_day_window {V : Vendor}
        (r : RTClib.DateTime) (k : nat) (h mi s : Z) (rest : string) (dv : Device) :
  valid_date r ->
  valid_date (days_later k r) ->
  Z.of_nat k <= 24854 ->
  0 <= h < 24 -> 0 <= mi < 60 -> 0 <= s < 60 ->
  let now := at_time (days_later k r) h mi s in
  let line := RTClib.timestamp_date r ++ "," ++ rest in
  shown now line = (k <=? 7)%nat /\
  SMARTnew.row now line dv =
    (if (k <=? 7)%nat then client_print (cell_row line) dv else dv) /\
  (nul_free rest -> cell_row line = table_row line).
Proof.
  intros Hr Hn Hk Hh Hmi Hs. cbv zeta.
  destruct (date_field_read r rest Hr) as (Hd & _).
  pose proof (within_7_days_later r k h mi s rest Hr Hn Hk Hh Hmi Hs) as W.
  unfold shown, SMARTnew.row. rewrite Hd, W. simpl negb. simpl andb.
  split; [reflexivity|]. split.
  - destruct (k <=? 7)%nat; [apply print_cells_row | reflexivity].
  - intros Hz. apply cell_row_table_row.
    apply nul_free_append. split; [exact (proj1 (timestamp_date_text r Hr))|].
    apply (nul_free_append "," rest). split; [reflexivity | exact Hz].
Qed.

Lemma C5_seven_day_window_witness :
  shown (V:=bench) (RTClib.mkDateTime 25 6 3 23 59 59) (RTClib.timestamp_date june_3 ++ ",12:00:00,45.0") = true /\
  shown (V:=bench) (RTClib.mkDateTime 25 6 3 0 0 0) (RTClib.timestamp_date may_27 ++ ",12:00:00,45.0") = true /\
  shown (V:=bench) (RTClib.mkDateTime 25 6 3 23 59 59) (RTClib.timestamp_date may_27 ++ ",12:00:00,45.0") = true /\
  shown (V:=bench) (RTClib.mkDateTime 25 6 3 0 0 0) (RTClib.timestamp_date may_26 ++ ",12:00:00,45.0") = false /\
  shown (V:=bench) (RTClib.mkDateTime 25 6 3 23 59 59) (RTClib.timestamp_date may_26 ++ ",12:00:00,45.0") = false.
Proof.
  assert (Vd : forall dt, valid_dateb dt = true -> valid_date dt)
    by (intros dt; apply valid_dateb_spec).
  split; [|split; [|split; [|split]]].
  - exact (proj1 (C5_seven_day_window (V:=bench) june_3 0 23 59 59 ",12:00:00,45.0" (fresh EmptyString)
                    (Vd june_3 eq_refl) (Vd (days_later 0 june_3) eq_refl) ltac:(simpl; lia)
                    ltac:(lia) ltac:(lia) ltac:(lia))).
  - exact (proj1 (C5_seven_day_window (V:=bench) may_27 7 0 0 0 ",12:00:00,45.0" (fresh EmptyString)
                    (Vd may_27 eq_refl) (Vd (days_later 7 may_27) eq_refl) ltac:(simpl; lia)
                    ltac:(lia) ltac:(lia) ltac:(lia))).
  - exact (proj1 (C5_seven_day_window (V:=bench) may_27 7 23 59 59 ",12:00:00,45.0" (fresh EmptyString)
                    (Vd may_27 eq_refl) (Vd (days_later 7 may_27) eq_refl) ltac:(simpl; lia)
                    ltac:(lia) ltac:(lia) ltac:(lia))).
  - exact (proj1 (C5_seven_day_window (V:=bench) may_26 8 0 0 0 ",12:00:00,45.0" (fresh EmptyString)
                    (Vd may_26 eq_refl) (Vd (days_later 8 may_26) eq_refl) ltac:(simpl; lia)
                    ltac:(lia) ltac:(lia) ltac:(lia))).
  - exact (proj1 (C5_seven_day_window (V:=bench) may_26 8 23 59 59 ",12:00:00,45.0" (fresh EmptyString)
                    (Vd may_26 eq_refl) (Vd (days_later 8 may_26) eq_refl) ltac:(simpl; lia)
                    ltac:(lia) ltac:(lia) ltac:(lia))).
Defined.

(** ** The rows of the table *)

Lemma file_lines_line (l rest : string) :
  find_char LF l = None ->
  file_lines (l ++ String LF rest) = l :: file_lines rest.
Proof.
  induction l as [|c l IH]; simpl.
  - intros _. reflexivity.
  - destruct (Ascii.eqb c LF); [discriminate|].
    destruct (find_char LF l); [discriminate|].
    intros _. rewrite IH by reflexivity. reflexivity.
Qed.

Lemma fields_field (f rest : string) :
  find_char comma f = None ->
  fields (f ++ String comma rest) = f :: fields rest.
Proof.
  induction f as [|c f IH]; simpl.
  - intros _. reflexivity.
  - destruct (Ascii.eqb c comma); [discriminate|].
    destruct (find_char comma f); [discriminate|].
    intros _. rewrite IH by reflexivity. reflexivity.
Qed.

(** The field that starts after a prefix [p] and ends at the next comma. *)
Lemma cut_field (p f rest : string) :
  nul_free f ->
  find_char comma f = None ->
  indexOf comma (p ++ f ++ String comma rest) (len p) = len p + len f /\
  substring (p ++ f ++ String comma rest) (len p) (len p + len f) = f /\
  len p + len f + 1 = len (p ++ f ++ String comma EmptyString) /\
  p ++ f ++ String comma rest = (p ++ f ++ String comma EmptyString) ++ rest.
Proof.
  intros Hz Hf. repeat split.
  - rewrite indexOf_from, (find_comma_c_str f rest Hz Hf). reflexivity.
  - unfold len at 3. rewrite substring_middle.
    + apply take_append.
    + rewrite length_append. simpl. lia.
  - rewrite !len_append. unfold len at 5. simpl. lia.
  - rewrite !append_assoc. reflexivity.
Qed.

(** A line of four fields in the download sketch. *)
Lemma Download_row_four (a b c d : string) :
  nul_free a -> nul_free b -> nul_free c ->
  find_char comma a = None -> find_char comma b = None ->
  find_char comma c = None -> find_char comma d = None ->
  let line := a ++ "," ++ b ++ "," ++ c ++ "," ++ d in
  startsWith line Download.header = false ->
  fields line = [a; b; c; d] /\
  sent (Download.row line) EmptyString = table_row_ln line.
Proof.
  intros Za Zb Zc Ha Hb Hc Hd line Hh.
  assert (Hfields : fields line = [a; b; c; d]).
  { unfold line. simpl append.
    rewrite (fields_field a _ Ha), (fields_field b _ Hb), (fields_field c _ Hc).
    rewrite (find_char_none_fields d Hd). reflexivity. }
  split; [exact Hfields|].
  unfold table_row_ln. rewrite Hfields.
  unfold sent, Download.row. unfold Download.header in Hh. rewrite Hh.
  assert (L0 : line = EmptyString ++ a ++ String comma (b ++ String comma (c ++ String comma d)))
    by reflexivity.
  destruct (cut_field EmptyString a (b ++ String comma (c ++ String comma d)) Za Ha)
    as (I1 & S1 & N1 & E1).
  rewrite <- L0 in I1, S1, E1. change (len EmptyString) with 0 in I1, S1, N1.
  rewrite Z.add_0_l in I1, S1, N1. rewrite I1, S1.
  set (p1 := EmptyString ++ a ++ String comma EmptyString) in *.
  destruct (cut_field p1 b (c ++ String comma d) Zb Hb) as (I2 & S2 & N2 & E2).
  rewrite <- E1 in I2, S2, E2.
  replace (len a + 1) with (len p1) by lia.
  rewrite I2, S2.
  set (p2 := p1 ++ b ++ String comma EmptyString) in *.
  destruct (cut_field p2 c d Zc Hc) as (I3 & S3 & N3 & E3).
  rewrite <- E2 in I3, S3, E3.
  replace (len p1 + len b + 1) with (len p2) by lia.
  rewrite I3, S3.
  replace (len p2 + len c + 1) with (len (p2 ++ c ++ String comma EmptyString)) by lia.
  rewrite E3 at 1. rewrite substring_from_suffix.
  unfold seq, client_println, td. simpl client_tx.
  cbn [map join fold_right]. rewrite ?append_assoc. simpl. rewrite ?append_assoc.
  reflexivity.
Qed.

(** C3, as stated, fails in the 7-day sketch, which renders only the lines
    that pass its date test: on June 10 the log of the specification's
    example, a header and two records, gives a table without rows. *)
Lemma C3_counterexample :
  file_lines example_log =
    [SMARTnew.header ++ String CR EmptyString;
     example_row_1 ++ String CR EmptyString;
     example_row_2 ++ String CR EmptyString] /\
  sent (SMARTnew.log_table (V:=bench) true june_10) example_log = EmptyString.
Proof. vm_compute. auto. Qed.

(** The lines of a file without NUL bytes hold none. *)
Lemma file_lines_nul_free (file : string) :
  nul_free file -> Forall nul_free (file_lines file).
Proof.
  induction file as [|c file IH]; intros H; simpl; [constructor|].
  apply nul_free_cons in H. destruct H as [Hc Hf]. specialize (IH Hf).
  destruct (Ascii.eqb c LF).
  - constructor; [reflexivity | exact IH].
  - destruct (file_lines file) as [|l ls].
    + constructor; [|constructor]. apply nul_free_cons. split; [exact Hc | reflexivity].
    + inversion IH as [|? ? Hl Hls]; subst.
      constructor; [|exact Hls]. apply nul_free_cons. split; assumption.
Qed.

Lemma join_map_cell_row (keep : string -> bool) (ls : list string) :
  Forall nul_free ls ->
  join (map cell_row (filter keep ls)) = join (map table_row (filter keep ls)).
Proof.
  induction 1 as [|l ls Hl Hls IH]; [reflexivity|].
  cbn [filter]. destruct (keep l); [|exact IH].
  cbn [map join fold_right]. fold (join (map cell_row (filter keep ls))).
  fold (join (map table_row (filter keep ls))).
  rewrite IH, (cell_row_table_row l Hl). reflexivity.
Qed.

Lemma filter_all (ls : list string) : filter (fun _ => true) ls = ls.
Proof. induction ls as [|l ls IH]; simpl; [|rewrite IH]; reflexivity. Qed.

(** C3 (amended).  The 7-day sketch never renders a line that starts with
    [Date], and renders every other line that passes its date test as one
    table row: the row of the cell loop, which for a line without a NUL byte
    is the line split on commas with each field in its own cell.  SMART.ino
    renders every line of its log as such a row, the header line first.  The
    two single-sensor sketches never render a line that starts with the
    header text; the download sketch renders a line of four fields, the
    first three without a NUL byte, as one row with each field in its own
    cell. *)
Theorem C3_table_rows {V : Vendor}
        (now : RTClib.DateTime) (dv : Device) (rest a b c d : string) :
  (client_tx (SMARTnew.log_table true now dv) =
     client_tx dv ++ join (map cell_row (filter (shown now) (file_lines (log_file dv)))) /\
   (forall line, startsWith line "Date" = true -> shown now line = false) /\
   (forall line, nul_free line -> cell_row line = table_row line) /\
   (nul_free (log_file dv) ->
    client_tx (SMARTnew.log_table true now dv) =
      client_tx dv ++
      join (map table_row (filter (shown now) (file_lines (log_file dv)))))) /\
  (log_file dv = SMART.header ++ crlf ++ rest ->
   client_tx (SMART.log_table true dv) =
     client_tx dv ++ table_row (SMART.header ++ String CR EmptyString) ++
     join (map cell_row (file_lines rest)) /\
   (nul_free rest ->
    client_tx (SMART.log_table true dv) =
      client_tx dv ++ table_row (SMART.header ++ String CR EmptyString) ++
      join (map table_row (file_lines rest)))) /\
  (client_tx (Download.log_table true dv) =
     client_tx dv ++
     join (map (fun line => sent (Download.row line) EmptyString)
               (data_lines Download.header (log_file dv))) /\
   (nul_free a -> nul_free b -> nul_free c ->
    find_char comma a = None -> find_char comma b = None ->
    find_char comma c = None -> find_char comma d = None ->
    startsWith (a ++ "," ++ b ++ "," ++ c ++ "," ++ d) Download.header = false ->
    fields (a ++ "," ++ b ++ "," ++ c ++ "," ++ d) = [a; b; c; d] /\
    sent (Download.row (a ++ "," ++ b ++ "," ++ c ++ "," ++ d)) EmptyString =
      table_row_ln (a ++ "," ++ b ++ "," ++ c ++ "," ++ d))) /\
  client_tx (Basic.log_table true dv) =
    client_tx dv ++
    join (map (fun line => sent (Basic.row line) EmptyString)
              (data_lines Basic.header (log_file dv))).
Proof.
  split; [split; [|split; [|split]]|split; [|split; [split|]]].
  - destruct (SMARTnew_log_table_sends true now dv) as (_ & _ & H). exact H.
  - intros line H. unfold shown. rewrite H. reflexivity.
  - exact cell_row_table_row.
  - intros Hz. destruct (SMARTnew_log_table_sends true now dv) as (_ & _ & H).
    rewrite H. unfold SMARTnew_table.
    rewrite (join_map_cell_row (shown now) _ (file_lines_nul_free _ Hz)). reflexivity.
  - intros Hlog.
    destruct (SMART_log_table_sends true dv) as (_ & _ & H).
    unfold SMART_table in H. rewrite Hlog in H.
    change (SMART.header ++ crlf ++ rest)
      with ((SMART.header ++ String CR EmptyString) ++ String LF rest) in H.
    rewrite file_lines_line in H by reflexivity.
    change (map cell_row ((SMART.header ++ String CR EmptyString) :: file_lines rest))
      with (cell_row (SMART.header ++ String CR EmptyString) :: map cell_row (file_lines rest))
      in H.
    change (join (?x :: ?l)) with (x ++ join l) in H.
    rewrite (cell_row_table_row (SMART.header ++ String CR EmptyString) eq_refl) in H.
    split; [exact H|].
    intros Hz. rewrite H.
    pose proof (join_map_cell_row (fun _ => true) _ (file_lines_nul_free _ Hz)) as J.
    rewrite filter_all in J. rewrite J. reflexivity.
  - destruct (Download_log_table_sends true dv) as (_ & _ & H).
    rewrite H. unfold Download_table, data_lines. f_equal.
    apply join_map_filter. intros l Hl.
    apply negb_false_iff in Hl. unfold is_header, Download.header in Hl.
    unfold sent, Download.row. rewrite Hl. reflexivity.
  - intros Za Zb Zc Ha Hb Hc Hd Hh.
    exact (Download_row_four a b c d Za Zb Zc Ha Hb Hc Hd Hh).
  - destruct (Basic_log_table_sends true dv) as (_ & _ & H).
    rewrite H. unfold Basic_table, data_lines. f_equal.
    apply join_map_filter. intros l Hl.
    apply negb_false_iff in Hl. unfold is_header, Basic.header in Hl.
    unfold sent, Basic.row. rewrite Hl. reflexivity.
Qed.

Lemma C3_table_rows_witness :
  client_tx (SMART.log_table true (fresh smart_log)) =
    table_row (SMART.header ++ String CR EmptyString) ++
    table_row (example_row_1 ++ String CR EmptyString) ++
    table_row (example_row_2 ++ String CR EmptyString) /\
  client_tx (SMARTnew.log_table (V:=bench) true june_3 (fresh example_log)) =
    table_row (example_row_1 ++ String CR EmptyString) ++
    table_row (example_row_2 ++ String CR EmptyString) /\
  sent (Download.row "17/4/2025,15:52:0,22.00,45.00") EmptyString =
    table_row_ln "17/4/2025,15:52:0,22.00,45.00".
Proof.
  destruct (C3_table_rows (V:=bench) june_3 (fresh smart_log) example_rows
              "17/4/2025" "15:52:0" "22.00" "45.00") as (_ & S & (_ & D) & _).
  destruct (C3_table_rows (V:=bench) june_3 (fresh example_log) example_rows
              "17/4/2025" "15:52:0" "22.00" "45.00") as ((_ & _ & _ & N) & _).
  split; [|split].
  - rewrite (proj2 (S eq_refl) eq_refl). reflexivity.
  - rewrite (N eq_refl). reflexivity.
  - exact (proj2 (D eq_refl eq_refl eq_refl eq_refl eq_refl eq_refl eq_refl eq_refl)).
Defined.

(** * Further properties of the sketches *)

(** ** Plain texts *)

Lemma find_char_app_none (ch : ascii) (a b : string) :
  find_char ch a = None -> find_char ch b = None -> find_char ch (a ++ b) = None.
Proof.
  induction a as [|c a IH]; simpl; [auto|].
  destruct (Ascii.eqb c ch); [discriminate|].
  destruct (find_char ch a); [discriminate|].
  intros _ Hb. rewrite IH by auto. reflexivity.
Qed.

Lemma plain_append (a b : string) : plain a -> plain b -> plain (a ++ b).
Proof.
  intros [A1 A2] [B1 B2]. split; apply find_char_app_none; assumption.
Qed.

Lemma plain_uint (u : Decimal.uint) : plain (NilEmpty.string_of_uint u).
Proof.
  induction u as [|u [I1 I2]|u [I1 I2]|u [I1 I2]|u [I1 I2]|u [I1 I2]
                  |u [I1 I2]|u [I1 I2]|u [I1 I2]|u [I1 I2]|u [I1 I2]];
    split; simpl; try reflexivity; rewrite ?I1, ?I2; reflexivity.
Qed.

Lemma plain_print_int (z : Z) : plain (print_int z).
Proof.
  unfold print_int, NilZero.string_of_int.
  destruct (Z.to_int z) as [u|u].
  - unfold NilZero.string_of_uint. destruct u; try apply plain_uint.
    split; reflexivity.
  - unfold NilZero.string_of_uint.
    apply (plain_append "-"); [split; reflexivity|].
    destruct u; try apply plain_uint. split; reflexivity.
Qed.

Lemma plain_fmt_02d (z : Z) : plain (fmt_02d z).
Proof.
  unfold fmt_02d. destruct (String.length (print_int z) <? 2)%nat.
  - apply (plain_append "0"); [split; reflexivity | apply plain_print_int].
  - apply plain_print_int.
Qed.

Lemma plain_timestamp_date (dt : RTClib.DateTime) : plain (RTClib.timestamp_date dt).
Proof.
  unfold RTClib.timestamp_date.
  repeat first [ apply plain_print_int | apply plain_fmt_02d
               | apply plain_append | split; reflexivity ].
Qed.

Lemma plain_timestamp_time (dt : RTClib.DateTime) : plain (RTClib.timestamp_time dt).
Proof.
  unfold RTClib.timestamp_time.
  repeat first [ apply plain_print_int | apply plain_fmt_02d
               | apply plain_append | split; reflexivity ].
Qed.

(** What the clock library and [print(int)] write holds no NUL byte. *)
Lemma nul_free_app (a b : string) : nul_free a -> nul_free b -> nul_free (a ++ b).
Proof. intros A B. apply nul_free_append. split; assumption. Qed.

Lemma nul_free_uint (u : Decimal.uint) : nul_free (NilEmpty.string_of_uint u).
Proof.
  unfold nul_free.
  induction u as [|u I|u I|u I|u I|u I|u I|u I|u I|u I|u I];
    simpl; try reflexivity; rewrite I; reflexivity.
Qed.

Lemma nul_free_print_int (z : Z) : nul_free (print_int z).
Proof.
  unfold print_int, NilZero.string_of_int.
  destruct (Z.to_int z) as [u|u].
  - unfold NilZero.string_of_uint. destruct u; try apply nul_free_uint.
    reflexivity.
  - unfold NilZero.string_of_uint.
    apply (nul_free_app "-"); [reflexivity|].
    destruct u; try apply nul_free_uint. reflexivity.
Qed.

Lemma nul_free_fmt_02d (z : Z) : nul_free (fmt_02d z).
Proof.
  unfold fmt_02d. destruct (String.length (print_int z) <? 2)%nat.
  - apply (nul_free_app "0"); [reflexivity | apply nul_free_print_int].
  - apply nul_free_print_int.
Qed.

Lemma nul_free_timestamp_date (dt : RTClib.DateTime) :
  nul_free (RTClib.timestamp_date dt).
Proof.
  unfold RTClib.timestamp_date.
  repeat first [ apply nul_free_print_int | apply nul_free_fmt_02d
               | apply nul_free_app | reflexivity ].
Qed.

Lemma nul_free_timestamp_time (dt : RTClib.DateTime) :
  nul_free (RTClib.timestamp_time dt).
Proof.
  unfold RTClib.timestamp_time.
  repeat first [ apply nul_free_print_int | apply nul_free_fmt_02d
               | apply nul_free_app | reflexivity ].
Qed.

Lemma line_count_append (a b : string) :
  line_count (a ++ b) = line_count a + line_count b.
Proof. induction a as [|c a IH]; simpl; [reflexivity | rewrite IH; lia]. Qed.

Lemma line_count_plain (s : string) : find_char LF s = None -> line_count s = 0.
Proof.
  induction s as [|c s IH]; simpl; [reflexivity|].
  destruct (Ascii.eqb c LF); [discriminate|].
  destruct (find_char LF s); [discriminate|]. intros _. rewrite IH; reflexivity.
Qed.

(** ** Records *)

Lemma fields_join_commas (l : list string) :
  l <> [] ->
  Forall (fun f => find_char comma f = None) l ->
  fields (join_commas l) = l.
Proof.
  induction l as [|f fs IH]; intros Hne Hall; [congruence|].
  inversion Hall as [|? ? Hf Hfs]; subst.
  destruct fs as [|g gs].
  - simpl. apply find_char_none_fields. assumption.
  - change (join_commas (f :: g :: gs)) with (f ++ String comma (join_commas (g :: gs))).
    rewrite (fields_field f _ Hf), IH; [reflexivity | discriminate | assumption].
Qed.

Lemma find_char_join_commas (l : list string) :
  Forall (fun f => find_char LF f = None) l ->
  find_char LF (join_commas l) = None.
Proof.
  induction l as [|f fs IH]; intros Hall; [reflexivity|].
  inversion Hall as [|? ? Hf Hfs]; subst.
  destruct fs as [|g gs]; [assumption|].
  change (join_commas (f :: g :: gs)) with (f ++ String comma (join_commas (g :: gs))).
  apply find_char_app_none; [assumption|].
  specialize (IH Hfs). revert IH. generalize (join_commas (g :: gs)).
  intros r IH. simpl. rewrite IH. reflexivity.
Qed.

Lemma cells_field (f rest : string) :
  nul_free f -> find_char comma f = None ->
  cells (f ++ String comma rest) = f :: cells rest.
Proof.
  induction f as [|c f IH]; intros Hz Hc.
  - reflexivity.
  - apply nul_free_cons in Hz. destruct Hz as [Hn Hz].
    simpl in Hc. destruct (Ascii.eqb c comma) eqn:E; [discriminate|].
    destruct (find_char comma f) eqn:F; [discriminate|].
    simpl. rewrite Hn, E, (IH Hz eq_refl). reflexivity.
Qed.

(** Fields without commas, joined by commas, are cut apart again by the cell
    loop when none but the last holds a NUL byte. *)
Lemma cells_join_commas (l : list string) :
  l <> [] ->
  Forall (fun f => find_char comma f = None) l ->
  Forall nul_free (removelast l) ->
  cells (join_commas l) = l.
Proof.
  induction l as [|f fs IH]; intros Hne Hc Hz; [congruence|].
  inversion Hc as [|? ? Hf Hfs]; subst.
  destruct fs as [|g gs].
  - simpl. apply cells_none, find_char_c_str_none. assumption.
  - change (removelast (f :: g :: gs)) with (f :: removelast (g :: gs)) in Hz.
    inversion Hz as [|? ? Zf Zfs]; subst.
    change (join_commas (f :: g :: gs)) with (f ++ String comma (join_commas (g :: gs))).
    rewrite (cells_field f _ Zf Hf), IH; [reflexivity | discriminate | assumption | assumption].
Qed.

Section Records.
Context {V : Vendor}.

Lemma SMART_record_eq (now : RTClib.DateTime) (s : Sensors) :
  SMART.record now s = join_commas (record_fields now s) ++ String LF EmptyString.
Proof.
  unfold SMART.record, record_fields. cbv zeta. unfold crlf.
  cbn [join_commas]. rewrite !append_assoc. reflexivity.
Qed.

Lemma SMARTnew_record_eq (now : RTClib.DateTime) (s : Sensors) :
  SMARTnew.record now s = join_commas (record_fields now s) ++ String LF EmptyString.
Proof.
  unfold SMARTnew.record, record_fields. cbv zeta. unfold crlf.
  cbn [join_commas]. rewrite !append_assoc. reflexivity.
Qed.

Lemma record_dmy_eq (currentTime : RTCTime) (s : Sensors) :
  record_dmy currentTime s =
  join_commas (record_dmy_fields currentTime s) ++ String LF EmptyString.
Proof.
  unfold record_dmy, record_dmy_fields. cbv zeta. unfold crlf.
  cbn [join_commas]. rewrite !append_assoc. reflexivity.
Qed.

Lemma plain_cr (s : string) : plain s -> plain (s ++ String CR EmptyString).
Proof. intros H. apply plain_append; [assumption | split; reflexivity]. Qed.

Lemma record_fields_plain (now : RTClib.DateTime) (s : Sensors) :
  prints_plain s -> Forall plain (record_fields now s).
Proof.
  intros (H1 & H2 & H3 & H4 & H5 & H6). unfold record_fields.
  repeat constructor;
    try apply plain_timestamp_date; try apply plain_timestamp_time;
    try (apply plain_cr; assumption); try (destruct H1, H2, H3, H4, H5, H6; assumption).
Qed.

Lemma record_dmy_fields_plain (currentTime : RTCTime) (s : Sensors) :
  plain (printFloat (readTemperature s)) ->
  plain (printFloat (readHumidity s)) ->
  Forall plain (record_dmy_fields currentTime s).
Proof.
  intros H1 H2. unfold record_dmy_fields.
  repeat constructor;
    try (apply plain_cr; assumption); try (destruct H1, H2; assumption);
    repeat first [ apply plain_print_int | apply plain_append | split; reflexivity ].
Qed.

Lemma record_fields_nul_free (now : RTClib.DateTime) (s : Sensors) :
  prints_nul_free s -> Forall nul_free (removelast (record_fields now s)).
Proof.
  intros (H1 & H2 & H3 & H4 & H5). unfold record_fields. cbn [removelast].
  repeat constructor;
    try apply nul_free_timestamp_date; try apply nul_free_timestamp_time;
    assumption.
Qed.

Lemma Forall_plain_comma (l : list string) :
  Forall plain l -> Forall (fun f => find_char comma f = None) l.
Proof. apply Forall_impl. intros f [H _]. exact H. Qed.

Lemma Forall_plain_lf (l : list string) :
  Forall plain l -> Forall (fun f => find_char LF f = None) l.
Proof. apply Forall_impl. intros f [_ H]. exact H. Qed.

End Records.

(** X1. In the two dual-sensor sketches, a pass of [loop] at which the
    interval has elapsed, the readings pass the validity test and the file
    opens appends exactly one record: its eight fields are the date, the
    time and the six readings in the order of the header, which has eight
    columns too, and the log has one line more.  What the vendor prints for
    a reading is assumed to hold no comma and no line feed. *)
Theorem X1_valid_reading_one_record {V : Vendor}
        (w : World RTClib.DateTime) (dv : Device) :
  rejected (sensors w) = false ->
  sd_write_ok w = true ->
  prints_plain (sensors w) ->
  let line := join_commas (record_fields (clock w) (sensors w)) in
  fields line = record_fields (clock w) (sensors w) /\
  (SMART.interval <= usub32 (millis w) (previousMillis dv) ->
   log_file (SMART.loop w dv) = log_file dv ++ line ++ String LF EmptyString /\
   line_count (log_file (SMART.loop w dv)) = line_count (log_file dv) + 1 /\
   List.length (fields line) = List.length (fields SMART.header)) /\
  (SMARTnew.interval <= usub32 (millis w) (previousMillis dv) ->
   log_file (SMARTnew.loop w dv) = log_file dv ++ line ++ String LF EmptyString /\
   line_count (log_file (SMARTnew.loop w dv)) = line_count (log_file dv) + 1 /\
   List.length (fields line) = List.length (fields SMARTnew.header)).
Proof.
  intros Hr Ho Hp. cbv zeta.
  pose proof (record_fields_plain (clock w) (sensors w) Hp) as Hall.
  assert (Hf : fields (join_commas (record_fields (clock w) (sensors w)))
               = record_fields (clock w) (sensors w)).
  { apply fields_join_commas; [discriminate | apply Forall_plain_comma; assumption]. }
  assert (Hl : line_count (join_commas (record_fields (clock w) (sensors w))
                           ++ String LF EmptyString) = 1).
  { rewrite line_count_append, line_count_plain; [reflexivity|].
    apply find_char_join_commas, Forall_plain_lf. assumption. }
  split; [exact Hf|]. split; intros Hi; apply Z.leb_le in Hi.
  - rewrite SMART_loop_log, Hi, Hr, Ho, SMART_record_eq. simpl andb. cbv iota.
    rewrite line_count_append, Hl, Hf. repeat split; reflexivity.
  - rewrite SMARTnew_loop_log, Hi, Hr, Ho, SMARTnew_record_eq. simpl andb. cbv iota.
    rewrite line_count_append, Hl, Hf. repeat split; reflexivity.
Qed.

Lemma X1_valid_reading_one_record_witness :
  log_file (SMART.loop (V:=bench) (tick june_3 mild) (fresh smart_log)) =
    smart_log ++ "2025-06-03,09:30:00,45.00,22.00,72.00,22.00,72.00,18.00" ++ crlf.
Proof.
  pose proof (X1_valid_reading_one_record (V:=bench) (tick june_3 mild) (fresh smart_log)
                eq_refl eq_refl) as H.
  assert (Hp : prints_plain (V:=bench) (sensors (tick june_3 mild)))
    by (repeat split; reflexivity).
  destruct (H Hp) as (_ & (E & _) & _); [unfold SMART.interval; vm_compute; discriminate|].
  rewrite E. reflexivity.
Defined.

(** ** From the Sampler to the Presenter *)

Lemma file_lines_nonempty (body rest : string) :
  file_lines (body ++ String LF rest) <> [].
Proof.
  induction body as [|c body IH]; simpl.
  - discriminate.
  - destruct (Ascii.eqb c LF); [discriminate|].
    destruct (file_lines (body ++ String LF rest)); [congruence | discriminate].
Qed.

Lemma file_lines_terminated_app (a b : string) :
  terminated a -> file_lines (a ++ b) = (file_lines a ++ file_lines b)%list.
Proof.
  intros [->|[body ->]]; [reflexivity|].
  induction body as [|c body IH].
  - reflexivity.
  - simpl append in *. simpl file_lines.
    destruct (Ascii.eqb c LF).
    + rewrite IH. reflexivity.
    + rewrite IH.
      pose proof (file_lines_nonempty body EmptyString) as Hne.
      destruct (file_lines (body ++ String LF EmptyString)) as [|l ls];
        [congruence | reflexivity].
Qed.

Lemma file_lines_one (line : string) :
  find_char LF line = None -> file_lines (line ++ String LF EmptyString) = [line].
Proof. intros H. apply (file_lines_line line EmptyString H). Qed.

Lemma join_map_app (f : string -> string) (l1 l2 : list string) :
  join (map f (l1 ++ l2)%list) = join (map f l1) ++ join (map f l2).
Proof.
  induction l1 as [|x l1 IH]; simpl; [reflexivity|].
  rewrite IH, append_assoc. reflexivity.
Qed.

(** X2. In SMART.ino a record the Sampler has appended is on the page from
    the next request on: when the log ended with a line feed (or was empty)
    and a pass of [loop] appends a record, the table served from the new log
    is the table served from the old one followed by one more row, whose
    eight cells are the fields of the record in order.  What the vendor
    prints for a reading is assumed to hold no comma and no line feed and,
    for the readings that a comma follows in the record, no NUL byte. *)
Theorem X2_record_becomes_last_row {V : Vendor}
        (w : World RTClib.DateTime) (dv : Device) :
  terminated (log_file dv) ->
  SMART.interval <= usub32 (millis w) (previousMillis dv) ->
  rejected (sensors w) = false ->
  sd_write_ok w = true ->
  prints_plain (sensors w) ->
  prints_nul_free (sensors w) ->
  sent (SMART.log_table true) (log_file (SMART.loop w dv)) =
    sent (SMART.log_table true) (log_file dv) ++
    "<tr>" ++ join (map td (record_fields (clock w) (sensors w))) ++ "</tr>" ++ crlf.
Proof.
  intros Ht Hi Hr Ho Hp Hz. apply Z.leb_le in Hi.
  rewrite !(sent_of_sends _ _ _ (SMART_log_table_sends true)).
  unfold SMART_table.
  rewrite SMART_loop_log, Hi, Hr, Ho, SMART_record_eq. simpl andb. cbv iota.
  pose proof (record_fields_plain (clock w) (sensors w) Hp) as Hall.
  rewrite (file_lines_terminated_app _ _ Ht).
  rewrite file_lines_one
    by (apply find_char_join_commas, Forall_plain_lf; assumption).
  rewrite join_map_app. f_equal.
  cbn [map join fold_right]. rewrite append_nil_r. unfold cell_row.
  rewrite cells_join_commas;
    [reflexivity | discriminate | apply Forall_plain_comma; assumption
    | apply record_fields_nul_free; assumption].
Qed.

Lemma X2_record_becomes_last_row_witness :
  sent (SMART.log_table true)
       (log_file (SMART.loop (V:=bench) (tick june_3 mild) (fresh smart_log))) =
    sent (SMART.log_table true) smart_log ++
    "<tr>" ++ join (map td (record_fields (V:=bench) june_3 mild)) ++ "</tr>" ++ crlf.
Proof.
  apply (X2_record_becomes_last_row (V:=bench) (tick june_3 mild) (fresh smart_log)).
  - right. exists (SMART.header ++ crlf ++ example_row_1 ++ crlf ++ example_row_2
                    ++ String CR EmptyString). reflexivity.
  - vm_compute. discriminate.
  - reflexivity.
  - reflexivity.
  - repeat split; reflexivity.
  - repeat split; reflexivity.
Defined.

(** X3. In the 7-day sketch a record written at the clock reading [now]
    is the last row of the table for every request served up to 7 calendar
    days later (at any time of day), and is not in the table from the 8th
    day on; [k] counts the days from the day of the record to the day of the
    request, within the range of the clock library.  The log before the
    record ends with a line feed (or is empty), and what the vendor prints
    for a reading is assumed to hold no comma and no line feed and, for the
    readings that a comma follows in the record, no NUL byte. *)
Theorem X3_record_shown_for_a_week {V : Vendor}
        (w : World RTClib.DateTime) (dv : Device) (k : nat) (h mi s : Z) :
  terminated (log_file dv) ->
  SMARTnew.interval <= usub32 (millis w) (previousMillis dv) ->
  rejected (sensors w) = false ->
  sd_write_ok w = true ->
  prints_plain (sensors w) ->
  prints_nul_free (sensors w) ->
  valid_date (clock w) ->
  valid_date (days_later k (clock w)) ->
  Z.of_nat k <= 24854 ->
  0 <= h < 24 -> 0 <= mi < 60 -> 0 <= s < 60 ->
  let later := at_time (days_later k (clock w)) h mi s in
  sent (SMARTnew.log_table true later) (log_file (SMARTnew.loop w dv)) =
    sent (SMARTnew.log_table true later) (log_file dv) ++
    if (k <=? 7)%nat
    then "<tr>" ++ join (map td (record_fields (clock w) (sensors w))) ++ "</tr>" ++ crlf
    else EmptyString.
Proof.
  intros Ht Hi Hr Ho Hp Hz Hv Hv' Hk Hh Hmi Hs later. apply Z.leb_le in Hi.
  rewrite !(sent_of_sends _ _ _ (SMARTnew_log_table_sends true later)).
  unfold SMARTnew_table.
  rewrite SMARTnew_loop_log, Hi, Hr, Ho, SMARTnew_record_eq. simpl andb. cbv iota.
  pose proof (record_fields_plain (clock w) (sensors w) Hp) as Hall.
  rewrite (file_lines_terminated_app _ _ Ht).
  rewrite file_lines_one
    by (apply find_char_join_commas, Forall_plain_lf; assumption).
  rewrite filter_app, join_map_app. f_equal.
  assert (Hshown : shown later (join_commas (record_fields (clock w) (sensors w)))
                   = (k <=? 7)%nat).
  { unfold record_fields. cbn [join_commas].
    destruct (date_field_read (clock w)
                (RTClib.timestamp_time (clock w) ++ "," ++
                 join_commas (tl (tl (record_fields (clock w) (sensors w)))))
                Hv) as (Hd & _).
    unfold record_fields in Hd. cbn [tl join_commas] in Hd.
    unfold shown. rewrite Hd. simpl negb. simpl andb.
    exact (within_7_days_later (clock w) k h mi s _ Hv Hv' Hk Hh Hmi Hs). }
  cbn [filter]. rewrite Hshown.
  destruct (k <=? 7)%nat; cbn [map join fold_right]; [|reflexivity].
  rewrite append_nil_r. unfold cell_row.
  rewrite cells_join_commas;
    [reflexivity | discriminate | apply Forall_plain_comma; assumption
    | apply record_fields_nul_free; assumption].
Qed.

Lemma X3_record_shown_for_a_week_witness :
  sent (SMARTnew.log_table (V:=bench) true june_10)
       (log_file (SMARTnew.loop (V:=bench) (tick june_3 mild) (fresh example_log))) =
    sent (SMARTnew.log_table (V:=bench) true june_10) example_log ++
    "<tr>" ++ join (map td (record_fields (V:=bench) june_3 mild)) ++ "</tr>" ++ crlf.
Proof.
  apply (X3_record_shown_for_a_week (V:=bench) (tick june_3 mild) (fresh example_log)
           7 9 30 0).
  - right. exists (SMARTnew.header ++ crlf ++ example_row_1 ++ crlf ++ example_row_2
                    ++ String CR EmptyString). reflexivity.
  - vm_compute. discriminate.
  - reflexivity.
  - reflexivity.
  - repeat split; reflexivity.
  - repeat split; reflexivity.
  - apply valid_dateb_spec. reflexivity.
  - apply valid_dateb_spec. reflexivity.
  - simpl. lia.
  - lia.
  - lia.
  - lia.
Defined.

(** ** The timer and the order of the two halves of [loop] *)

Section Timer.
Context {V : Vendor}.

Lemma SMART_loop_timer (w : World RTClib.DateTime) (dv : Device) :
  previousMillis (SMART.loop w dv) =
  if SMART.interval <=? usub32 (millis w) (previousMillis dv)
  then millis w else previousMillis dv.
Proof.
  unfold SMART.loop, seq, SMART.sampler.
  destruct (SMART_handle_client_sends w dv) as (_ & H & _). rewrite H.
  destruct (SMART.interval <=? _); [|exact H].
  destruct (isnan _ || _ || _ || _); [reflexivity|].
  destruct (sd_write_ok w); reflexivity.
Qed.

Lemma SMARTnew_loop_timer (w : World RTClib.DateTime) (dv : Device) :
  previousMillis (SMARTnew.loop w dv) =
  if SMARTnew.interval <=? usub32 (millis w) (previousMillis dv)
  then millis w else previousMillis dv.
Proof.
  unfold SMARTnew.loop, seq, SMARTnew.sampler.
  destruct (SMARTnew_handle_client_sends w dv) as (_ & H & _). rewrite H.
  destruct (SMARTnew.interval <=? _); [|exact H].
  destruct (isnan _ || _ || _ || _); [reflexivity|].
  destruct (sd_write_ok w); reflexivity.
Qed.

Lemma Download_loop_timer (u : World RTCTime) (dv : Device) :
  previousMillis (Download.loop u dv) =
  if Download.interval <=? usub32 (millis u) (previousMillis dv)
  then millis u else previousMillis dv.
Proof.
  unfold Download.loop, seq, Download.sampler.
  destruct (Download_handle_client_sends u dv) as (_ & H & _). rewrite H.
  destruct (Download.interval <=? _); [|exact H].
  destruct (sd_write_ok u); reflexivity.
Qed.

Lemma Basic_loop_timer (u : World RTCTime) (dv : Device) :
  previousMillis (Basic.loop u dv) =
  if Basic.interval <=? usub32 (millis u) (previousMillis dv)
  then millis u else previousMillis dv.
Proof.
  unfold Basic.loop, seq, Basic.sampler.
  destruct (Basic_handle_client_sends u dv) as (_ & H & _). rewrite H.
  destruct (Basic.interval <=? _); [|exact H].
  destruct (sd_write_ok u); reflexivity.
Qed.

Lemma SMART_sampler_client (w : World RTClib.DateTime) (dv : Device) :
  client_tx (SMART.sampler w dv) = client_tx dv.
Proof.
  unfold SMART.sampler.
  destruct (SMART.interval <=? _); [|reflexivity].
  destruct (isnan _ || _ || _ || _); [reflexivity|].
  destruct (sd_write_ok w); reflexivity.
Qed.

Lemma SMARTnew_sampler_client (w : World RTClib.DateTime) (dv : Device) :
  client_tx (SMARTnew.sampler w dv) = client_tx dv.
Proof.
  unfold SMARTnew.sampler.
  destruct (SMARTnew.interval <=? _); [|reflexivity].
  destruct (isnan _ || _ || _ || _); [reflexivity|].
  destruct (sd_write_ok w); reflexivity.
Qed.

End Timer.

(** X4. An attempt uses up the interval whether or not it wrote a record:
    in each sketch, once a pass of [loop] has found the interval elapsed
    (even if the reading was rejected or the file did not open), the timer
    holds that pass's [millis()] and a later pass that comes less than one
    interval after it leaves the log file as it is.  There is no earlier
    retry. *)
Theorem X4_no_retry_within_interval {V : Vendor}
        (w1 w2 : World RTClib.DateTime) (u1 u2 : World RTCTime) (dv : Device) :
  (SMART.interval <= usub32 (millis w1) (previousMillis dv) ->
   usub32 (millis w2) (millis w1) < SMART.interval ->
   previousMillis (SMART.loop w1 dv) = millis w1 /\
   log_file (SMART.loop w2 (SMART.loop w1 dv)) = log_file (SMART.loop w1 dv)) /\
  (SMARTnew.interval <= usub32 (millis w1) (previousMillis dv) ->
   usub32 (millis w2) (millis w1) < SMARTnew.interval ->
   previousMillis (SMARTnew.loop w1 dv) = millis w1 /\
   log_file (SMARTnew.loop w2 (SMARTnew.loop w1 dv)) = log_file (SMARTnew.loop w1 dv)) /\
  (Download.interval <= usub32 (millis u1) (previousMillis dv) ->
   usub32 (millis u2) (millis u1) < Download.interval ->
   previousMillis (Download.loop u1 dv) = millis u1 /\
   log_file (Download.loop u2 (Download.loop u1 dv)) = log_file (Download.loop u1 dv)) /\
  (Basic.interval <= usub32 (millis u1) (previousMillis dv) ->
   usub32 (millis u2) (millis u1) < Basic.interval ->
   previousMillis (Basic.loop u1 dv) = millis u1 /\
   log_file (Basic.loop u2 (Basic.loop u1 dv)) = log_file (Basic.loop u1 dv)).
Proof.
  split; [|split; [|split]]; intros H1 H2; apply Z.leb_le in H1; apply Z.leb_gt in H2.
  - assert (T : previousMillis (SMART.loop w1 dv) = millis w1)
      by (rewrite SMART_loop_timer, H1; reflexivity).
    split; [exact T|]. rewrite (SMART_loop_log w2), T, H2. reflexivity.
  - assert (T : previousMillis (SMARTnew.loop w1 dv) = millis w1)
      by (rewrite SMARTnew_loop_timer, H1; reflexivity).
    split; [exact T|]. rewrite (SMARTnew_loop_log w2), T, H2. reflexivity.
  - assert (T : previousMillis (Download.loop u1 dv) = millis u1)
      by (rewrite Download_loop_timer, H1; reflexivity).
    split; [exact T|]. rewrite (Download_loop_log u2), T, H2. reflexivity.
  - assert (T : previousMillis (Basic.loop u1 dv) = millis u1)
      by (rewrite Basic_loop_timer, H1; reflexivity).
    split; [exact T|]. rewrite (Basic_loop_log u2), T, H2. reflexivity.
Qed.

(** A failed reading at the hour, a good one ten minutes later: nothing is
    written. *)
Lemma X4_no_retry_within_interval_witness :
  log_file (SMARTnew.loop (V:=bench)
              (mkWorld _ None true true 4200000 june_3 mild)
              (SMARTnew.loop (V:=bench) (tick june_3 dht_failed) (fresh example_log)))
  = example_log.
Proof.
  destruct (X4_no_retry_within_interval (V:=bench)
              (tick june_3 dht_failed) (mkWorld _ None true true 4200000 june_3 mild)
              (tick april_17 mild) (tick april_17 mild) (fresh example_log))
    as (_ & H & _).
  destruct H as [_ H]; [vm_compute; discriminate | vm_compute; reflexivity |].
  rewrite H. reflexivity.
Defined.

(** X5. The page of a pass is served before that pass samples: in the two
    dual-sensor sketches the Sampler sends nothing to the client, and the
    table of a page served to a request that reaches the end of its headers
    is the table of the log as it was when the pass began, also when the
    same pass appends a record. *)
Theorem X5_page_before_sampling {V : Vendor}
        (w : World RTClib.DateTime) (dv : Device) (chars head : string) :
  incoming w = Some chars ->
  request_head chars EmptyString = Some head ->
  client_tx (SMART.loop w dv) =
    client_tx dv ++ text (SMART.before_table (sensors w)) ++
    sent (SMART.log_table (sd_read_ok w)) (log_file dv) ++ text SMART.after_table /\
  client_tx (SMARTnew.loop w dv) =
    client_tx dv ++ text (SMARTnew.before_table (sensors w)) ++
    sent (SMARTnew.log_table (sd_read_ok w) (clock w)) (log_file dv) ++
    text SMARTnew.after_table.
Proof.
  intros Hin Hhead. unfold SMART.loop, SMARTnew.loop, seq.
  rewrite SMART_sampler_client, SMARTnew_sampler_client.
  destruct (SMART_handle_client_sends w dv) as (_ & _ & A).
  destruct (SMARTnew_handle_client_sends w dv) as (_ & _ & B).
  rewrite Hin, Hhead in A, B.
  rewrite (sent_of_sends _ _ _ (SMART_log_table_sends (sd_read_ok w))).
  rewrite (sent_of_sends _ _ _ (SMARTnew_log_table_sends (sd_read_ok w) (clock w))).
  exact (conj A B).
Qed.

Lemma X5_page_before_sampling_witness :
  client_tx (SMART.loop (V:=bench) (hour_later (visit true june_3 mild)) (fresh smart_log)) =
    text (SMART.before_table (V:=bench) mild) ++
    sent (SMART.log_table true) smart_log ++ text SMART.after_table /\
  log_file (SMART.loop (V:=bench) (hour_later (visit true june_3 mild)) (fresh smart_log))
    <> smart_log.
Proof.
  split.
  - exact (proj1 (X5_page_before_sampling (V:=bench) (hour_later (visit true june_3 mild))
                    (fresh smart_log) (get "GET / HTTP/1.1") (get "GET / HTTP/1.1")
                    eq_refl eq_refl)).
  - intros H. apply (f_equal String.length) in H. vm_compute in H. discriminate H.
Defined.

(** ** The log only grows *)

Section Growth.
Context {V : Vendor}.

Lemma life_appends {Clock : Type} (setup : bool -> action) (loop : World Clock -> action) :
  (forall o dv, exists more, log_file (setup o dv) = log_file dv ++ more) ->
  (forall w dv, exists more, log_file (loop w dv) = log_file dv ++ more) ->
  forall evs dv, exists more, log_file (life setup loop evs dv) = log_file dv ++ more.
Proof.
  intros Hs Hl. induction evs as [|e evs IH]; intros dv.
  - exists EmptyString. simpl. symmetry. apply append_nil_r.
  - unfold life in *. simpl fold_left.
    destruct (IH (step setup loop e dv)) as [m2 E2].
    assert (E1 : exists m1, log_file (step setup loop e dv) = log_file dv ++ m1)
      by (destruct e; [apply Hs | apply Hl]).
    destruct E1 as [m1 E1]. exists (m1 ++ m2).
    rewrite E2, E1, append_assoc. reflexivity.
Qed.

Lemma passes_appends {Clock : Type} (loop : World Clock -> action) :
  (forall w dv, exists more, log_file (loop w dv) = log_file dv ++ more) ->
  forall ws dv, exists more, log_file (passes loop ws dv) = log_file dv ++ more.
Proof.
  intros Hl. induction ws as [|w ws IH]; intros dv.
  - exists EmptyString. simpl. symmetry. apply append_nil_r.
  - unfold passes in *. simpl fold_left.
    destruct (IH (loop w dv)) as [m2 E2]. destruct (Hl w dv) as [m1 E1].
    exists (m1 ++ m2). rewrite E2, E1, append_assoc. reflexivity.
Qed.

Lemma setup_appends_SMART (o : bool) (dv : Device) :
  exists more, log_file (SMART.setup o dv) = log_file dv ++ more.
Proof.
  rewrite SMART_setup_log. destruct (_ && _).
  - eexists; reflexivity.
  - exists EmptyString. symmetry. apply append_nil_r.
Qed.

Lemma setup_appends_SMARTnew (o : bool) (dv : Device) :
  exists more, log_file (SMARTnew.setup o dv) = log_file dv ++ more.
Proof.
  rewrite SMARTnew_setup_log. destruct (_ && _).
  - eexists; reflexivity.
  - exists EmptyString. symmetry. apply append_nil_r.
Qed.

Lemma Download_loop_appends (u : World RTCTime) (dv : Device) :
  exists more, log_file (Download.loop u dv) = log_file dv ++ more.
Proof.
  rewrite Download_loop_log. destruct (_ && _).
  - eexists; reflexivity.
  - exists EmptyString. symmetry. apply append_nil_r.
Qed.

Lemma Basic_loop_appends (u : World RTCTime) (dv : Device) :
  exists more, log_file (Basic.loop u dv) = log_file dv ++ more.
Proof.
  rewrite Basic_loop_log. destruct (_ && _).
  - eexists; reflexivity.
  - exists EmptyString. symmetry. apply append_nil_r.
Qed.

End Growth.

(** X6. The log file is append-only: along any life of a dual-sensor device
    (restarts and passes of [loop] in any order, with any clients, readings
    and card answers) and along any sequence of passes of a single-sensor
    sketch, what the file held at the start is still there, unchanged, at
    the front of the file. *)
Theorem X6_log_append_only {V : Vendor}
        (evs : list (event RTClib.DateTime)) (us : list (World RTCTime)) (dv : Device) :
  (exists more, log_file (life SMART.setup SMART.loop evs dv) = log_file dv ++ more) /\
  (exists more, log_file (life SMARTnew.setup SMARTnew.loop evs dv) = log_file dv ++ more) /\
  (exists more, log_file (passes Download.loop us dv) = log_file dv ++ more) /\
  (exists more, log_file (passes Basic.loop us dv) = log_file dv ++ more).
Proof.
  split; [|split; [|split]].
  - apply life_appends; [apply setup_appends_SMART | apply SMART_loop_appends].
  - apply life_appends; [apply setup_appends_SMARTnew | apply SMARTnew_loop_appends].
  - apply passes_appends. apply Download_loop_appends.
  - apply passes_appends. apply Basic_loop_appends.
Qed.

(** X7. A dual-sensor device that first starts on an empty card that opens
    keeps the header as the first line of its log for the rest of its life:
    after the first start and any further restarts and passes the file is
    the header line followed by what was appended. *)
Theorem X7_header_stays_first {V : Vendor}
        (evs : list (event RTClib.DateTime)) (dv : Device) :
  log_file dv = EmptyString ->
  (exists records,
     log_file (life SMART.setup SMART.loop (Boot true :: evs) dv) =
       SMART.header ++ crlf ++ records) /\
  (exists records,
     log_file (life SMARTnew.setup SMARTnew.loop (Boot true :: evs) dv) =
       SMARTnew.header ++ crlf ++ records).
Proof.
  intros He. split.
  - destruct (life_appends SMART.setup SMART.loop setup_appends_SMART SMART_loop_appends
                evs (SMART.setup true dv)) as [more E].
    exists more. unfold life in *. simpl fold_left. rewrite E, SMART_setup_log, He.
    simpl. rewrite ?append_assoc. reflexivity.
  - destruct (life_appends SMARTnew.setup SMARTnew.loop setup_appends_SMARTnew
                SMARTnew_loop_appends evs (SMARTnew.setup true dv)) as [more E].
    exists more. unfold life in *. simpl fold_left. rewrite E, SMARTnew_setup_log, He.
    simpl. rewrite ?append_assoc. reflexivity.
Qed.

Lemma X7_header_stays_first_witness :
  exists records,
    log_file (life SMARTnew.setup (SMARTnew.loop (V:=bench))
                [Boot true; Pass (tick june_3 mild); Boot true; Pass (tick june_10 mild)]
                (fresh EmptyString)) =
    SMARTnew.header ++ crlf ++ records.
Proof.
  exact (proj2 (X7_header_stays_first (V:=bench)
                  [Pass (tick june_3 mild); Boot true; Pass (tick june_10 mild)]
                  (fresh EmptyString) eq_refl)).
Defined.

(** ** The request loop *)

Lemma request_loop_head (on_char : ascii -> action) (respond : action) :
  forall chars currentLine head,
    request_head chars currentLine = Some head ->
    request_loop on_char respond chars currentLine =
    request_loop on_char respond head currentLine /\
    exists tail, chars = head ++ tail.
Proof.
  induction chars as [|c rest IH]; intros currentLine head; simpl request_head.
  - discriminate.
  - destruct (Ascii.eqb c LF) eqn:Ec.
    + destruct (String.length currentLine =? 0)%nat eqn:El.
      * intros [= <-]. split; [|exists rest; reflexivity].
        simpl. rewrite Ec, El. reflexivity.
      * destruct (request_head rest EmptyString) as [h|] eqn:Eh; [|discriminate].
        intros [= <-]. destruct (IH _ _ Eh) as (I1 & tail & I2).
        split; [|exists tail; simpl; congruence].
        simpl. rewrite Ec, El, I1. reflexivity.
    + destruct (negb (Ascii.eqb c CR)) eqn:Er.
      * destruct (request_head rest _) as [h|] eqn:Eh; [|discriminate].
        intros [= <-]. destruct (IH _ _ Eh) as (I1 & tail & I2).
        split; [|exists tail; simpl; congruence].
        simpl. rewrite Ec, Er, I1. reflexivity.
      * destruct (request_head rest _) as [h|] eqn:Eh; [|discriminate].
        intros [= <-]. destruct (IH _ _ Eh) as (I1 & tail & I2).
        split; [|exists tail; simpl; congruence].
        simpl. rewrite Ec, Er, I1. reflexivity.
Qed.

Lemma Download_request_loop_head (respond : string -> action) :
  forall chars currentLine request head,
    request_head chars currentLine = Some head ->
    Download.request_loop respond chars currentLine request =
    Download.request_loop respond head currentLine request.
Proof.
  induction chars as [|c rest IH]; intros currentLine request head; simpl request_head.
  - discriminate.
  - destruct (Ascii.eqb c LF) eqn:Ec.
    + destruct (String.length currentLine =? 0)%nat eqn:El.
      * intros [= <-]. simpl. rewrite Ec, El. reflexivity.
      * destruct (request_head rest EmptyString) as [h|] eqn:Eh; [|discriminate].
        intros [= <-]. simpl. rewrite Ec, El, (IH _ _ _ Eh). reflexivity.
    + destruct (negb (Ascii.eqb c CR)) eqn:Er.
      * destruct (request_head rest _) as [h|] eqn:Eh; [|discriminate].
        intros [= <-]. simpl. rewrite Ec, Er, (IH _ _ _ Eh). reflexivity.
      * destruct (request_head rest _) as [h|] eqn:Eh; [|discriminate].
        intros [= <-]. simpl. rewrite Ec, Er, (IH _ _ _ Eh). reflexivity.
Qed.

(** X8. A client that disconnects before it has sent an empty line gets no
    byte of response, in each of the four sketches: the sketch answers only
    at the empty line that ends the request headers. *)
Theorem X8_no_response_without_empty_line {V : Vendor}
        (w : World RTClib.DateTime) (u : World RTCTime) (chars : string) (dv : Device) :
  incoming w = Some chars ->
  incoming u = Some chars ->
  request_head chars EmptyString = None ->
  client_tx (SMART.handle_client w dv) = client_tx dv /\
  client_tx (SMARTnew.handle_client w dv) = client_tx dv /\
  client_tx (Download.handle_client u dv) = client_tx dv /\
  client_tx (Basic.handle_client u dv) = client_tx dv.
Proof.
  intros Hw Hu Hn.
  destruct (SMART_handle_client_sends w dv) as (_ & _ & A).
  destruct (SMARTnew_handle_client_sends w dv) as (_ & _ & B).
  destruct (Download_handle_client_sends u dv) as (_ & _ & C).
  destruct (Basic_handle_client_sends u dv) as (_ & _ & D).
  rewrite Hw, Hn, append_nil_r in A, B. rewrite Hu, Hn, append_nil_r in C, D.
  exact (conj A (conj B (conj C D))).
Qed.

Lemma X8_no_response_without_empty_line_witness :
  client_tx (Download.handle_client (V:=bench)
               (mkWorld RTCTime (Some ("GET /download HTTP/1.1" ++ crlf ++ "Host: node" ++ crlf))
                        true true 0 april_17 mild)
               (fresh small_log)) = EmptyString.
Proof.
  exact (proj1 (proj2 (proj2
    (X8_no_response_without_empty_line (V:=bench)
       (mkWorld RTClib.DateTime (Some ("GET /download HTTP/1.1" ++ crlf ++ "Host: node" ++ crlf))
                true true 0 june_3 mild)
       (mkWorld RTCTime (Some ("GET /download HTTP/1.1" ++ crlf ++ "Host: node" ++ crlf))
                true true 0 april_17 mild)
       ("GET /download HTTP/1.1" ++ crlf ++ "Host: node" ++ crlf)
       (fresh small_log) eq_refl eq_refl eq_refl)))).
Defined.

(** X9. Nothing that follows the empty line is read: when the characters a
    client sends reach the end of the headers after [head], each sketch
    leaves the device exactly as if the client had sent [head] alone (page,
    log, timer and diagnostic channel), and [head] is the front of what was
    sent. *)
Theorem X9_request_body_ignored {V : Vendor}
        (w : World RTClib.DateTime) (u : World RTCTime) (chars head : string) (dv : Device) :
  incoming w = Some chars ->
  incoming u = Some chars ->
  request_head chars EmptyString = Some head ->
  (exists tail, chars = head ++ tail) /\
  SMART.handle_client w dv = SMART.handle_client (with_incoming w (Some head)) dv /\
  SMARTnew.handle_client w dv = SMARTnew.handle_client (with_incoming w (Some head)) dv /\
  Download.handle_client u dv = Download.handle_client (with_incoming u (Some head)) dv /\
  Basic.handle_client u dv = Basic.handle_client (with_incoming u (Some head)) dv.
Proof.
  intros Hw Hu Hh.
  unfold SMART.handle_client, SMARTnew.handle_client, Download.handle_client,
    Basic.handle_client.
  rewrite Hw, Hu. simpl incoming.
  split; [exact (proj2 (request_loop_head (fun _ => skip) skip _ _ _ Hh))|].
  unfold seq.
  rewrite (proj1 (request_loop_head (fun _ => skip) (SMART.respond w) _ _ _ Hh)).
  rewrite (proj1 (request_loop_head (fun _ => skip) (SMARTnew.respond w) _ _ _ Hh)).
  rewrite (proj1 (request_loop_head serial_write (Basic.respond u) _ _ _ Hh)).
  rewrite (Download_request_loop_head (Download.respond u) _ _ _ _ Hh).
  repeat split.
Qed.

Lemma X9_request_body_ignored_witness :
  Basic.handle_client (V:=bench)
    (mkWorld RTCTime (Some (get "POST / HTTP/1.1" ++ "GET /download")) true true 0 april_17 mild)
    (fresh small_log) =
  Basic.handle_client (V:=bench)
    (mkWorld RTCTime (Some (get "POST / HTTP/1.1")) true true 0 april_17 mild)
    (fresh small_log).
Proof.
  exact (proj2 (proj2 (proj2 (proj2
    (X9_request_body_ignored (V:=bench)
       (mkWorld RTClib.DateTime (Some (get "POST / HTTP/1.1" ++ "GET /download"))
                true true 0 june_3 mild)
       (mkWorld RTCTime (Some (get "POST / HTTP/1.1" ++ "GET /download"))
                true true 0 april_17 mild)
       (get "POST / HTTP/1.1" ++ "GET /download") (get "POST / HTTP/1.1")
       (fresh small_log) eq_refl eq_refl eq_refl))))).
Defined.

(** ** Rows of the single-sensor sketches *)

(** No comma before the first NUL byte: the search fails. *)
Lemma indexOf_none (s : string) :
  find_char comma (c_str s) = None -> indexOf comma s 0 = -1.
Proof.
  intros H. unfold indexOf. rewrite unsigned_nonneg by lia.
  destruct (len s <=? 0); [reflexivity|]. simpl drop.
  unfold strchr. change (Ascii.eqb comma NUL) with false. cbv iota.
  rewrite H. reflexivity.
Qed.

Lemma drop_all (s : string) (n : nat) :
  (String.length s <= n)%nat -> drop n s = EmptyString.
Proof.
  revert n. induction s as [|c s IH]; intros n H.
  - destruct n; reflexivity.
  - destruct n; simpl in *; [lia | apply IH; lia].
Qed.

Lemma length_drop (n : nat) (s : string) :
  String.length (drop n s) = (String.length s - n)%nat.
Proof. revert s. induction n; destruct s; simpl; auto. Qed.

(** [substring(left, -1)]: from [left] to the end of the text. *)
Lemma substring_to_end (s : string) (l : Z) :
  0 <= l -> len s < two32 -> substring s l (-1) = drop (Z.to_nat l) s.
Proof.
  intros Hl Hs. unfold substring.
  rewrite (unsigned_nonneg l) by assumption.
  change (unsigned (-1)) with (two32 - 1).
  destruct (Z.leb_spec (len s) l) as [H|H].
  - destruct (two32 - 1 <? l); destruct (len s <=? _) eqn:E;
      try (symmetry; apply drop_all; unfold len in *; lia).
    + apply Z.leb_gt in E. lia.
    + apply Z.leb_gt in E. lia.
  - destruct (Z.ltb_spec (two32 - 1) l); [lia|].
    destruct (Z.leb_spec (len s) l); [lia|].
    assert (E : (if len s <? two32 - 1 then len s else two32 - 1) = len s)
      by (destruct (Z.ltb_spec (len s) (two32 - 1)); lia).
    rewrite E.
    replace (Z.to_nat (len s - l)) with (String.length (drop (Z.to_nat l) s)).
    + apply take_all.
    + rewrite length_drop. unfold len. lia.
Qed.

Lemma drop_prefix (p u : string) : drop (Z.to_nat (len p)) (p ++ u) = u.
Proof. unfold len. rewrite Nat2Z.id. apply drop_append. Qed.

Ltac cells :=
  unfold seq, client_println, client_print, two_cells, four_cells, td;
  cbn [client_tx]; rewrite ?append_assoc; simpl; rewrite ?append_assoc; reflexivity.

Lemma Basic_row_cut (a rest : string) :
  nul_free a ->
  find_char comma a = None ->
  startsWith (a ++ "," ++ rest) Basic.header = false ->
  sent (Basic.row (a ++ "," ++ rest)) EmptyString = two_cells a rest.
Proof.
  intros Za Ha Hh. unfold sent, Basic.row. unfold Basic.header in *. rewrite Hh.
  destruct (cut_field EmptyString a rest Za Ha) as (I & S & N & E).
  change (EmptyString ++ a ++ String comma rest) with (a ++ "," ++ rest) in *.
  change (len EmptyString) with 0 in *. rewrite Z.add_0_l in *.
  rewrite I, S, N, E, substring_from_suffix. cells.
Qed.

Lemma Download_row_cut (a b c d : string) :
  nul_free a -> nul_free b -> nul_free c ->
  find_char comma a = None -> find_char comma b = None -> find_char comma c = None ->
  startsWith (a ++ "," ++ b ++ "," ++ c ++ "," ++ d) Download.header = false ->
  sent (Download.row (a ++ "," ++ b ++ "," ++ c ++ "," ++ d)) EmptyString
    = four_cells a b c d.
Proof.
  intros Za Zb Zc Ha Hb Hc Hh. unfold sent, Download.row. unfold Download.header in *.
  rewrite Hh.
  destruct (cut_field EmptyString a (b ++ String comma (c ++ String comma d)) Za Ha)
    as (I1 & S1 & N1 & E1).
  change (EmptyString ++ a ++ String comma (b ++ String comma (c ++ String comma d)))
    with (a ++ "," ++ b ++ "," ++ c ++ "," ++ d) in *.
  change (len EmptyString) with 0 in *. rewrite Z.add_0_l in *.
  rewrite I1, S1.
  set (p1 := EmptyString ++ a ++ String comma EmptyString) in *.
  destruct (cut_field p1 b (c ++ String comma d) Zb Hb) as (I2 & S2 & N2 & E2).
  rewrite <- E1 in I2, S2, E2. rewrite N1, I2, S2.
  set (p2 := p1 ++ b ++ String comma EmptyString) in *.
  destruct (cut_field p2 c d Zc Hc) as (I3 & S3 & N3 & E3).
  rewrite <- E2 in I3, S3, E3. rewrite N2, I3, S3, N3.
  rewrite E3 at 1. rewrite substring_from_suffix. cells.
Qed.

(** X10. The rows of the third sketch have two cells.  For a line that does
    not start with the header text and whose first comma comes before any
    NUL byte, the first cell is the text before that comma and the second
    cell is everything after it, further commas included.  A line with no
    comma before its first NUL byte, in particular a line without a comma,
    is shown whole in both cells. *)
Theorem X10_basic_row_two_cells (a rest line : string) :
  nul_free a ->
  find_char comma a = None ->
  startsWith (a ++ "," ++ rest) Basic.header = false ->
  find_char comma (c_str line) = None ->
  startsWith line Basic.header = false ->
  len line < two32 ->
  sent (Basic.row (a ++ "," ++ rest)) EmptyString = two_cells a rest /\
  sent (Basic.row line) EmptyString = two_cells line line.
Proof.
  intros Za Ha Hh Hl Hhl Hlen. split; [exact (Basic_row_cut a rest Za Ha Hh)|].
  unfold sent, Basic.row. unfold Basic.header in *. rewrite Hhl.
  rewrite (indexOf_none line Hl).
  rewrite substring_to_end by (assumption || lia).
  change (-1 + 1) with (len EmptyString).
  change line with (EmptyString ++ line) at 2.
  rewrite substring_from_suffix. cells.
Qed.

Lemma X10_basic_row_two_cells_witness :
  sent (Basic.row "17/4/2025,15:52:0,22.00,45.00") EmptyString =
    two_cells "17/4/2025" "15:52:0,22.00,45.00" /\
  sent (Basic.row nul_then_comma) EmptyString = two_cells nul_then_comma nul_then_comma.
Proof.
  exact (X10_basic_row_two_cells "17/4/2025" "15:52:0,22.00,45.00" nul_then_comma
           eq_refl eq_refl eq_refl eq_refl eq_refl eq_refl).
Defined.

(** X11. The rows of the download sketch always have four cells.  For a
    line that does not start with the header text and whose first three
    commas come before any NUL byte, the line is cut at these commas and the
    fourth cell holds everything after the third, further commas included.
    With fewer commas the missing positions are searched again from the
    start of the line: a line [a,b,c] gives the cells [a], [b], [c] and the
    whole line; a line [a,b] gives [a], [b], [a], [b]; a line with no comma
    before its first NUL byte, in particular a line without a comma, is
    shown whole in all four cells. *)
Theorem X11_download_row_four_cells (a b c d line : string) :
  nul_free a -> nul_free b ->
  find_char comma a = None -> find_char comma b = None -> find_char comma c = None ->
  (nul_free c ->
   startsWith (a ++ "," ++ b ++ "," ++ c ++ "," ++ d) Download.header = false ->
   sent (Download.row (a ++ "," ++ b ++ "," ++ c ++ "," ++ d)) EmptyString
     = four_cells a b c d) /\
  (startsWith (a ++ "," ++ b ++ "," ++ c) Download.header = false ->
   len (a ++ "," ++ b ++ "," ++ c) < two32 ->
   sent (Download.row (a ++ "," ++ b ++ "," ++ c)) EmptyString
     = four_cells a b c (a ++ "," ++ b ++ "," ++ c)) /\
  (startsWith (a ++ "," ++ b) Download.header = false ->
   len (a ++ "," ++ b) < two32 ->
   sent (Download.row (a ++ "," ++ b)) EmptyString = four_cells a b a b) /\
  (find_char comma (c_str line) = None ->
   startsWith line Download.header = false ->
   len line < two32 ->
   sent (Download.row line) EmptyString = four_cells line line line line).
Proof.
  intros Za Zb Ha Hb Hc.
  split; [|split; [|split]]; [|unfold sent, Download.row, Download.header ..].
  - intros Zc Hh. exact (Download_row_cut a b c d Za Zb Zc Ha Hb Hc Hh).
  - intros Hh Hlen. rewrite Hh.
    destruct (cut_field EmptyString a (b ++ String comma c) Za Ha) as (I1 & S1 & N1 & E1).
    change (EmptyString ++ a ++ String comma (b ++ String comma c))
      with (a ++ "," ++ b ++ "," ++ c) in *.
    change (len EmptyString) with 0 in *. rewrite Z.add_0_l in *.
    rewrite I1, S1.
    set (p1 := EmptyString ++ a ++ String comma EmptyString) in *.
    destruct (cut_field p1 b c Zb Hb) as (I2 & S2 & N2 & E2).
    rewrite <- E1 in I2, S2, E2. rewrite N1, I2, S2, N2.
    set (p2 := p1 ++ b ++ String comma EmptyString) in *.
    assert (I3 : indexOf comma (a ++ "," ++ b ++ "," ++ c) (len p2) = -1).
    { rewrite E2 at 1. rewrite indexOf_from, (find_char_c_str_none comma c Hc).
      reflexivity. }
    rewrite I3.
    rewrite substring_to_end by (assumption || apply len_nonneg).
    rewrite E2 at 1. rewrite drop_prefix.
    change (-1 + 1) with (len EmptyString).
    change (a ++ "," ++ b ++ "," ++ c) with (EmptyString ++ a ++ "," ++ b ++ "," ++ c) at 1.
    rewrite substring_from_suffix. cells.
  - intros Hh Hlen. rewrite Hh.
    destruct (cut_field EmptyString a b Za Ha) as (I1 & S1 & N1 & E1).
    change (EmptyString ++ a ++ String comma b) with (a ++ "," ++ b) in *.
    change (len EmptyString) with 0 in *. rewrite Z.add_0_l in *.
    rewrite I1, S1.
    set (p1 := EmptyString ++ a ++ String comma EmptyString) in *.
    assert (I2 : indexOf comma (a ++ "," ++ b) (len a + 1) = -1).
    { rewrite N1. rewrite E1 at 1. rewrite indexOf_from, (find_char_c_str_none comma b Hb).
      reflexivity. }
    rewrite I2. change (-1 + 1) with 0. rewrite I1, S1.
    rewrite substring_to_end by (assumption || (pose proof (len_nonneg a); lia)).
    rewrite N1. rewrite E1 at 1 2. rewrite drop_prefix, substring_from_suffix.
    cells.
  - intros Hl Hh Hlen. rewrite Hh.
    rewrite (indexOf_none line Hl). change (-1 + 1) with 0.
    rewrite (indexOf_none line Hl). change (-1 + 1) with 0.
    rewrite (indexOf_none line Hl). change (-1 + 1) with 0.
    rewrite substring_to_end by (assumption || lia).
    change 0 with (len EmptyString).
    change line with (EmptyString ++ line) at 4.
    rewrite substring_from_suffix. cells.
Qed.

Lemma X11_download_row_four_cells_witness :
  sent (Download.row "17/4/2025,15:52:0,22.00,45.00,extra") EmptyString =
    four_cells "17/4/2025" "15:52:0" "22.00" "45.00,extra" /\
  sent (Download.row "17/4/2025,15:52:0,22.00") EmptyString =
    four_cells "17/4/2025" "15:52:0" "22.00" "17/4/2025,15:52:0,22.00" /\
  sent (Download.row "17/4/2025,15:52:0") EmptyString =
    four_cells "17/4/2025" "15:52:0" "17/4/2025" "15:52:0" /\
  sent (Download.row nul_then_comma) EmptyString =
    four_cells nul_then_comma nul_then_comma nul_then_comma nul_then_comma.
Proof.
  pose proof (X11_download_row_four_cells "17/4/2025" "15:52:0" "22.00" "45.00,extra"
                nul_then_comma eq_refl eq_refl eq_refl eq_refl eq_refl)
    as (H3 & H2 & H1 & H0).
  split; [exact (H3 eq_refl eq_refl)|].
  split; [exact (H2 eq_refl eq_refl)|].
  split; [exact (H1 eq_refl eq_refl) | exact (H0 eq_refl eq_refl eq_refl)].
Defined.

Lemma print_int_head (z : Z) :
  exists c s, print_int z = String c s /\ c <> "D"%char.
Proof.
  unfold print_int, NilZero.string_of_int, NilZero.string_of_uint.
  destruct (Z.to_int z) as [u|u].
  - destruct u; simpl; eexists; eexists; (split; [reflexivity | discriminate]).
  - eexists; eexists; (split; [reflexivity | discriminate]).
Qed.

Lemma record_dmy_not_header {V : Vendor} (currentTime : RTCTime) (s : Sensors) :
  startsWith (join_commas (record_dmy_fields currentTime s))
             "Date,Time,Temperature,Humidity" = false.
Proof.
  unfold record_dmy_fields. cbn [join_commas].
  destruct (print_int_head (getDayOfMonth currentTime)) as (c & t & E & Hc).
  rewrite E. unfold startsWith. simpl append.
  match goal with
  | |- prefix _ (String c ?r) = false =>
      change (prefix "Date,Time,Temperature,Humidity" (String c r))
        with (if ascii_dec "D" c then prefix "ate,Time,Temperature,Humidity" r else false)
  end.
  destruct (ascii_dec "D" c); [congruence | reflexivity].
Qed.

(** X12. In the two single-sensor sketches too a record the Sampler has
    appended is the last row of the table from the next request on: the
    download sketch shows its date, time, temperature and humidity in four
    cells, the third sketch shows the date in one cell and the rest of the
    record in the other.  The log before the record ends with a line feed
    (or is empty); what the vendor prints for a reading is assumed to hold
    no comma and no line feed and, for the temperature in the download
    sketch, no NUL byte. *)
Theorem X12_single_sensor_record_row {V : Vendor} (u : World RTCTime) (dv : Device) :
  terminated (log_file dv) ->
  sd_write_ok u = true ->
  plain (printFloat (readTemperature (sensors u))) ->
  plain (printFloat (readHumidity (sensors u))) ->
  let date := print_int (getDayOfMonth (clock u)) ++ "/" ++
              print_int (getMonth (clock u)) ++ "/" ++ print_int (getYear (clock u)) in
  let time := print_int (getHour (clock u)) ++ ":" ++
              print_int (getMinutes (clock u)) ++ ":" ++ print_int (getSeconds (clock u)) in
  let temperature := printFloat (readTemperature (sensors u)) in
  let humidity := printFloat (readHumidity (sensors u)) ++ String CR EmptyString in
  (Download.interval <= usub32 (millis u) (previousMillis dv) ->
   nul_free temperature ->
   sent (Download.log_table true) (log_file (Download.loop u dv)) =
     sent (Download.log_table true) (log_file dv) ++
     four_cells date time temperature humidity) /\
  (Basic.interval <= usub32 (millis u) (previousMillis dv) ->
   sent (Basic.log_table true) (log_file (Basic.loop u dv)) =
     sent (Basic.log_table true) (log_file dv) ++
     two_cells date (time ++ "," ++ temperature ++ "," ++ humidity)).
Proof.
  intros Ht Ho Hpt Hph. cbv zeta.
  pose proof (record_dmy_fields_plain (clock u) (sensors u) Hpt Hph) as Hall.
  pose proof (record_dmy_not_header (clock u) (sensors u)) as Hnh.
  assert (Hlf : find_char LF (join_commas (record_dmy_fields (clock u) (sensors u))) = None)
    by (apply find_char_join_commas, Forall_plain_lf; assumption).
  pose proof (Forall_plain_comma _ Hall) as Hc.
  unfold record_dmy_fields in Hc.
  inversion Hc as [|? ? C1 Hc1]; subst. inversion Hc1 as [|? ? C2 Hc2]; subst.
  inversion Hc2 as [|? ? C3 Hc3]; subst. clear Hc Hc1 Hc2 Hc3.
  assert (Zd : nul_free (print_int (getDayOfMonth (clock u)) ++ "/" ++
                          print_int (getMonth (clock u)) ++ "/" ++
                          print_int (getYear (clock u))))
    by (repeat first [apply nul_free_print_int | apply nul_free_app | reflexivity]).
  assert (Zt : nul_free (print_int (getHour (clock u)) ++ ":" ++
                          print_int (getMinutes (clock u)) ++ ":" ++
                          print_int (getSeconds (clock u))))
    by (repeat first [apply nul_free_print_int | apply nul_free_app | reflexivity]).
  split; intros Hi; apply Z.leb_le in Hi.
  - intros Zp.
    rewrite !(sent_of_sends _ _ _ (Download_log_table_sends true)).
    unfold Download_table.
    rewrite Download_loop_log, Hi, Ho, record_dmy_eq. simpl andb. cbv iota.
    rewrite (file_lines_terminated_app _ _ Ht), (file_lines_one _ Hlf), join_map_app.
    f_equal. cbn [map join fold_right]. rewrite append_nil_r.
    unfold record_dmy_fields in *. cbn [join_commas] in *.
    apply Download_row_cut; assumption.
  - rewrite !(sent_of_sends _ _ _ (Basic_log_table_sends true)).
    unfold Basic_table.
    rewrite Basic_loop_log, Hi, Ho, record_dmy_eq. simpl andb. cbv iota.
    rewrite (file_lines_terminated_app _ _ Ht), (file_lines_one _ Hlf), join_map_app.
    f_equal. cbn [map join fold_right]. rewrite append_nil_r.
    unfold record_dmy_fields in *. cbn [join_commas] in *.
    apply Basic_row_cut; assumption.
Qed.

Lemma X12_single_sensor_record_row_witness :
  sent (Download.log_table true)
       (log_file (Download.loop (V:=bench) (tick april_17 mild) (fresh small_log))) =
    sent (Download.log_table true) small_log ++
    four_cells "17/4/2025" "15:52:0" "22.00" ("45.00" ++ String CR EmptyString).
Proof.
  refine (proj1 (X12_single_sensor_record_row (V:=bench) (tick april_17 mild)
                   (fresh small_log) _ eq_refl _ _) _ _).
  - right. exists (Download.header ++ crlf ++ "17/4/2025,15:52:0,22.00,45.00"
                    ++ String CR EmptyString). reflexivity.
  - split; reflexivity.
  - split; reflexivity.
  - vm_compute. discriminate.
  - reflexivity.
Defined.

(** ** The line loop and the cell loop, read back *)

Lemma file_lines_no_lf (file : string) :
  Forall (fun l => find_char LF l = None) (file_lines file).
Proof.
  induction file as [|c file IH]; simpl; [constructor|].
  destruct (Ascii.eqb c LF) eqn:E.
  - constructor; [reflexivity | assumption].
  - destruct (file_lines file) as [|l ls].
    + constructor; [simpl; rewrite E; reflexivity | constructor].
    + inversion IH as [|? ? Hl Hls]; subst.
      constructor; [simpl; rewrite E, Hl; reflexivity | assumption].
Qed.

Lemma join_map_cons (f : string -> string) (x : string) (l : list string) :
  join (map f (x :: l)) = f x ++ join (map f l).
Proof. reflexivity. Qed.

Lemma file_lines_rebuild (body : string) :
  join (map (fun l => l ++ String LF EmptyString) (file_lines (body ++ String LF EmptyString)))
  = body ++ String LF EmptyString /\
  Z.of_nat (List.length (file_lines (body ++ String LF EmptyString)))
  = line_count (body ++ String LF EmptyString).
Proof.
  induction body as [|c body [IH1 IH2]].
  - split; reflexivity.
  - simpl append. simpl file_lines.
    change (line_count (String c (body ++ String LF EmptyString)))
      with ((if Ascii.eqb c LF then 1 else 0) + line_count (body ++ String LF EmptyString)).
    pose proof (file_lines_nonempty body EmptyString) as Hne.
    destruct (Ascii.eqb c LF) eqn:E.
    + apply Ascii.eqb_eq in E. subst c. split.
      * rewrite join_map_cons, IH1. reflexivity.
      * cbn [List.length]. lia.
    + destruct (file_lines (body ++ String LF EmptyString)) as [|l ls]; [congruence|].
      split.
      * rewrite join_map_cons in *. simpl append. f_equal. exact IH1.
      * cbn [List.length] in *. lia.
Qed.

(** X13. The line loop of the Presenter runs its body once for every line
    of the file, in order; no line it hands to the body holds a line feed.
    For a file that ends with a line feed the lines, each followed by a line
    feed, are the file again and there are as many of them as the file has
    line feeds; a file with an unterminated last line gives that text as one
    more line. *)
Theorem X13_line_loop (body : string -> action) (file last : string) (dv : Device) :
  terminated file ->
  last <> EmptyString ->
  find_char LF last = None ->
  while_available body file dv =
    fold_left (fun d line => body line d) (file_lines file) dv /\
  Forall (fun l => find_char LF l = None) (file_lines file) /\
  join (map (fun l => l ++ String LF EmptyString) (file_lines file)) = file /\
  Z.of_nat (List.length (file_lines file)) = line_count file /\
  while_available body (file ++ last) dv =
    body last (while_available body file dv).
Proof.
  intros Ht Hne Hlf.
  split; [apply while_available_lines|].
  split; [apply file_lines_no_lf|].
  assert (Hlast : file_lines last = [last]).
  { clear - Hne Hlf. induction last as [|c s IH]; [congruence|].
    simpl in *. destruct (Ascii.eqb c LF); [discriminate|].
    destruct (find_char LF s) eqn:E; [discriminate|].
    destruct s as [|d s']; [reflexivity|].
    rewrite IH by (discriminate || reflexivity). reflexivity. }
  assert (Happ : while_available body (file ++ last) dv =
                 body last (while_available body file dv)).
  { rewrite !while_available_lines, (file_lines_terminated_app _ _ Ht), Hlast.
    rewrite fold_left_app. reflexivity. }
  destruct Ht as [->|[b ->]].
  - repeat split; try reflexivity. exact Happ.
  - destruct (file_lines_rebuild b) as [R1 R2].
    split; [exact R1|]. split; [exact R2 | exact Happ].
Qed.

Lemma X13_line_loop_witness :
  file_lines (example_log ++ "2025-06-03,09:3") =
    (file_lines example_log ++ ["2025-06-03,09:3"])%list /\
  Z.of_nat (List.length (file_lines example_log)) = 3.
Proof.
  assert (T : terminated example_log).
  { right. exists (SMARTnew.header ++ crlf ++ example_row_1 ++ crlf ++ example_row_2
                     ++ String CR EmptyString). reflexivity. }
  pose proof (X13_line_loop (fun l => file_print l) example_log "2025-06-03,09:3"
                (fresh EmptyString) T ltac:(discriminate) eq_refl) as (_ & _ & _ & H & _).
  split; [vm_compute; reflexivity | exact H].
Defined.

Lemma fields_nonempty (line : string) : fields line <> [].
Proof.
  destruct line as [|c s]; simpl; [discriminate|].
  destruct (Ascii.eqb c comma); [discriminate|].
  destruct (fields s); discriminate.
Qed.

Lemma fields_no_comma (line : string) :
  Forall (fun f => find_char comma f = None) (fields line).
Proof.
  induction line as [|c s IH]; simpl.
  - constructor; [reflexivity | constructor].
  - destruct (Ascii.eqb c comma) eqn:E.
    + constructor; [reflexivity | assumption].
    + destruct (fields s) as [|f fs].
      * constructor; [simpl; rewrite E; reflexivity | constructor].
      * inversion IH as [|? ? Hf Hfs]; subst.
        constructor; [simpl; rewrite E, Hf; reflexivity | assumption].
Qed.

Lemma join_commas_fields (line : string) : join_commas (fields line) = line.
Proof.
  induction line as [|c s IH]; [reflexivity|].
  simpl fields. pose proof (fields_nonempty s) as Hne.
  destruct (Ascii.eqb c comma) eqn:E.
  - apply Ascii.eqb_eq in E. subst c.
    destruct (fields s) as [|f fs]; [congruence|].
    change (join_commas (EmptyString :: f :: fs))
      with (String comma (join_commas (f :: fs))).
    rewrite IH. reflexivity.
  - destruct (fields s) as [|f fs]; [congruence|].
    rewrite <- IH. destruct fs; reflexivity.
Qed.

Lemma cells_nonempty (line : string) : cells line <> [].
Proof.
  destruct line as [|c s]; simpl; [discriminate|].
  destruct (Ascii.eqb c NUL); [discriminate|].
  destruct (Ascii.eqb c comma); [discriminate|].
  destruct (cells s); discriminate.
Qed.

Lemma join_commas_cells (line : string) : join_commas (cells line) = line.
Proof.
  induction line as [|c s IH]; [reflexivity|].
  simpl cells. pose proof (cells_nonempty s) as Hne.
  destruct (Ascii.eqb c NUL); [reflexivity|].
  destruct (Ascii.eqb c comma) eqn:E.
  - apply Ascii.eqb_eq in E. subst c.
    destruct (cells s) as [|f fs]; [congruence|].
    change (join_commas (EmptyString :: f :: fs))
      with (String comma (join_commas (f :: fs))).
    rewrite IH. reflexivity.
  - destruct (cells s) as [|f fs]; [congruence|].
    rewrite <- IH. destruct fs; reflexivity.
Qed.

(** X14. The cell loop of the dual-sensor sketches loses nothing of a line:
    the cell contents of the row it sends, joined by commas, are the line
    again (an empty line gives one empty cell).  The line is cut at its
    commas as far as its first NUL byte; for a line without a NUL byte the
    row has one cell per comma-separated field and no cell holds a comma. *)
Theorem X14_row_cells_are_the_line (line : string) (dv : Device) :
  client_tx (SMART.row line dv) =
    client_tx dv ++ "<tr>" ++ join (map td (cells line)) ++ "</tr>" ++ crlf /\
  join_commas (cells line) = line /\
  cells line <> [] /\
  (nul_free line ->
   cells line = fields line /\
   Forall (fun f => find_char comma f = None) (cells line)).
Proof.
  split; [|split; [apply join_commas_cells | split; [apply cells_nonempty|]]].
  - destruct (SMART_row_sends line dv) as (_ & _ & H). exact H.
  - intros Hz. rewrite (cells_fields line Hz).
    split; [reflexivity | apply fields_no_comma].
Qed.

Lemma X14_row_cells_are_the_line_witness :
  cells example_row_1 =
    ["2025-06-01"; "12:00:00"; "45.0"; "22.0"; "71.6"; "21.5"; "70.7"; "18.0"] /\
  cells nul_then_comma = [nul_then_comma].
Proof.
  split; [|reflexivity].
  destruct (X14_row_cells_are_the_line example_row_1 (fresh EmptyString))
    as (_ & _ & _ & H).
  rewrite (proj1 (H eq_refl)). reflexivity.
Defined.

(** ** Dates read back, rows from the future, readings that pass *)

(** X15. The date the 7-day sketch cuts out of a record is the date the
    Sampler wrote: for a record whose clock reading is a calendar date of
    the years 2000 to 2099, the text before the first comma is the
    [YYYY-MM-DD] timestamp and the three numbers sliced out of it at the
    fixed offsets make the same date at midnight. *)
Theorem X15_date_read_back {V : Vendor} (now : RTClib.DateTime) (s : Sensors) :
  valid_date now ->
  let line := join_commas (record_fields now s) in
  let dateStr := substring line 0 (indexOf comma line 0) in
  SMARTnew.record now s = line ++ String LF EmptyString /\
  dateStr = RTClib.timestamp_date now /\
  RTClib.DateTime_of (toInt (substring dateStr 0 4)) (toInt (substring dateStr 5 7))
                     (toInt (substring dateStr 8 10)) 0 0 0
    = at_time now 0 0 0.
Proof.
  intros Hv. cbv zeta.
  split; [apply SMARTnew_record_eq|].
  unfold record_fields. cbn [join_commas].
  destruct (date_field_read now
              (RTClib.timestamp_time now ++ "," ++
               join_commas (tl (tl (record_fields now s)))) Hv)
    as (_ & F1 & F2 & F3 & F4).
  unfold record_fields in F1. cbn [tl join_commas] in F1.
  split; [exact F1|]. rewrite F1, F2, F3, F4.
  destruct Hv as (Hy & Hm & Hd).
  pose proof (days_in_month_le_31 (2000 + RTClib.yOff now) (RTClib.month now)) as H31.
  unfold RTClib.DateTime_of, at_time, to_uint16, to_uint8. mod_small.
  destruct (Z.leb_spec 2000 (2000 + RTClib.yOff now)); [|lia].
  mod_small. f_equal. lia.
Qed.

Lemma X15_date_read_back_witness :
  substring (join_commas (record_fields (V:=bench) june_3 mild)) 0
            (indexOf comma (join_commas (record_fields (V:=bench) june_3 mild)) 0)
  = "2025-06-03".
Proof.
  exact (proj1 (proj2 (X15_date_read_back (V:=bench) june_3 mild
                         (proj1 (valid_dateb_spec june_3) eq_refl)))).
Defined.

Lemma to_int32_to_uint32 (x : Z) :
  - 2 ^ 31 <= x < 2 ^ 31 -> to_int32 (to_uint32 x) = x.
Proof.
  intros H. unfold to_int32, to_uint32, two32.
  rewrite Zplus_mod_idemp_l.
  change (2 ^ 32) with 4294967296 in *. change (2 ^ 31) with 2147483648 in *.
  rewrite Z.mod_small by lia. lia.
Qed.

(** X16. A row dated after the clock reading is always rendered by the
    7-day sketch: when the date of the record lies [k] calendar days after
    the day of the request (a clock that was set back, say), within the
    range of the clock library, the date test passes at any time of day and
    the row of the cell loop is sent; when the rest of the record holds no
    NUL byte, that row has one cell for each comma-separated field. *)
Theorem X16_future_row_rendered {V : Vendor}
        (now : RTClib.DateTime) (k : nat) (h mi s : Z) (rest : string) (dv : Device) :
  valid_date now ->
  valid_date (days_later k now) ->
  Z.of_nat k <= 24854 ->
  0 <= h < 24 -> 0 <= mi < 60 -> 0 <= s < 60 ->
  let line := RTClib.timestamp_date (days_later k now) ++ "," ++ rest in
  SMARTnew.within_7_days (at_time now h mi s) line = true /\
  SMARTnew.row (at_time now h mi s) line dv = client_print (cell_row line) dv /\
  (nul_free rest -> cell_row line = table_row line).
Proof.
  intros Hn Hr Hk Hh Hmi Hs. cbv zeta.
  set (r := days_later k now) in *.
  destruct (date_field_read r rest Hr) as (Hd & F1 & F2 & F3 & F4).
  assert (W : SMARTnew.within_7_days (at_time now h mi s)
                (RTClib.timestamp_date r ++ "," ++ rest) = true).
  { unfold SMARTnew.within_7_days. rewrite F1, F2, F3, F4.
    destruct (day_number_later now k Hn ltac:(destruct Hr as (Hy & _); exact (proj2 Hy)))
      as (_ & Hdn).
    fold r in Hdn.
    pose proof (day_number_bound now Hn) as Bn.
    pose proof (day_number_bound r Hr) as Br.
    assert (E : RTClib.DateTime_of (2000 + RTClib.yOff r) (RTClib.month r) (RTClib.day r) 0 0 0
                = at_time r 0 0 0).
    { destruct Hr as (Hy & Hm & Hdy).
      pose proof (days_in_month_le_31 (2000 + RTClib.yOff r) (RTClib.month r)) as H31.
      unfold RTClib.DateTime_of, at_time, to_uint16, to_uint8. mod_small.
      destruct (Z.leb_spec 2000 (2000 + RTClib.yOff r)); [|lia].
      mod_small. f_equal. lia. }
    rewrite E.
    assert (U1 : RTClib.unixtime (at_time now h mi s)
                 = day_number now * 86400 + ((h * 60 + mi) * 60 + s) + 946684800).
    { unfold RTClib.unixtime, RTClib.time2ulong, RTClib.SECONDS_FROM_1970_TO_2000, at_time.
      simpl RTClib.yOff. simpl RTClib.month. simpl RTClib.day.
      simpl RTClib.hour. simpl RTClib.minute. simpl RTClib.second.
      fold (day_number now).
      unfold to_uint32, two32. mod_small. lia. }
    assert (U2 : RTClib.unixtime (at_time r 0 0 0) = day_number r * 86400 + 946684800).
    { unfold RTClib.unixtime, RTClib.time2ulong, RTClib.SECONDS_FROM_1970_TO_2000, at_time.
      simpl RTClib.yOff. simpl RTClib.month. simpl RTClib.day.
      simpl RTClib.hour. simpl RTClib.minute. simpl RTClib.second.
      fold (day_number r).
      unfold to_uint32, two32. mod_small. lia. }
    unfold RTClib.minus, RTClib.days. rewrite U1, U2, Hdn.
    set (tod := (h * 60 + mi) * 60 + s).
    assert (Ht : 0 <= tod < 86400) by (unfold tod; lia).
    replace (_ - _) with (tod - Z.of_nat k * 86400) by lia.
    rewrite to_int32_to_uint32 by (change (2 ^ 31) with 2147483648; lia).
    set (x := tod - Z.of_nat k * 86400).
    assert (Hq : - Z.of_nat k <= Z.quot x 86400 <= 0).
    { pose proof (Z.quot_rem' x 86400) as Q.
      destruct (Z_le_gt_dec 0 x) as [Hx|Hx].
      - pose proof (Z.rem_bound_pos x 86400 Hx ltac:(lia)).
        assert (x < 86400) by (unfold x; lia). lia.
      - pose proof (Z.rem_bound_pos_neg x 86400 ltac:(lia) ltac:(lia)).
        assert (- Z.of_nat k * 86400 <= x) by (unfold x; lia). lia. }
    unfold to_int16. mod_small. apply Z.leb_le. lia. }
  split; [exact W|]. split.
  - unfold SMARTnew.row. rewrite Hd, W. apply print_cells_row.
  - intros Hz. apply cell_row_table_row.
    apply nul_free_app; [apply nul_free_timestamp_date|].
    apply (nul_free_app ","); [reflexivity | exact Hz].
Qed.

Lemma X16_future_row_rendered_witness :
  SMARTnew.within_7_days (V:=bench) (RTClib.mkDateTime 25 6 3 23 59 59)
                         (RTClib.timestamp_date june_10 ++ ",09:30:00,45.00") = true.
Proof.
  exact (proj1 (X16_future_row_rendered (V:=bench) june_3 7 23 59 59 ",09:30:00,45.00"
                  (fresh EmptyString)
                  (proj1 (valid_dateb_spec june_3) eq_refl)
                  (proj1 (valid_dateb_spec (days_later 7 june_3)) eq_refl)
                  ltac:(simpl; lia) ltac:(lia) ltac:(lia) ltac:(lia))).
Defined.

Lemma feq_sentinel (x : float) :
  feq x DEVICE_DISCONNECTED_C = true <-> x = DEVICE_DISCONNECTED_C.
Proof.
  change DEVICE_DISCONNECTED_C with (S754_finite true 16646144 (-17)).
  split; [|intros ->; reflexivity].
  unfold feq, SFeqb, SFcompare.
  destruct x as [sg|sg| |sg m e]; try discriminate.
  - destruct sg; discriminate.
  - destruct sg; [|discriminate].
    destruct (Z.compare e (-17)) eqn:Ee; try discriminate.
    destruct (Pos.compare_cont Eq m 16646144) eqn:Em; try discriminate.
    intros _. apply Z.compare_eq in Ee. apply Pos.compare_eq in Em.
    subst. reflexivity.
Qed.

Lemma append_same (a b : string) : a ++ b = a -> b = EmptyString.
Proof.
  induction a as [|c a IH]; simpl; [auto|].
  intros [= H]. exact (IH H).
Qed.

Lemma record_nonempty {V : Vendor} (now : RTClib.DateTime) (s : Sensors) :
  SMART.record now s <> EmptyString /\ SMARTnew.record now s <> EmptyString.
Proof.
  unfold SMART.record, SMARTnew.record. cbv zeta.
  split; destruct (RTClib.timestamp_date now); discriminate.
Qed.

(** X17. The validity test of the dual-sensor Samplers rejects exactly the
    readings with a not-a-number humidity or air temperature or with the
    water temperature equal to the sentinel -127: at the end of an
    interval, with the file open, a pass of [loop] leaves the log as it is
    if and only if the reading is one of these, and appends the record
    otherwise.  A water temperature that is itself not-a-number is not
    one of them: with the other readings valid its record is appended. *)
Theorem X17_validity_test {V : Vendor} (w : World RTClib.DateTime) (dv : Device) :
  sd_write_ok w = true ->
  let invalid :=
    isnan (readHumidity (sensors w)) = true \/
    isnan (readTemperature (sensors w)) = true \/
    isnan (readTemperatureF (sensors w)) = true \/
    getTempCByIndex0 (sensors w) = DEVICE_DISCONNECTED_C in
  (SMART.interval <= usub32 (millis w) (previousMillis dv) ->
   (log_file (SMART.loop w dv) = log_file dv <-> invalid) /\
   (~ invalid ->
    log_file (SMART.loop w dv) = log_file dv ++ SMART.record (clock w) (sensors w))) /\
  (SMARTnew.interval <= usub32 (millis w) (previousMillis dv) ->
   (log_file (SMARTnew.loop w dv) = log_file dv <-> invalid) /\
   (~ invalid ->
    log_file (SMARTnew.loop w dv) = log_file dv ++ SMARTnew.record (clock w) (sensors w))) /\
  (isnan (readHumidity (sensors w)) = false ->
   isnan (readTemperature (sensors w)) = false ->
   isnan (readTemperatureF (sensors w)) = false ->
   getTempCByIndex0 (sensors w) = S754_nan ->
   ~ invalid).
Proof.
  intros Ho invalid.
  assert (R : rejected (sensors w) = true <-> invalid).
  { unfold rejected, invalid. rewrite !orb_true_iff, feq_sentinel. tauto. }
  destruct (record_nonempty (clock w) (sensors w)) as [N1 N2].
  split; [|split].
  - intros Hi. apply Z.leb_le in Hi.
    rewrite SMART_loop_log, Hi, Ho.
    destruct (rejected (sensors w)); simpl andb; cbv iota.
    + split; [split; [intros _; apply R; reflexivity | reflexivity]|].
      intros Hn. destruct Hn. apply R. reflexivity.
    + split; [|reflexivity]. split.
      * intros E. apply append_same in E. contradiction.
      * intros Hinv. apply R in Hinv. discriminate.
  - intros Hi. apply Z.leb_le in Hi.
    rewrite SMARTnew_loop_log, Hi, Ho.
    destruct (rejected (sensors w)); simpl andb; cbv iota.
    + split; [split; [intros _; apply R; reflexivity | reflexivity]|].
      intros Hn. destruct Hn. apply R. reflexivity.
    + split; [|reflexivity]. split.
      * intros E. apply append_same in E. contradiction.
      * intros Hinv. apply R in Hinv. discriminate.
  - intros H1 H2 H3 H4 Hinv. apply R in Hinv.
    unfold rejected in Hinv. rewrite H1, H2, H3, H4 in Hinv. discriminate.
Qed.

Lemma X17_validity_test_witness :
  log_file (SMART.loop (V:=bench)
              (tick june_3 (mkSensors (float_of_int 45) (float_of_int 22)
                                      (float_of_int 72) S754_nan))
              (fresh smart_log)) =
    smart_log ++ "2025-06-03,09:30:00,45.00,22.00,72.00,22.00,72.00,nan" ++ crlf /\
  log_file (SMART.loop (V:=bench)
              (tick june_3 (mkSensors (float_of_int 45) S754_nan
                                      (float_of_int 72) (float_of_int 18)))
              (fresh smart_log)) = smart_log.
Proof.
  split.
  - destruct (X17_validity_test (V:=bench)
                (tick june_3 (mkSensors (float_of_int 45) (float_of_int 22)
                                        (float_of_int 72) S754_nan))
                (fresh smart_log) eq_refl) as (A & _ & N).
    destruct (A ltac:(vm_compute; discriminate)) as (_ & H).
    rewrite (H (N eq_refl eq_refl eq_refl eq_refl)). reflexivity.
  - destruct (X17_validity_test (V:=bench)
                (tick june_3 (mkSensors (float_of_int 45) S754_nan
                                        (float_of_int 72) (float_of_int 18)))
                (fresh smart_log) eq_refl) as (A & _ & _).
    destruct (A ltac:(vm_compute; discriminate)) as (H & _).
    apply H. right. left. reflexivity.
Defined.

(** X18. The default page of the download sketch is sent without a status
    line: for a request without the download token the first bytes the
    client receives are [<html>], while both answers of the download route
    start with [HTTP/1.1]. *)
Theorem X18_download_page_without_status_line {V : Vendor}
        (w : World RTCTime) (chars head : string) (dv : Device) :
  incoming w = Some chars ->
  request_head chars EmptyString = Some head ->
  contains "GET /download" head = false ->
  client_tx (Download.handle_client w dv) =
    client_tx dv ++ Download_page w (log_file dv) /\
  prefix ("<html>" ++ crlf) (Download_page w (log_file dv)) = true /\
  prefix "HTTP/1.1" (Download_page w (log_file dv)) = false /\
  prefix "HTTP/1.1" (download_ok (log_file dv)) = true /\
  prefix "HTTP/1.1" download_failed = true.
Proof.
  intros Hin Hh Hc.
  destruct (Download_handle_client_sends w dv) as (_ & _ & H).
  assert (Hc' : contains "GET /download" (c_str head) = false).
  { destruct (contains "GET /download" (c_str head)) eqn:E; [|reflexivity].
    rewrite (contains_c_str _ _ E) in Hc. discriminate Hc. }
  rewrite Hin, Hh in H.
  rewrite (indexOfStr_contains "GET /download" head eq_refl ltac:(discriminate)), Hc' in H.
  split; [exact H|]. repeat split; reflexivity.
Qed.

Lemma X18_download_page_without_status_line_witness :
  prefix ("<html>" ++ crlf)
    (client_tx (Download.handle_client (V:=bench) (visit true april_17 mild) (fresh small_log)))
  = true.
Proof.
  rewrite (proj1 (X18_download_page_without_status_line (V:=bench)
                    (visit true april_17 mild) (get "GET / HTTP/1.1") (get "GET / HTTP/1.1")
                    (fresh small_log) eq_refl eq_refl eq_refl)).
  reflexivity.
Defined.

(** ** Samples that cannot be written, headers that are written again *)

(** X19. A sample that cannot be written is lost, not kept for later: in
    each sketch, when the file does not open at a pass at which the interval
    has elapsed, and opens at a later pass one interval on, the log gains
    the record of the later pass only. *)
Theorem X19_failed_write_discards_sample {V : Vendor}
        (w1 w2 : World RTClib.DateTime) (u1 u2 : World RTCTime) (dv : Device) :
  sd_write_ok w1 = false -> sd_write_ok w2 = true ->
  sd_write_ok u1 = false -> sd_write_ok u2 = true ->
  rejected (sensors w2) = false ->
  (SMART.interval <= usub32 (millis w1) (previousMillis dv) ->
   SMART.interval <= usub32 (millis w2) (millis w1) ->
   log_file (SMART.loop w2 (SMART.loop w1 dv)) =
     log_file dv ++ SMART.record (clock w2) (sensors w2)) /\
  (SMARTnew.interval <= usub32 (millis w1) (previousMillis dv) ->
   SMARTnew.interval <= usub32 (millis w2) (millis w1) ->
   log_file (SMARTnew.loop w2 (SMARTnew.loop w1 dv)) =
     log_file dv ++ SMARTnew.record (clock w2) (sensors w2)) /\
  (Download.interval <= usub32 (millis u1) (previousMillis dv) ->
   Download.interval <= usub32 (millis u2) (millis u1) ->
   log_file (Download.loop u2 (Download.loop u1 dv)) =
     log_file dv ++ record_dmy (clock u2) (sensors u2)) /\
  (Basic.interval <= usub32 (millis u1) (previousMillis dv) ->
   Basic.interval <= usub32 (millis u2) (millis u1) ->
   log_file (Basic.loop u2 (Basic.loop u1 dv)) =
     log_file dv ++ record_dmy (clock u2) (sensors u2)).
Proof.
  intros F1 O2 G1 P2 R2.
  split; [|split; [|split]]; intros H1 H2; apply Z.leb_le in H1; apply Z.leb_le in H2.
  - rewrite (SMART_loop_log w2), SMART_loop_timer, H1, H2, R2, O2.
    rewrite (SMART_loop_log w1), F1, andb_false_r. reflexivity.
  - rewrite (SMARTnew_loop_log w2), SMARTnew_loop_timer, H1, H2, R2, O2.
    rewrite (SMARTnew_loop_log w1), F1, andb_false_r. reflexivity.
  - rewrite (Download_loop_log u2), Download_loop_timer, H1, H2, P2.
    rewrite (Download_loop_log u1), G1, andb_false_r. reflexivity.
  - rewrite (Basic_loop_log u2), Basic_loop_timer, H1, H2, P2.
    rewrite (Basic_loop_log u1), G1, andb_false_r. reflexivity.
Qed.

Lemma X19_failed_write_discards_sample_witness :
  log_file (Basic.loop (V:=bench)
              (mkWorld RTCTime None true true 1800000 (mkRTCTime 17 4 2025 16 22 0) mild)
              (Basic.loop (V:=bench)
                 (mkWorld RTCTime None true false 900000 (mkRTCTime 17 4 2025 16 7 0) dht_failed)
                 (fresh small_log)))
  = small_log ++ "17/4/2025,16:22:0,22.00,45.00" ++ crlf.
Proof.
  pose proof (X19_failed_write_discards_sample (V:=bench)
                (mkWorld _ None true false 900000 june_3 mild)
                (mkWorld _ None true true 1800000 june_3 mild)
                (mkWorld RTCTime None true false 900000 (mkRTCTime 17 4 2025 16 7 0) dht_failed)
                (mkWorld RTCTime None true true 1800000 (mkRTCTime 17 4 2025 16 22 0) mild)
                (fresh small_log) eq_refl eq_refl eq_refl eq_refl eq_refl)
    as (_ & _ & _ & H).
  rewrite H; [reflexivity | vm_compute; discriminate | vm_compute; discriminate].
Defined.

(** X20. The headers that the single-sensor sketches write at every start
    never reach the page: after a start on a log that ends with a line feed
    (or is empty) the file has one more header line and the table served
    from it is the table served before. *)
Theorem X20_repeated_header_hidden (dv : Device) :
  terminated (log_file dv) ->
  (exists dv', Download.setup true dv = Some dv' /\
               log_file dv' = log_file dv ++ Download.header ++ crlf /\
               sent (Download.log_table true) (log_file dv') =
                 sent (Download.log_table true) (log_file dv)) /\
  (exists dv', Basic.setup true dv = Some dv' /\
               log_file dv' = log_file dv ++ Basic.header ++ crlf /\
               sent (Basic.log_table true) (log_file dv') =
                 sent (Basic.log_table true) (log_file dv)).
Proof.
  intros Ht. split.
  - eexists. split; [reflexivity|]. split; [reflexivity|].
    unfold Download.setup. simpl log_file.
    rewrite !(sent_of_sends _ _ _ (Download_log_table_sends true)).
    unfold Download_table.
    rewrite (file_lines_terminated_app _ _ Ht), join_map_app.
    apply append_nil_r.
  - eexists. split; [reflexivity|]. split; [reflexivity|].
    unfold Basic.setup. simpl log_file.
    rewrite !(sent_of_sends _ _ _ (Basic_log_table_sends true)).
    unfold Basic_table.
    rewrite (file_lines_terminated_app _ _ Ht), join_map_app.
    apply append_nil_r.
Qed.

Lemma X20_repeated_header_hidden_witness :
  exists dv', Download.setup true (fresh small_log) = Some dv' /\
              log_file dv' = small_log ++ Download.header ++ crlf /\
              sent (Download.log_table true) (log_file dv') =
                sent (Download.log_table true) small_log.
Proof.
  apply (X20_repeated_header_hidden (fresh small_log)).
  right. exists (Download.header ++ crlf ++ "17/4/2025,15:52:0,22.00,45.00"
                   ++ String CR EmptyString). reflexivity.
Defined.

(** X21. SMART.ino has no header test in its line loop: when its log starts
    with the header line that its own [setup] writes, the first row of the
    table it serves is that header line, cut into cells like a record; the
    rest of the table is what the sketch sends for the rest of the log. *)
Theorem X21_smart_renders_header (rest : string) (dv : Device) :
  log_file dv = SMART.header ++ crlf ++ rest ->
  client_tx (SMART.log_table true dv) =
    client_tx dv ++
    "<tr>" ++ join (map td (fields (SMART.header ++ String CR EmptyString))) ++ "</tr>" ++ crlf ++
    sent (SMART.log_table true) rest /\
  fields (SMART.header ++ String CR EmptyString) =
    ["Date"; "Time"; "Humidity (%)"; "Air Temp (C)"; "Air Temp (F)";
     "Heat Index (C)"; "Heat Index (F)"; "Water Temp (C)" ++ String CR EmptyString].
Proof.
  intros Hlog. split; [|reflexivity].
  destruct (SMART_log_table_sends true dv) as (_ & _ & H).
  rewrite (sent_of_sends _ _ _ (SMART_log_table_sends true)).
  unfold SMART_table in *. rewrite Hlog in H.
  change (SMART.header ++ crlf ++ rest)
    with ((SMART.header ++ String CR EmptyString) ++ String LF rest) in H.
  rewrite file_lines_line in H by reflexivity.
  rewrite H, join_map_cons.
  rewrite (cell_row_table_row (SMART.header ++ String CR EmptyString) eq_refl).
  unfold table_row. rewrite !append_assoc. reflexivity.
Qed.

Lemma X21_smart_renders_header_witness :
  prefix ("<tr><td>Date</td><td>Time</td>")
         (client_tx (SMART.log_table true (fresh smart_log))) = true.
Proof.
  rewrite (proj1 (X21_smart_renders_header example_rows (fresh smart_log) eq_refl)).
  reflexivity.
Defined.

(** ** Where the request headers end *)

Lemma request_head_line (l rest cl : string) :
  find_char LF l = None ->
  request_head (l ++ String LF rest) cl =
  if (String.length (cl ++ strip_cr l) =? 0)%nat
  then Some (l ++ String LF EmptyString)
  else option_map (append (l ++ String LF EmptyString)) (request_head rest EmptyString).
Proof.
  revert cl. induction l as [|c l IH]; intros cl Hl.
  - simpl. rewrite append_nil_r.
    destruct (String.length cl =? 0)%nat; [reflexivity|].
    destruct (request_head rest EmptyString); reflexivity.
  - simpl in Hl. destruct (Ascii.eqb c LF) eqn:Ec; [discriminate|].
    destruct (find_char LF l) eqn:El; [discriminate|].
    simpl append. simpl request_head. rewrite Ec.
    simpl strip_cr. destruct (Ascii.eqb c CR) eqn:Er; simpl negb; cbv iota.
    + rewrite (IH cl eq_refl).
      destruct (String.length (cl ++ strip_cr l) =? 0)%nat; [reflexivity|].
      destruct (request_head rest EmptyString); reflexivity.
    + rewrite (IH (cl ++ String c EmptyString) eq_refl).
      rewrite append_assoc. simpl append.
      destruct (String.length (cl ++ String c (strip_cr l)) =? 0)%nat; [reflexivity|].
      destruct (request_head rest EmptyString); reflexivity.
Qed.

Lemma request_head_partial (l cl : string) :
  find_char LF l = None -> request_head l cl = None.
Proof.
  revert cl. induction l as [|c l IH]; intros cl Hl; [reflexivity|].
  simpl in Hl. destruct (Ascii.eqb c LF) eqn:Ec; [discriminate|].
  destruct (find_char LF l) eqn:El; [discriminate|].
  simpl. rewrite Ec. destruct (negb (Ascii.eqb c CR)); rewrite IH by reflexivity;
    reflexivity.
Qed.

Lemma request_head_unlines (ls : list string) (blank partial tail : string) :
  Forall header_line ls ->
  find_char LF blank = None ->
  strip_cr blank = EmptyString ->
  find_char LF partial = None ->
  request_head (unlines ls ++ blank ++ String LF tail) EmptyString =
    Some (unlines ls ++ blank ++ String LF EmptyString) /\
  request_head (unlines ls ++ partial) EmptyString = None.
Proof.
  intros Hls Hb Hs Hp. unfold unlines.
  induction Hls as [|l ls [Hl Hv] Hls [IH1 IH2]].
  - simpl. split.
    + rewrite (request_head_line blank tail EmptyString Hb), Hs. reflexivity.
    + apply request_head_partial. assumption.
  - rewrite join_map_cons, !append_assoc.
    change (String LF EmptyString ++ ?x) with (String LF x).
    split.
    + simpl append.
      rewrite (request_head_line l _ EmptyString Hl). simpl append.
      destruct (strip_cr l) eqn:E; [congruence|]. simpl Nat.eqb. cbv iota.
      rewrite IH1. simpl. rewrite !append_assoc. reflexivity.
    + simpl append.
      rewrite (request_head_line l _ EmptyString Hl). simpl append.
      destruct (strip_cr l) eqn:E; [congruence|]. simpl Nat.eqb. cbv iota.
      rewrite IH2. reflexivity.
Qed.

(** X22. The request headers end at the first line that is empty once its
    carriage returns are dropped.  After any number of lines that hold
    something else, such a line (bare, or made of carriage returns) makes
    SMART.ino send its page, whatever follows it; as long as no such line
    has come, also in the middle of a line, nothing is sent.  The download
    sketch routes on the lines up to and including that one: the token in
    what follows has no effect. *)
Theorem X22_headers_end_at_empty_line {V : Vendor}
        (w1 w2 : World RTClib.DateTime) (u : World RTCTime)
        (ls : list string) (blank partial tail : string) (dv : Device) :
  Forall header_line ls ->
  find_char LF blank = None ->
  strip_cr blank = EmptyString ->
  find_char LF partial = None ->
  incoming w1 = Some (unlines ls ++ blank ++ String LF tail) ->
  incoming w2 = Some (unlines ls ++ partial) ->
  incoming u = Some (unlines ls ++ blank ++ String LF tail) ->
  client_tx (SMART.handle_client w1 dv) =
    client_tx dv ++ text (SMART.before_table (sensors w1)) ++
    sent (SMART.log_table (sd_read_ok w1)) (log_file dv) ++
    "</table></body></html>" ++ crlf /\
  client_tx (SMART.handle_client w2 dv) = client_tx dv /\
  client_tx (Download.handle_client u dv) =
    client_tx dv ++
    (if 0 <=? indexOfStr "GET /download" (unlines ls ++ blank ++ String LF EmptyString)
     then (if sd_read_ok u then download_ok (log_file dv) else download_failed)
     else Download_page u (log_file dv)).
Proof.
  intros Hls Hb Hs Hp H1 H2 Hu.
  destruct (request_head_unlines ls blank partial tail Hls Hb Hs Hp) as [R1 R2].
  destruct (SMART_handle_client_sends w1 dv) as (_ & _ & A).
  destruct (SMART_handle_client_sends w2 dv) as (_ & _ & B).
  destruct (Download_handle_client_sends u dv) as (_ & _ & C).
  rewrite H1, R1 in A. rewrite H2, R2, append_nil_r in B. rewrite Hu, R1 in C.
  rewrite (sent_of_sends _ _ _ (SMART_log_table_sends (sd_read_ok w1))).
  exact (conj A (conj B C)).
Qed.

Lemma X22_headers_end_at_empty_line_witness :
  client_tx (SMART.handle_client (V:=bench)
               (mkWorld RTClib.DateTime
                        (Some ("GET / HTTP/1.1" ++ crlf ++ "Host: 192.168.4.1" ++ crlf ++
                              "Host: 192.1"))
                        true true 0 june_3 mild)
               (fresh smart_log)) = EmptyString /\
  prefix "<html>"
    (client_tx (Download.handle_client (V:=bench)
                  (mkWorld RTCTime (Some (get "GET / HTTP/1.1" ++ "GET /download"))
                           true true 0 april_17 mild)
                  (fresh small_log))) = true.
Proof.
  destruct (X22_headers_end_at_empty_line (V:=bench)
              (mkWorld RTClib.DateTime (Some (get "GET / HTTP/1.1" ++ "GET /download"))
                       true true 0 june_3 mild)
              (mkWorld RTClib.DateTime
                       (Some ("GET / HTTP/1.1" ++ crlf ++ "Host: 192.168.4.1" ++ crlf ++
                              "Host: 192.1"))
                       true true 0 june_3 mild)
              (mkWorld RTCTime (Some (get "GET / HTTP/1.1" ++ "GET /download"))
                       true true 0 april_17 mild)
              ["GET / HTTP/1.1" ++ String CR EmptyString;
               "Host: 192.168.4.1" ++ String CR EmptyString]
              (String CR EmptyString) "Host: 192.1" "GET /download" (fresh smart_log)
              ltac:(repeat constructor; discriminate) eq_refl eq_refl eq_refl
              eq_refl eq_refl eq_refl) as (_ & B & _).
  split; [exact B|].
  destruct (X22_headers_end_at_empty_line (V:=bench)
              (mkWorld RTClib.DateTime (Some (get "GET / HTTP/1.1" ++ "GET /download"))
                       true true 0 june_3 mild)
              (mkWorld RTClib.DateTime
                       (Some ("GET / HTTP/1.1" ++ crlf ++ "Host: 192.168.4.1" ++ crlf ++
                              "Host: 192.1"))
                       true true 0 june_3 mild)
              (mkWorld RTCTime (Some (get "GET / HTTP/1.1" ++ "GET /download"))
                       true true 0 april_17 mild)
              ["GET / HTTP/1.1" ++ String CR EmptyString;
               "Host: 192.168.4.1" ++ String CR EmptyString]
              (String CR EmptyString) "Host: 192.1" "GET /download" (fresh small_log)
              ltac:(repeat constructor; discriminate) eq_refl eq_refl eq_refl
              eq_refl eq_refl eq_refl) as (_ & _ & C).
  rewrite C. reflexivity.
Defined.
